(** * Rail chatbot backend: the tool-calling orchestrator and its clients

    A shallow embedding of [app/models.py], [app/mcp_client.py],
    [app/llm_client.py] and [app/orchestrator.py], and the properties of
    the orchestration loop and of the tool-server client.

    The Python code is asynchronous but runs one request at a time; each
    coroutine is embedded as a computation in a state-and-exception monad
    [M].  The state holds the fields of the [McpClient] object, the outside
    world (tool server and LLM provider, reached through oracles), a log of
    the traffic sent to the outside, the store of the Python lists of chat
    messages, and the events the generator has yielded so far.  A run of
    the generator [process_message] is the run to its end, every event
    consumed.  What the libraries do (httpx, the OpenAI SDK, [json],
    [str] on containers, pydantic's conversions) is a parameter of the
    development, the class [Env]; the scripted services instantiate it
    for the concrete runs at the end. *)

From Stdlib Require Import String Ascii List ZArith Lia Bool DecimalString.
From Stdlib Require Import RelationClasses Sorted.
Import ListNotations.
Open Scope string_scope.
Open Scope list_scope.
Set Warnings "-register-all".

(** ** JSON values and Python dictionaries *)

(** A JSON value as Python's [json] module decodes it.  A float is kept as
    the pair [m], [e] of the dyadic rational [m * 2^e]; a dict is the
    ordered list of its items. *)
Inductive json : Type :=
| JNull
| JBool (b : bool)
| JInt (n : Z)
| JFloat (m e : Z)
| JStr (s : string)
| JArr (l : list json)
| JObj (d : list (string * json)).

Definition dict : Type := list (string * json).

(** [d.get(k)] as an option, [k in d], [d.get(k, default)] and [d[k] = v]. *)
Fixpoint dict_get (k : string) (d : dict) : option json :=
  match d with
  | [] => None
  | (k', v) :: d' => if String.eqb k k' then Some v else dict_get k d'
  end.

Definition dict_has (k : string) (d : dict) : bool :=
  match dict_get k d with Some _ => true | None => false end.

Definition dict_get_default (k : string) (default : json) (d : dict) : json :=
  match dict_get k d with Some v => v | None => default end.

Fixpoint dict_set (k : string) (v : json) (d : dict) : dict :=
  match d with
  | [] => [(k, v)]
  | (k', v') :: d' =>
      if String.eqb k k' then (k, v) :: d' else (k', v') :: dict_set k v d'
  end.

Definition keys (d : dict) : list string := map fst d.

Definition newline : string := String (ascii_of_nat 10) EmptyString.

(** Truth value of a Python [str] and of an [Optional[str]]. *)
Definition str_truthy (s : string) : bool :=
  match s with EmptyString => false | String _ _ => true end.

Definition opt_str_truthy (o : option string) : bool :=
  match o with Some s => str_truthy s | None => false end.

Definition list_truthy {A : Type} (l : list A) : bool :=
  match l with [] => false | _ :: _ => true end.

(** [needle in haystack] on two strings. *)
Definition str_contains (needle haystack : string) : bool :=
  match String.index 0 needle haystack with Some _ => true | None => false end.

(** The one-character strings a Python [for] yields from a string. *)
Fixpoint str_chars (s : string) : list string :=
  match s with
  | EmptyString => []
  | String c s' => String c EmptyString :: str_chars s'
  end.

(** ** Exceptions *)

(** [McpException] is the class of [mcp_client.py]; [BuiltinError] is an
    exception of the interpreter or of pydantic, of class [cls], raised on
    the value [culprit]; [External] is raised by httpx or by the OpenAI
    SDK and only its text matters. *)
Inductive PyExn : Type :=
| McpException (code : json) (message : json)
| BuiltinError (cls : string) (culprit : json)
| External (text : string).

Inductive Result (A : Type) : Type :=
| Ok (a : A)
| Raise (e : PyExn).
Arguments Ok {A} a.
Arguments Raise {A} e.

Definition rbind {A B : Type} (r : Result A) (f : A -> Result B) : Result B :=
  match r with Ok a => f a | Raise e => Raise e end.

(** A list comprehension whose element expression may raise: it stops at
    the first element that does. *)
Fixpoint rmap {A B : Type} (f : A -> Result B) (l : list A) : Result (list B) :=
  match l with
  | [] => Ok []
  | x :: l' => rbind (f x) (fun y => rbind (rmap f l') (fun ys => Ok (y :: ys)))
  end.

(** ** app/models.py *)

Inductive MessageRole : Type := USER | ASSISTANT | SYSTEM | TOOL.

Definition role_value (r : MessageRole) : string :=
  match r with
  | USER => "user"
  | ASSISTANT => "assistant"
  | SYSTEM => "system"
  | TOOL => "tool"
  end.

Module ToolCall.
Record t : Type := Build { id : string; name : string; arguments : dict }.
End ToolCall.

Module ChatMessage.
Record t : Type := Build {
  role : MessageRole;
  content : string;
  tool_call_id : option string;
  tool_calls : option (list ToolCall.t) }.
End ChatMessage.

Module McpTool.
Record t : Type := Build {
  name : string;
  description : option string;
  input_schema : option dict }.
End McpTool.

Module McpContent.
Record t : Type := Build { type : string; text : option string }.
End McpContent.

Module McpToolResult.
Record t : Type := Build { content : list McpContent.t; is_error : bool }.
End McpToolResult.

Inductive EventType : Type :=
| THINKING | TOOL_START | TOOL_COMPLETE | TOOL_ERROR | RESPONSE | ERROR | DONE.

Module OrchestratorEvent.
Record t : Type := Build {
  type : EventType;
  text : option string;
  name : option string;
  args : option dict;
  result : option string }.
End OrchestratorEvent.

(** The event constructors as the orchestrator calls them, every field
    not given left at its default [None]. *)
Definition text_event (ty : EventType) (text : string) : OrchestratorEvent.t :=
  OrchestratorEvent.Build ty (Some text) None None None.

Definition bare_event (ty : EventType) : OrchestratorEvent.t :=
  OrchestratorEvent.Build ty None None None None.

Definition start_event (name : string) (args : dict) : OrchestratorEvent.t :=
  OrchestratorEvent.Build TOOL_START None (Some name) (Some args) None.

Definition result_event (ty : EventType) (name result : string)
  : OrchestratorEvent.t :=
  OrchestratorEvent.Build ty None (Some name) None (Some result).

Definition EventType_eqb (a b : EventType) : bool :=
  match a, b with
  | THINKING, THINKING | TOOL_START, TOOL_START
  | TOOL_COMPLETE, TOOL_COMPLETE | TOOL_ERROR, TOOL_ERROR
  | RESPONSE, RESPONSE | ERROR, ERROR | DONE, DONE => true
  | _, _ => false
  end.

(** ** app/config.py *)

Record Settings : Type := {
  OPENAI_API_KEY : string;
  OPENAI_MODEL : string;
  RAPIDAPI_KEY : string;
  RAPIDAPI_HOST : string;
  MCP_SERVER_URL : string }.

Definition MCP_PROTOCOL_VERSION : string := "2025-03-26".

(** ** The outside world *)

Record HttpRequest : Type := {
  url : string;
  json_body : json;
  headers : list (string * string) }.

(** What the client reads of an HTTP response: the outcome of
    [response.json()]. *)
Record HttpResponse : Type := { response_json : Result json }.

(** The keyword arguments of [chat.completions.create]. *)
Record CompletionRequest : Type := {
  model : string;
  messages : list json;
  tools : option (list json);
  tool_choice : option string }.

(** What [chat] reads of a completion: per choice, the message's content
    and its function calls. *)
Record FunctionCall : Type := {
  call_id : string;
  function_name : string;
  function_arguments : string }.

Record CompletionMessage : Type := {
  message_content : option string;
  message_tool_calls : option (list FunctionCall) }.

Record ChatCompletion : Type := { choices : list CompletionMessage }.

Inductive Traffic : Type :=
| Posted (r : HttpRequest)
| Completed (r : CompletionRequest).

(** The libraries and services the code calls and the repository does not
    contain.  [post] is [httpx.AsyncClient.post], [aclose] its [aclose],
    [completions_create] the OpenAI SDK call; each may answer differently
    from one call to the next, which the [World] they thread accounts
    for.  [json_loads] gives [None] for a [json.JSONDecodeError];
    [py_repr] is [str] on floats, lists and dicts; [lax_bool] is pydantic's
    conversion of a value that is not a [bool] to a [bool] field;
    [exc_text] is [str(e)] of a built-in exception. *)
Class Env : Type := {
  World : Type;
  settings : Settings;
  post : World -> HttpRequest -> Result HttpResponse * World;
  aclose : World -> World;
  completions_create : World -> CompletionRequest -> Result ChatCompletion * World;
  json_loads : string -> option json;
  json_dumps : json -> string;
  py_repr : json -> string;
  lax_bool : json -> option bool;
  exc_text : string -> json -> string }.

(** ** The Python object store of message lists *)

Definition loc : Type := nat.
Definition Heap : Type := list (list ChatMessage.t).

Definition heap_get (h : Heap) (l : loc) : list ChatMessage.t := nth l h [].

Fixpoint heap_set (h : Heap) (l : loc) (v : list ChatMessage.t) : Heap :=
  match h, l with
  | [], _ => []
  | _ :: h', O => v :: h'
  | x :: h', S l' => x :: heap_set h' l' v
  end.

Definition heap_alloc (h : Heap) (v : list ChatMessage.t) : loc * Heap :=
  (length h, h ++ [v]).

(** ** The fields of [McpClient] *)

Module McpClient.
Record t : Type := Build {
  _request_id : Z;
  _is_initialized : bool;
  _session_id : option string;
  _cached_tools : list McpTool.t }.

(** [McpClient.__init__]. *)
Definition __init__ : t := Build 0 false None [].

Definition CLIENT_NAME : string := "RailChatbotBackend".
Definition CLIENT_VERSION : string := "1.0.0".
End McpClient.

(** ** The state and the monad of the coroutines *)

Section Backend.
Context {E : Env}.

Record State : Type := mkState {
  mcp : McpClient.t;
  world : World;
  traffic : list Traffic;
  heap : Heap;
  emitted : list OrchestratorEvent.t }.

Definition M (A : Type) : Type := State -> Result A * State.

Definition ret {A : Type} (a : A) : M A := fun st => (Ok a, st).

Definition bind {A B : Type} (m : M A) (f : A -> M B) : M B :=
  fun st =>
    match m st with
    | (Ok a, st') => f a st'
    | (Raise e, st') => (Raise e, st')
    end.

Definition raise {A : Type} (e : PyExn) : M A := fun st => (Raise e, st).

Definition lift {A : Type} (r : Result A) : M A := fun st => (r, st).

(** [try: body except Exception as e: handler e]. *)
Definition try_except {A : Type} (body : M A) (handler : PyExn -> M A) : M A :=
  fun st =>
    match body st with
    | (Ok a, st') => (Ok a, st')
    | (Raise e, st') => handler e st'
    end.

Notation "x <- m ;; k" := (bind m (fun x => k))
  (at level 61, m at next level, right associativity).
Notation "m ;; k" := (bind m (fun _ => k))
  (at level 61, right associativity).

(** Reading and writing the client object. *)
Definition get_client : M McpClient.t := fun st => (Ok (mcp st), st).

Definition put_client (c : McpClient.t) : M unit :=
  fun st => (Ok tt, mkState c (world st) (traffic st) (heap st) (emitted st)).

(** [yield ev]: the event is handed to the consumer. *)
Definition emit (ev : OrchestratorEvent.t) : M unit :=
  fun st =>
    (Ok tt, mkState (mcp st) (world st) (traffic st) (heap st)
                    (emitted st ++ [ev])).

(** [await self._http_client.post(url, json=body, headers=headers)]. *)
Definition http_post (req : HttpRequest) : M HttpResponse :=
  fun st =>
    let (r, w) := post (world st) req in
    (r, mkState (mcp st) w (traffic st ++ [Posted req]) (heap st) (emitted st)).

(** [await self._http_client.aclose()]. *)
Definition http_aclose : M unit :=
  fun st =>
    (Ok tt, mkState (mcp st) (aclose (world st)) (traffic st) (heap st)
                    (emitted st)).

(** [await self._client.chat.completions.create(...)]. *)
Definition openai_create (req : CompletionRequest) : M ChatCompletion :=
  fun st =>
    let (r, w) := completions_create (world st) req in
    (r, mkState (mcp st) w (traffic st ++ [Completed req]) (heap st)
                (emitted st)).

(** [list(l)], [l.append(x)] and a read of the list [l] refers to. *)
Definition list_copy (l : loc) : M loc :=
  fun st =>
    let (l', h) := heap_alloc (heap st) (heap_get (heap st) l) in
    (Ok l', mkState (mcp st) (world st) (traffic st) h (emitted st)).

Definition list_append (l : loc) (x : ChatMessage.t) : M unit :=
  fun st =>
    (Ok tt, mkState (mcp st) (world st) (traffic st)
                    (heap_set (heap st) l (heap_get (heap st) l ++ [x]))
                    (emitted st)).

Definition list_read (l : loc) : M (list ChatMessage.t) :=
  fun st => (Ok (heap_get (heap st) l), st).

(** ** Python built-ins on JSON values *)

(** [str(v)]. *)
Definition py_str (v : json) : string :=
  match v with
  | JNull => "None"
  | JBool true => "True"
  | JBool false => "False"
  | JInt n => NilZero.string_of_int (Z.to_int n)
  | JStr s => s
  | JFloat _ _ | JArr _ | JObj _ => py_repr v
  end.

(** [str(e)]. *)
Definition exn_str (e : PyExn) : string :=
  match e with
  | McpException _ message => py_str message
  | BuiltinError cls culprit => exc_text cls culprit
  | External text => text
  end.

(** ["error" in response]. *)
Definition contains_error (response : json) : Result bool :=
  match response with
  | JObj d => Ok (dict_has "error" d)
  | JArr l =>
      Ok (existsb (fun x => match x with
                            | JStr s => String.eqb s "error"
                            | _ => false
                            end) l)
  | JStr s => Ok (str_contains "error" s)
  | _ => Raise (BuiltinError "TypeError" response)
  end.

(** [v[k]] with a string key. *)
Definition subscript (v : json) (k : string) : Result json :=
  match v with
  | JObj d =>
      match dict_get k d with
      | Some x => Ok x
      | None => Raise (BuiltinError "KeyError" (JStr k))
      end
  | _ => Raise (BuiltinError "TypeError" v)
  end.

(** [v.get(k, default)]: only a dict has the method. *)
Definition get_method (v : json) (k : string) (default : json) : Result json :=
  match v with
  | JObj d => Ok (dict_get_default k default d)
  | _ => Raise (BuiltinError "AttributeError" v)
  end.

(** The values [for x in v] goes through. *)
Definition py_iter (v : json) : Result (list json) :=
  match v with
  | JArr l => Ok l
  | JStr s => Ok (map JStr (str_chars s))
  | JObj d => Ok (map JStr (keys d))
  | _ => Raise (BuiltinError "TypeError" v)
  end.

(** pydantic's validation of a field of type [str], [Optional[str]],
    [Optional[dict[str, Any]]], [dict[str, Any]] and [bool]. *)
Definition validate_str (v : json) : Result string :=
  match v with
  | JStr s => Ok s
  | _ => Raise (BuiltinError "ValidationError" v)
  end.

Definition validate_opt_str (v : json) : Result (option string) :=
  match v with
  | JNull => Ok None
  | JStr s => Ok (Some s)
  | _ => Raise (BuiltinError "ValidationError" v)
  end.

Definition validate_opt_dict (v : json) : Result (option dict) :=
  match v with
  | JNull => Ok None
  | JObj d => Ok (Some d)
  | _ => Raise (BuiltinError "ValidationError" v)
  end.

Definition validate_dict (v : json) : Result dict :=
  match v with
  | JObj d => Ok d
  | _ => Raise (BuiltinError "ValidationError" v)
  end.

Definition validate_bool (v : json) : Result bool :=
  match v with
  | JBool b => Ok b
  | _ =>
      match lax_bool v with
      | Some b => Ok b
      | None => Raise (BuiltinError "ValidationError" v)
      end
  end.

(** ** app/mcp_client.py *)

Definition request_headers (c : McpClient.t) : list (string * string) :=
  [("Content-Type", "application/json");
   ("x-api-host", RAPIDAPI_HOST settings);
   ("x-api-key", RAPIDAPI_KEY settings);
   ("MCP-Protocol-Version", MCP_PROTOCOL_VERSION)]
  ++ (if opt_str_truthy (McpClient._session_id c)
      then match McpClient._session_id c with
           | Some s => [("Mcp-Session-Id", s)]
           | None => []
           end
      else []).

(** [McpClient._send_request]. *)
Definition _send_request (method : string) (params : option json) : M json :=
  c <- get_client ;;
  let request_id := (McpClient._request_id c + 1)%Z in
  let c' := McpClient.Build request_id (McpClient._is_initialized c)
              (McpClient._session_id c) (McpClient._cached_tools c) in
  put_client c' ;;
  let request_body :=
    JObj ([("jsonrpc", JStr "2.0"); ("id", JInt request_id);
           ("method", JStr method)]
          ++ match params with
             | Some p => [("params", p)]
             | None => []
             end) in
  response <- http_post
                {| url := MCP_SERVER_URL settings;
                   json_body := request_body;
                   headers := request_headers c' |} ;;
  lift (response_json response).

(** [McpClient._send_notification]: a failure of the post is logged and
    dropped. *)
Definition _send_notification (method : string) : M unit :=
  c <- get_client ;;
  let request_body := JObj [("jsonrpc", JStr "2.0"); ("method", JStr method)] in
  try_except
    (http_post {| url := MCP_SERVER_URL settings;
                  json_body := request_body;
                  headers := request_headers c |} ;;
     ret tt)
    (fun _ => ret tt).

(** [raise McpException(response["error"].get("code", -1),
    response["error"].get("message", "Unknown error"))]. *)
Definition raise_mcp_exception {A : Type} (response : json) : M A :=
  err <- lift (subscript response "error") ;;
  code <- lift (get_method err "code" (JInt (-1))) ;;
  err' <- lift (subscript response "error") ;;
  message <- lift (get_method err' "message" (JStr "Unknown error")) ;;
  raise (McpException code message).

(** [McpClient.initialize]. *)
Definition initialize : M unit :=
  c <- get_client ;;
  if McpClient._is_initialized c then ret tt
  else
    let params :=
      JObj [("protocolVersion", JStr MCP_PROTOCOL_VERSION);
            ("capabilities", JObj [("tools", JObj [])]);
            ("clientInfo",
             JObj [("name", JStr McpClient.CLIENT_NAME);
                   ("version", JStr McpClient.CLIENT_VERSION)])] in
    response <- _send_request "initialize" (Some params) ;;
    has_error <- lift (contains_error response) ;;
    if has_error then raise_mcp_exception response
    else
      _send_notification "notifications/initialized" ;;
      c1 <- get_client ;;
      put_client (McpClient.Build (McpClient._request_id c1) true
                    (McpClient._session_id c1) (McpClient._cached_tools c1)).

(** [McpClient._ensure_initialized]. *)
Definition _ensure_initialized : M unit :=
  c <- get_client ;;
  if negb (McpClient._is_initialized c) then initialize else ret tt.

(** The element expression [McpTool(name=tool.get("name", ''), ...)]. *)
Definition make_tool (tool : json) : Result McpTool.t :=
  rbind (get_method tool "name" (JStr EmptyString)) (fun name =>
  rbind (get_method tool "description" JNull) (fun description =>
  rbind (get_method tool "inputSchema" JNull) (fun input_schema =>
  rbind (validate_str name) (fun name' =>
  rbind (validate_opt_str description) (fun description' =>
  rbind (validate_opt_dict input_schema) (fun input_schema' =>
  Ok (McpTool.Build name' description' input_schema'))))))).

(** [McpClient.list_tools]. *)
Definition list_tools : M (list McpTool.t) :=
  _ensure_initialized ;;
  c <- get_client ;;
  if list_truthy (McpClient._cached_tools c) then ret (McpClient._cached_tools c)
  else
    response <- _send_request "tools/list" None ;;
    has_error <- lift (contains_error response) ;;
    if has_error then raise_mcp_exception response
    else
      result <- lift (get_method response "result" (JObj [])) ;;
      tools_array <- lift (get_method result "tools" (JArr [])) ;;
      items <- lift (py_iter tools_array) ;;
      fetched <- lift (rmap make_tool items) ;;
      c1 <- get_client ;;
      put_client (McpClient.Build (McpClient._request_id c1)
                    (McpClient._is_initialized c1) (McpClient._session_id c1)
                    fetched) ;;
      ret fetched.

(** The dict comprehension
    [{k: str(v) if v is not None else None for k, v in arguments.items()}]. *)
Definition coerce (v : json) : json :=
  match v with
  | JNull => JNull
  | _ => JStr (py_str v)
  end.

Definition string_args (arguments : dict) : dict :=
  fold_left (fun acc kv => dict_set (fst kv) (coerce (snd kv)) acc) arguments [].

(** The element expression [McpContent(type=content.get("type", "text"),
    text=content.get("text"))]. *)
Definition make_content (content : json) : Result McpContent.t :=
  rbind (get_method content "type" (JStr "text")) (fun type =>
  rbind (get_method content "text" JNull) (fun text =>
  rbind (validate_str type) (fun type' =>
  rbind (validate_opt_str text) (fun text' =>
  Ok (McpContent.Build type' text'))))).

(** [McpClient.call_tool]. *)
Definition call_tool (name : string) (arguments : dict) : M McpToolResult.t :=
  _ensure_initialized ;;
  let params :=
    JObj [("name", JStr name); ("arguments", JObj (string_args arguments))] in
  response <- _send_request "tools/call" (Some params) ;;
  has_error <- lift (contains_error response) ;;
  if has_error then raise_mcp_exception response
  else
    result <- lift (get_method response "result" (JObj [])) ;;
    content_array <- lift (get_method result "content" (JArr [])) ;;
    items <- lift (py_iter content_array) ;;
    contents <- lift (rmap make_content items) ;;
    is_error <- lift (get_method result "isError" (JBool false)) ;;
    is_error' <- lift (validate_bool is_error) ;;
    ret (McpToolResult.Build contents is_error').

(** [McpClient.is_connected]. *)
Definition is_connected : M bool :=
  c <- get_client ;; ret (McpClient._is_initialized c).

(** [McpClient.disconnect]. *)
Definition disconnect : M unit :=
  c <- get_client ;;
  put_client (McpClient.Build (McpClient._request_id c) false None []) ;;
  http_aclose.

(** ** app/llm_client.py *)

Inductive LlmResponse : Type :=
| TextResponse (text : string)
| ToolCallsResponse (tool_calls : list ToolCall.t)
| LlmError (message : string) (cause : option PyExn).

Definition SYSTEM_PROMPT : string :=
  String.concat newline
    ["You are a helpful Indian Railways assistant powered by IRCTC tools.";
     "You can help users with:";
     "- Checking PNR status";
     "- Finding trains between stations";
     "- Getting train schedules";
     "- Checking seat availability";
     "- Getting fare information";
     "- Train live status";
     "- And more railway-related queries";
     EmptyString;
     "When users ask about trains, use the available tools to fetch real-time information.";
     "Always be helpful and provide clear, concise responses.";
     "If a tool returns an error, explain it to the user in a friendly way."].

(** One entry of [openai_msg["tool_calls"]]. *)
Definition openai_tool_call (tc : ToolCall.t) : json :=
  JObj [("id", JStr (ToolCall.id tc));
        ("type", JStr "function");
        ("function",
         JObj [("name", JStr (ToolCall.name tc));
               ("arguments", JStr (json_dumps (JObj (ToolCall.arguments tc))))])].

(** The body of [for msg in messages]: the provider's form of one turn. *)
Definition openai_message (msg : ChatMessage.t) : json :=
  let openai_msg :=
    [("role", JStr (role_value (ChatMessage.role msg)));
     ("content", JStr (ChatMessage.content msg))] in
  let openai_msg :=
    match ChatMessage.tool_call_id msg with
    | Some i =>
        if str_truthy i then dict_set "tool_call_id" (JStr i) openai_msg
        else openai_msg
    | None => openai_msg
    end in
  let openai_msg :=
    match ChatMessage.tool_calls msg with
    | Some ((_ :: _) as tcs) =>
        dict_set "tool_calls" (JArr (map openai_tool_call tcs)) openai_msg
    | _ => openai_msg
    end in
  JObj openai_msg.

(** One entry of [openai_tools]. *)
Definition openai_tool (tool : McpTool.t) : json :=
  JObj [("type", JStr "function");
        ("function",
         JObj [("name", JStr (McpTool.name tool));
               ("description",
                JStr (match McpTool.description tool with
                      | Some d => if str_truthy d then d else McpTool.name tool
                      | None => McpTool.name tool
                      end));
               ("parameters",
                JObj (match McpTool.input_schema tool with
                      | Some ((_ :: _) as schema) => schema
                      | _ => [("type", JStr "object"); ("properties", JObj [])]
                      end))])].

(** The body of [for tc in message.tool_calls]: the arguments are decoded,
    a text that does not decode gives the empty dict, and [ToolCall]
    validates its [arguments] field. *)
Definition parse_tool_call (tc : FunctionCall) : Result ToolCall.t :=
  let args :=
    match json_loads (function_arguments tc) with
    | Some v => v
    | None => JObj []
    end in
  rbind (validate_dict args) (fun args' =>
  Ok (ToolCall.Build (call_id tc) (function_name tc) args')).

(** The keyword arguments [chat] builds for [chat.completions.create]. *)
Definition chat_request (messages : list ChatMessage.t)
    (tools : option (list McpTool.t)) : CompletionRequest :=
  let openai_messages :=
    JObj [("role", JStr "system"); ("content", JStr SYSTEM_PROMPT)]
    :: map openai_message messages in
  let openai_tools :=
    match tools with
    | Some ((_ :: _) as ts) => Some (map openai_tool ts)
    | _ => None
    end in
  {| model := OPENAI_MODEL settings;
     messages := openai_messages;
     tools := openai_tools;
     tool_choice :=
       match openai_tools with
       | Some (_ :: _) => Some "auto"
       | _ => None
       end |}.

(** What [chat] makes of the provider's reply; it is run inside the
    [try] of [chat]. *)
Definition classify (response : ChatCompletion) : Result LlmResponse :=
  match choices response with
  | [] => Raise (BuiltinError "IndexError" (JArr []))
  | message :: _ =>
      match message_tool_calls message with
      | Some ((_ :: _) as tcs) =>
          rbind (rmap parse_tool_call tcs) (fun tool_calls =>
          Ok (ToolCallsResponse tool_calls))
      | _ =>
          Ok (TextResponse
                (match message_content message with
                 | Some s => if str_truthy s then s else EmptyString
                 | None => EmptyString
                 end))
      end
  end.

(** [LlmClient.chat]. *)
Definition chat (messages : list ChatMessage.t) (tools : option (list McpTool.t))
  : M LlmResponse :=
  try_except
    (response <- openai_create (chat_request messages tools) ;;
     lift (classify response))
    (fun e => ret (LlmError (exn_str e) (Some e))).

(** ** app/orchestrator.py *)

Definition MAX_TOOL_ITERATIONS : nat := 10.

(** The generator expression [c.text for c in result.content if c.text]. *)
Definition text_parts (content : list McpContent.t) : list string :=
  flat_map (fun c => match McpContent.text c with
                     | Some s => if str_truthy s then [s] else []
                     | None => []
                     end) content.

(** The body of [for tool_call in llm_response.tool_calls]. *)
Definition run_tool_call (messages : loc) (tool_call : ToolCall.t) : M unit :=
  emit (start_event (ToolCall.name tool_call) (ToolCall.arguments tool_call)) ;;
  try_except
    (result <- call_tool (ToolCall.name tool_call)
                 (ToolCall.arguments tool_call) ;;
     let result_text :=
       String.concat newline (text_parts (McpToolResult.content result)) in
     (if McpToolResult.is_error result
      then emit (result_event TOOL_ERROR (ToolCall.name tool_call) result_text)
      else emit (result_event TOOL_COMPLETE (ToolCall.name tool_call)
                   result_text)) ;;
     list_append messages
       (ChatMessage.Build TOOL result_text (Some (ToolCall.id tool_call)) None))
    (fun e =>
       let error_msg := ("Tool execution failed: " ++ exn_str e)%string in
       emit (result_event TOOL_ERROR (ToolCall.name tool_call) error_msg) ;;
       list_append messages
         (ChatMessage.Build TOOL error_msg (Some (ToolCall.id tool_call)) None)).

(** The loop [for tool_call in llm_response.tool_calls]. *)
Fixpoint run_tool_calls (messages : loc) (tool_calls : list ToolCall.t)
  : M unit :=
  match tool_calls with
  | [] => ret tt
  | tool_call :: rest =>
      run_tool_call messages tool_call ;; run_tool_calls messages rest
  end.

(** How the [while] loop is left: by one of its [return]s, or because its
    condition became false. *)
Inductive LoopExit : Type := Returned | Exhausted.

(** [while iterations < MAX_TOOL_ITERATIONS], by recursion on
    [remaining = MAX_TOOL_ITERATIONS - iterations]: the body starts with
    [iterations += 1], so each pass takes one off [remaining]. *)
Fixpoint tool_loop (remaining : nat) (messages : loc) (tools : list McpTool.t)
  : M LoopExit :=
  match remaining with
  | O => ret Exhausted
  | S remaining' =>
      conversation <- list_read messages ;;
      llm_response <- chat conversation (Some tools) ;;
      match llm_response with
      | LlmError message _ =>
          emit (text_event ERROR ("AI error: " ++ message)%string) ;;
          ret Returned
      | TextResponse text =>
          emit (text_event RESPONSE text) ;;
          emit (bare_event DONE) ;;
          ret Returned
      | ToolCallsResponse tool_calls =>
          let tool_calls_for_message :=
            map (fun tc => ToolCall.Build (ToolCall.id tc) (ToolCall.name tc)
                             (ToolCall.arguments tc)) tool_calls in
          list_append messages
            (ChatMessage.Build ASSISTANT EmptyString None
               (Some tool_calls_for_message)) ;;
          run_tool_calls messages tool_calls ;;
          tool_loop remaining' messages tools
      end
  end.

(** [ChatOrchestrator.process_message]: the run of the generator to its
    end; [history] is the caller's list. *)
Definition process_message (user_message : string) (history : loc) : M unit :=
  try_except
    (emit (text_event THINKING "Analyzing your request...") ;;
     initialize ;;
     tools <- list_tools ;;
     messages <- list_copy history ;;
     list_append messages (ChatMessage.Build USER user_message None None) ;;
     exit <- tool_loop MAX_TOOL_ITERATIONS messages tools ;;
     match exit with
     | Returned => ret tt
     | Exhausted =>
         emit (text_event ERROR
                 "Maximum tool iterations reached. Please try again.")
     end)
    (fun e => emit (text_event ERROR ("An error occurred: " ++ exn_str e)%string)).

(** [ChatOrchestrator.close]. *)
Definition close : M unit := disconnect.

End Backend.

(** ** app/llm_client.py: the message builders *)

(** [LlmClient.build_tool_result_message]. *)
Definition build_tool_result_message (tool_call_id result : string)
  : ChatMessage.t :=
  ChatMessage.Build TOOL result (Some tool_call_id) None.

(** [LlmClient.build_assistant_tool_call_message]: the calls it is given
    are not stored in the message. *)
Definition build_assistant_tool_call_message (tool_calls : list ToolCall.t)
  : ChatMessage.t :=
  ChatMessage.Build ASSISTANT EmptyString None None.

(** ** app/config.py: [Settings.validate] *)

(** [Settings.validate]: [inl message] is [raise ValueError(message)]. *)
Definition validate (s : Settings) : string + bool :=
  if negb (str_truthy (OPENAI_API_KEY s))
  then inl "OPENAI_API_KEY environment variable is required"
  else if negb (str_truthy (RAPIDAPI_KEY s))
  then inl "RAPIDAPI_KEY environment variable is required"
  else inr true.

(** The startup half of [lifespan] in [app/main.py]: the settings are
    validated, a [ValueError] is raised again, and otherwise the
    orchestrator is built, with its new [McpClient]. *)
Definition lifespan_startup (s : Settings) : string + McpClient.t :=
  match validate s with
  | inl message => inl message
  | inr _ => inr McpClient.__init__
  end.

(** ** app/main.py: the event stream *)

Section Endpoints.
Context {E : Env}.

(** One frame of the stream, [f"data: {event_json}\n\n"]. *)
Definition sse_frame (event_json : string) : string :=
  ("data: " ++ event_json ++ newline ++ newline)%string.

(** [event_generator] of the [/api/chat] endpoint, run to its end: the
    frames it yields.  The events are those of this run of
    [process_message], so the run starts with none yielded;
    [model_dump_json] is pydantic's serialization of an event. *)
Definition event_generator (model_dump_json : OrchestratorEvent.t -> string)
    (message : string) (history : loc) : M (list string) :=
  fun st =>
    match process_message message history
            (mkState (mcp st) (world st) (traffic st) (heap st) []) with
    | (Ok _, st') =>
        (Ok (map (fun event => sse_frame (model_dump_json event)) (emitted st')),
         st')
    | (Raise e, st') =>
        (Ok (map (fun event => sse_frame (model_dump_json event)) (emitted st')
             ++ [sse_frame
                   (model_dump_json
                      (text_event ERROR ("Server error: " ++ exn_str e)%string))]),
         st')
    end.

End Endpoints.

(** ** Scripted services, for concrete runs *)

(** A decoder that knows two texts; every other text is a decode error. *)
Definition toy_loads (s : string) : option json :=
  if String.eqb s "{}" then Some (JObj [])
  else if String.eqb s "[]" then Some (JArr [])
  else None.

Definition test_settings : Settings :=
  {| OPENAI_API_KEY := "sk-test";
     OPENAI_MODEL := "gpt-4o-mini";
     RAPIDAPI_KEY := "rapid-key";
     RAPIDAPI_HOST := "irctc1.p.rapidapi.com";
     MCP_SERVER_URL := "https://mcp.rapidapi.com" |}.

Definition request_method (r : HttpRequest) : string :=
  match json_body r with
  | JObj d =>
      match dict_get "method" d with
      | Some (JStr m) => m
      | _ => EmptyString
      end
  | _ => EmptyString
  end.

(** A world that counts the posts and the completions so far; the server
    and the provider answer from the count and the request. *)
Definition scripted
    (server : nat -> HttpRequest -> Result HttpResponse)
    (llm : nat -> CompletionRequest -> Result ChatCompletion) : Env :=
  {| World := nat * nat;
     settings := test_settings;
     post := fun w r => (server (fst w) r, (S (fst w), snd w));
     aclose := fun w => w;
     completions_create := fun w r => (llm (snd w) r, (fst w, S (snd w)));
     json_loads := toy_loads;
     json_dumps := fun _ => "{}";
     py_repr := fun _ => "?";
     lax_bool := fun _ => None;
     exc_text := fun cls _ => cls |}.

Definition reply (v : json) : Result HttpResponse :=
  Ok {| response_json := Ok v |}.

Definition result_envelope (result : dict) : json :=
  JObj [("jsonrpc", JStr "2.0"); ("id", JInt 1); ("result", JObj result)].

Definition fare_tool : json :=
  JObj [("name", JStr "get_fare"); ("description", JStr "Fare of a train")].

Definition text_part (s : string) : json :=
  JObj [("type", JStr "text"); ("text", JStr s)].

(** A server with one tool, [get_fare], whose calls answer the parts
    [parts]. *)
Definition rail_server (parts : list json) (n : nat) (r : HttpRequest)
  : Result HttpResponse :=
  if String.eqb (request_method r) "tools/list"
  then reply (result_envelope [("tools", JArr [fare_tool])])
  else if String.eqb (request_method r) "tools/call"
  then reply (result_envelope [("content", JArr parts)])
  else reply (result_envelope []).

(** A server that refuses the handshake. *)
Definition refusing_server (n : nat) (r : HttpRequest) : Result HttpResponse :=
  reply (JObj [("jsonrpc", JStr "2.0"); ("id", JInt 1);
               ("error", JObj [("code", JInt (-32000));
                               ("message", JStr "access denied")])]).

(** A server whose catalogue is empty for its first three posts (the
    handshake and one [tools/list]) and holds [get_fare] afterwards. *)
Definition late_catalogue_server (n : nat) (r : HttpRequest)
  : Result HttpResponse :=
  if String.eqb (request_method r) "tools/list"
  then reply (result_envelope
                [("tools", JArr (if Nat.ltb n 3 then [] else [fare_tool]))])
  else reply (result_envelope []).

(** A server that is reachable for the handshake and the catalogue and
    drops the connection on every tool call. *)
Definition dropping_server (n : nat) (r : HttpRequest) : Result HttpResponse :=
  if String.eqb (request_method r) "tools/call"
  then Raise (External "connection reset")
  else rail_server [] n r.

Definition function_call (arguments : string) : FunctionCall :=
  {| call_id := "call_1";
     function_name := "get_fare";
     function_arguments := arguments |}.

Definition tool_calls_reply (calls : list FunctionCall) : Result ChatCompletion :=
  Ok {| choices := [ {| message_content := None;
                        message_tool_calls := Some calls |} ] |}.

Definition text_reply (s : string) : Result ChatCompletion :=
  Ok {| choices := [ {| message_content := Some s;
                        message_tool_calls := None |} ] |}.

(** A provider that asks for [get_fare] at every turn. *)
Definition eager_llm (n : nat) (r : CompletionRequest) : Result ChatCompletion :=
  tool_calls_reply [function_call "{}"].

(** A provider that asks for [get_fare] once and then answers. *)
Definition fare_llm (n : nat) (r : CompletionRequest) : Result ChatCompletion :=
  match n with
  | O => tool_calls_reply [function_call "{}"]
  | S _ => text_reply "The fare is 1200"
  end.

(** A provider whose first function call carries arguments that are not
    JSON. *)
Definition garbled_llm (n : nat) (r : CompletionRequest)
  : Result ChatCompletion :=
  match n with
  | O => tool_calls_reply [function_call "{train:"]
  | S _ => text_reply "Sorry"
  end.

(** The state of a process that has just built its [McpClient], with the
    caller's history [history] as the only list in the store. *)
Definition fresh_state {E : Env} (w : World) (history : list ChatMessage.t)
  : State :=
  mkState McpClient.__init__ w [] [history] [].

Definition rail_env : Env := scripted (rail_server [text_part "1200"]) fare_llm.
Definition eager_env : Env := scripted (rail_server [text_part "1200"]) eager_llm.
Definition refusing_env : Env := scripted refusing_server fare_llm.
Definition late_catalogue_env : Env := scripted late_catalogue_server fare_llm.
Definition dropping_env : Env := scripted dropping_server fare_llm.
Definition garbled_env : Env := scripted (rail_server [text_part "1200"]) garbled_llm.
Definition blank_part_env : Env :=
  scripted (rail_server [text_part "a"; text_part EmptyString; text_part "b"])
           fare_llm.

(** The states these services lead to: after the handshake, and after
    the handshake and the tool listing. *)
Definition rail_fresh : State (E := rail_env) :=
  fresh_state (E := rail_env) (0, 0) [].

Definition rail_initialized : State (E := rail_env) :=
  snd (initialize rail_fresh).

Definition rail_ready : State (E := rail_env) := snd (list_tools rail_fresh).

Definition eager_fresh : State (E := eager_env) :=
  fresh_state (E := eager_env) (0, 0) [].

Definition eager_ready : State (E := eager_env) := snd (list_tools eager_fresh).

Definition refusing_fresh : State (E := refusing_env) :=
  fresh_state (E := refusing_env) (0, 0) [].

Definition late_fresh : State (E := late_catalogue_env) :=
  fresh_state (E := late_catalogue_env) (0, 0) [].

Definition late_listed : State (E := late_catalogue_env) :=
  snd (list_tools late_fresh).

Definition dropping_ready : State (E := dropping_env) :=
  snd (list_tools (fresh_state (E := dropping_env) (0, 0) [])).

Definition garbled_ready : State (E := garbled_env) :=
  snd (list_tools (fresh_state (E := garbled_env) (0, 0) [])).

Definition blank_part_ready : State (E := blank_part_env) :=
  snd (list_tools (fresh_state (E := blank_part_env) (0, 0) [])).

(** A server that answers every request with an empty result. *)
Definition bare_server (n : nat) (r : HttpRequest) : Result HttpResponse :=
  reply (result_envelope []).

(** A server that rejects every tool call with a JSON-RPC error. *)
Definition rejecting_server (n : nat) (r : HttpRequest) : Result HttpResponse :=
  if String.eqb (request_method r) "tools/call"
  then reply (JObj [("jsonrpc", JStr "2.0"); ("id", JInt 1);
                    ("error", JObj [("code", JInt (-32602));
                                    ("message", JStr "unknown train")])])
  else rail_server [] n r.

(** A provider that answers at once. *)
Definition plain_llm (n : nat) (r : CompletionRequest) : Result ChatCompletion :=
  text_reply "Hello".

Definition bare_env : Env := scripted bare_server fare_llm.
Definition rejecting_env : Env := scripted rejecting_server fare_llm.
Definition plain_env : Env := scripted (rail_server [text_part "1200"]) plain_llm.

Definition bare_initialized : State (E := bare_env) :=
  snd (initialize (fresh_state (E := bare_env) (0, 0) [])).

Definition rejecting_ready : State (E := rejecting_env) :=
  snd (list_tools (fresh_state (E := rejecting_env) (0, 0) [])).

Definition plain_fresh : State (E := plain_env) :=
  fresh_state (E := plain_env) (0, 0) [].

Definition plain_ready : State (E := plain_env) := snd (list_tools plain_fresh).

(** The call the scripted providers ask for. *)
Definition fare_call : ToolCall.t := ToolCall.Build "call_1" "get_fare" [].

(** * The vocabulary of the properties *)

Section Vocabulary.
Context {E : Env}.

(** A computation keeps a relation when its final state is related to its
    initial state, whatever it returns or raises. *)
Definition keeps {A : Type} (R : State -> State -> Prop) (m : M A) : Prop :=
  forall st, R st (snd (m st)).

(** The events yielded and the store of message lists are the
    orchestrator's: neither client touches them. *)
Definition same_output (st st' : State) : Prop :=
  emitted st' = emitted st /\ heap st' = heap st.

(** The client object after [self._request_id += 1]. *)
Definition bump (c : McpClient.t) : McpClient.t :=
  McpClient.Build (McpClient._request_id c + 1) (McpClient._is_initialized c)
    (McpClient._session_id c) (McpClient._cached_tools c).

(** The request [_send_request] posts when the client object is [c]. *)
Definition rpc_request (c : McpClient.t) (method : string)
    (params : option json) : HttpRequest :=
  {| url := MCP_SERVER_URL settings;
     json_body :=
       JObj ([("jsonrpc", JStr "2.0");
              ("id", JInt (McpClient._request_id c + 1));
              ("method", JStr method)]
             ++ match params with
                | Some p => [("params", p)]
                | None => []
                end);
     headers := request_headers (bump c) |}.

(** The client object is as it was. *)
Definition same_client (st st' : State) : Prop := mcp st' = mcp st.

(** The tool cache is as it was. *)
Definition same_cache (st st' : State) : Prop :=
  McpClient._cached_tools (mcp st') = McpClient._cached_tools (mcp st).

(** The state [st] with [out] for the events yielded. *)
Definition set_emitted (st : State) (out : list OrchestratorEvent.t) : State :=
  mkState (mcp st) (world st) (traffic st) (heap st) out.

(** A computation is oblivious when the events yielded so far change
    nothing of what it does. *)
Definition oblivious {A : Type} (m : M A) : Prop :=
  forall st out,
    m (set_emitted st out) = (fst (m st), set_emitted (snd (m st)) out).

(** The type of the event that closes a tool call, from the outcome of
    [call_tool]. *)
Definition outcome_type (r : Result McpToolResult.t) : EventType :=
  match r with
  | Ok result =>
      if McpToolResult.is_error result then TOOL_ERROR else TOOL_COMPLETE
  | Raise _ => TOOL_ERROR
  end.

(** The result text of that event, which is also the content of the
    [tool] turn. *)
Definition outcome_text (r : Result McpToolResult.t) : string :=
  match r with
  | Ok result => String.concat newline (text_parts (McpToolResult.content result))
  | Raise e => ("Tool execution failed: " ++ exn_str e)%string
  end.

(** [ev] closes the call [tc]: it is a [tool_complete] or a [tool_error]
    event that carries the name of the tool. *)
Definition closes (tc : ToolCall.t) (ev : OrchestratorEvent.t) : Prop :=
  (OrchestratorEvent.type ev = TOOL_COMPLETE
   \/ OrchestratorEvent.type ev = TOOL_ERROR)
  /\ OrchestratorEvent.name ev = Some (ToolCall.name tc).

(** The events of a batch: for each call in turn, its start event and then
    its closing event. *)
Fixpoint batch_events (tcs : list ToolCall.t)
    (closings : list OrchestratorEvent.t) : list OrchestratorEvent.t :=
  match tcs, closings with
  | tc :: tcs', ev :: closings' =>
      start_event (ToolCall.name tc) (ToolCall.arguments tc)
      :: ev :: batch_events tcs' closings'
  | _, _ => []
  end.

(** The test for a [tool_start] event. *)
Definition is_tool_start (ev : OrchestratorEvent.t) : bool :=
  EventType_eqb (OrchestratorEvent.type ev) TOOL_START.

(** The assistant turn that records the calls of a classification. *)
Definition assistant_turn (tcs : list ToolCall.t) : ChatMessage.t :=
  ChatMessage.Build ASSISTANT EmptyString None
    (Some (map (fun tc => ToolCall.Build (ToolCall.id tc) (ToolCall.name tc)
                            (ToolCall.arguments tc)) tcs)).

(** Nothing of the state has changed. *)
Definition unchanged (st st' : State) : Prop := st' = st.

(** Once initialized, the client stays so through tool calls. *)
Definition stays_initialized (st st' : State) : Prop :=
  McpClient._is_initialized (mcp st) = true ->
  McpClient._is_initialized (mcp st') = true.

(** An event that is neither [response], nor [error], nor [done]. *)
Definition nonterminal (ev : OrchestratorEvent.t) : Prop :=
  OrchestratorEvent.type ev <> RESPONSE
  /\ OrchestratorEvent.type ev <> ERROR
  /\ OrchestratorEvent.type ev <> DONE.

(** How a run ends: a [response] event and then [done], or one [error]
    event. *)
Definition terminal_tail (tail : list OrchestratorEvent.t) : Prop :=
  (exists text, tail = [text_event RESPONSE text; bare_event DONE])
  \/ (exists text, tail = [text_event ERROR text]).

(** An event of a tool call. *)
Definition tool_event (ev : OrchestratorEvent.t) : Prop :=
  OrchestratorEvent.type ev = TOOL_START
  \/ OrchestratorEvent.type ev = TOOL_COMPLETE
  \/ OrchestratorEvent.type ev = TOOL_ERROR.

(** The event every run starts with. *)
Definition thinking : OrchestratorEvent.t :=
  text_event THINKING "Analyzing your request...".

(** The test for a call to the LLM provider. *)
Definition is_completion (t : Traffic) : bool :=
  match t with Completed _ => true | Posted _ => false end.

(** The number of calls to the LLM provider in a log. *)
Definition llm_calls (log : list Traffic) : nat :=
  length (filter is_completion log).

(** No call to the LLM provider was made. *)
Definition same_llm_calls (st st' : State) : Prop :=
  llm_calls (traffic st') = llm_calls (traffic st).

(** The LLM turn client classifies every turn as tool calls. *)
Definition always_tool_calls : Prop :=
  forall messages tools st,
    exists tcs st',
      chat messages tools st = (Ok (ToolCallsResponse tcs), st').

(** The store is as it was, but for items appended to [messages]. *)
Definition appends_to (messages : loc) (st st' : State) : Prop :=
  exists rest,
    heap st'
    = heap_set (heap st) messages (heap_get (heap st) messages ++ rest).


(** ** More vocabulary: the wire *)

(** The params of the [initialize] request. *)
Definition initialize_params : json :=
  JObj [("protocolVersion", JStr MCP_PROTOCOL_VERSION);
        ("capabilities", JObj [("tools", JObj [])]);
        ("clientInfo",
         JObj [("name", JStr McpClient.CLIENT_NAME);
               ("version", JStr McpClient.CLIENT_VERSION)])].

(** The request [_send_notification] posts when the client object is [c]:
    its body has no id. *)
Definition notification_request (c : McpClient.t) (method : string)
  : HttpRequest :=
  {| url := MCP_SERVER_URL settings;
     json_body := JObj [("jsonrpc", JStr "2.0"); ("method", JStr method)];
     headers := request_headers c |}.

(** The JSON-RPC ids of the requests of a log, in the order they were
    posted; a notification has none. *)
Definition request_id_of (t : Traffic) : list Z :=
  match t with
  | Posted r =>
      match json_body r with
      | JObj d =>
          match dict_get "id" d with
          | Some (JInt n) => [n]
          | _ => []
          end
      | _ => []
      end
  | Completed _ => []
  end.

Definition request_ids (log : list Traffic) : list Z :=
  flat_map request_id_of log.

(** The counter of the client is not negative, and the ids posted so far
    are positive, strictly increasing, and at most the counter. *)
Definition ids_in_order (st : State) : Prop :=
  (0 <= McpClient._request_id (mcp st))%Z
  /\ StronglySorted Z.lt (request_ids (traffic st))
  /\ Forall (fun i => (0 < i <= McpClient._request_id (mcp st))%Z)
       (request_ids (traffic st)).

Definition ids_kept (st st' : State) : Prop :=
  ids_in_order st -> ids_in_order st'.

(** The headers of a request when no session id is set. *)
Definition base_headers : list (string * string) :=
  [("Content-Type", "application/json");
   ("x-api-host", RAPIDAPI_HOST settings);
   ("x-api-key", RAPIDAPI_KEY settings);
   ("MCP-Protocol-Version", MCP_PROTOCOL_VERSION)].

Definition posted_with_base_headers (t : Traffic) : Prop :=
  match t with
  | Posted r => headers r = base_headers
  | Completed _ => True
  end.

(** The client has no session id, and no request posted so far carried a
    session header. *)
Definition sessionless (st : State) : Prop :=
  McpClient._session_id (mcp st) = None
  /\ Forall posted_with_base_headers (traffic st).

Definition sessionless_kept (st st' : State) : Prop :=
  sessionless st -> sessionless st'.


(** The log only grows. *)
Definition log_grows (st st' : State) : Prop :=
  exists rest, traffic st' = traffic st ++ rest.

(** A value [call_tool] may send: [None] or a string. *)
Definition null_or_string (kv : string * json) : Prop :=
  snd kv = JNull \/ exists s, snd kv = JStr s.


(** ** More vocabulary: the provider's view of a turn *)

(** The object [o] is the provider's form of the turn [msg]: it holds the
    role and the content, the call id when the turn has one that is not
    empty, and the function calls when the turn has some. *)
Definition encodes (msg : ChatMessage.t) (o : json) : Prop :=
  exists d,
    o = JObj d
    /\ dict_get "role" d = Some (JStr (role_value (ChatMessage.role msg)))
    /\ dict_get "content" d = Some (JStr (ChatMessage.content msg))
    /\ dict_get "tool_call_id" d
       = match ChatMessage.tool_call_id msg with
         | Some i => if str_truthy i then Some (JStr i) else None
         | None => None
         end
    /\ dict_get "tool_calls" d
       = match ChatMessage.tool_calls msg with
         | Some (tc :: tcs) => Some (JArr (map openai_tool_call (tc :: tcs)))
         | _ => None
         end.

(** What [parse_tool_call] makes of the arguments text of a call. *)
Definition decoded_arguments (call : FunctionCall) (tc : ToolCall.t) : Prop :=
  match json_loads (function_arguments call) with
  | Some v => v = JObj (ToolCall.arguments tc)
  | None => ToolCall.arguments tc = []
  end.


(** ** More vocabulary: the conversation *)

(** The turn [turn] answers the call [tc]: a [tool] turn with the id of
    the call. *)
Definition answers (tc : ToolCall.t) (turn : ChatMessage.t) : Prop :=
  ChatMessage.role turn = TOOL
  /\ ChatMessage.tool_call_id turn = Some (ToolCall.id tc)
  /\ ChatMessage.tool_calls turn = None.

(** The event [ev] carries the content of the turn [turn] for result. *)
Definition reports (turn : ChatMessage.t) (ev : OrchestratorEvent.t) : Prop :=
  OrchestratorEvent.result ev = Some (ChatMessage.content turn).

(** What [chat] returns, from the outcome of the provider call. *)
Definition classified (r : Result ChatCompletion) : LlmResponse :=
  match rbind r classify with
  | Ok response => response
  | Raise e => LlmError (exn_str e) (Some e)
  end.

(** The events that end a run whose turn is classified as [response];
    none for tool calls, after which the run goes on. *)
Definition final_events (response : LlmResponse) : list OrchestratorEvent.t :=
  match response with
  | TextResponse text => [text_event RESPONSE text; bare_event DONE]
  | LlmError message _ => [text_event ERROR ("AI error: " ++ message)%string]
  | ToolCallsResponse _ => []
  end.

(** The conversation a run starts with: the items of the history and the
    user's message. *)
Definition first_conversation (st : State) (history : loc)
    (user_message : string) : list ChatMessage.t :=
  heap_get (heap st) history
  ++ [ChatMessage.Build USER user_message None None].

(** The state in which the loop of a run starts, after a handshake and a
    tool listing that led from [st] to [s2]. *)
Definition loop_start (st s2 : State) (history : loc) (user_message : string)
  : State :=
  mkState (mcp s2) (world s2) (traffic s2)
    (heap st ++ [first_conversation st history user_message])
    (emitted st ++ [thinking]).

End Vocabulary.

(** * The claims the code does not meet, as the specification words them *)

(** Following the spec's words, "the result's text content parts joined
    with newline": the texts the parts carry, in order, and their join. *)
Definition present_texts (content : list McpContent.t) : list string :=
  flat_map (fun c => match McpContent.text c with
                     | Some s => [s]
                     | None => []
                     end) content.

Definition joined_text_parts (content : list McpContent.t) : string :=
  String.concat newline (present_texts content).

(** "listTools called twice returns the identical descriptor list without
    a second tools/list round trip": whenever two calls in a row return,
    they return the same list and the second sends nothing. *)
Definition list_tools_always_cached (E : Env) : Prop :=
  forall st tools1 st1 tools2 st2,
    list_tools st = (Ok tools1, st1) ->
    list_tools st1 = (Ok tools2, st2) ->
    tools2 = tools1 /\ traffic st2 = traffic st1.

(** "the flattened result string stored into the appended tool-role turn
    equals the result's text content parts joined with newline". *)
Definition tool_turn_joins_text_parts (E : Env) : Prop :=
  forall messages tc st result st1,
    call_tool (ToolCall.name tc) (ToolCall.arguments tc) st = (Ok result, st1) ->
    messages < length (heap st) ->
    heap_get (heap (snd (run_tool_call messages tc st))) messages
    = heap_get (heap st) messages
      ++ [ChatMessage.Build TOOL
            (joined_text_parts (McpToolResult.content result))
            (Some (ToolCall.id tc)) None].

(** * Properties *)

Section Properties.
Context {E : Env}.

Notation "x <- m ;; k" := (bind m (fun x => k))
  (at level 61, m at next level, right associativity).
Notation "m ;; k" := (bind m (fun _ => k))
  (at level 61, right associativity).

(** ** The monad *)

Lemma bind_ok {A B : Type} (m : M A) (f : A -> M B) st a st' :
  m st = (Ok a, st') -> bind m f st = f a st'.
Proof. intros H. unfold bind. rewrite H. reflexivity. Qed.

Lemma bind_raise {A B : Type} (m : M A) (f : A -> M B) st e st' :
  m st = (Raise e, st') -> bind m f st = (Raise e, st').
Proof. intros H. unfold bind. rewrite H. reflexivity. Qed.

Lemma bind_ok_inv {A B : Type} (m : M A) (f : A -> M B) st b st2 :
  bind m f st = (Ok b, st2) ->
  exists a st1, m st = (Ok a, st1) /\ f a st1 = (Ok b, st2).
Proof.
  unfold bind. destruct (m st) as [[a | e] st1]; intros H.
  - exists a, st1. split; [reflexivity | exact H].
  - discriminate H.
Qed.

Section Keeps.
Context (R : State -> State -> Prop) {R_refl : Reflexive R}
        {R_trans : Transitive R}.

Lemma keeps_ret {A : Type} (a : A) : keeps R (ret a).
Proof. intros st. apply R_refl. Qed.

Lemma keeps_raise {A : Type} (e : PyExn) : keeps R (@raise E A e).
Proof. intros st. apply R_refl. Qed.

Lemma keeps_lift {A : Type} (r : Result A) : keeps R (lift r).
Proof. intros st. apply R_refl. Qed.

Lemma keeps_get_client : keeps R get_client.
Proof. intros st. apply R_refl. Qed.

Lemma keeps_list_read l : keeps R (list_read l).
Proof. intros st. apply R_refl. Qed.

Lemma keeps_bind {A B : Type} (m : M A) (f : A -> M B) :
  keeps R m -> (forall a, keeps R (f a)) -> keeps R (bind m f).
Proof.
  intros Hm Hf st. unfold bind.
  specialize (Hm st). destruct (m st) as [[a | e] st1]; simpl in *.
  - eapply R_trans; [exact Hm | apply Hf].
  - exact Hm.
Qed.

Lemma keeps_try {A : Type} (body : M A) (handler : PyExn -> M A) :
  keeps R body -> (forall e, keeps R (handler e)) ->
  keeps R (try_except body handler).
Proof.
  intros Hb Hh st. unfold try_except.
  specialize (Hb st). destruct (body st) as [[a | e] st1]; simpl in *.
  - exact Hb.
  - eapply R_trans; [exact Hb | apply Hh].
Qed.

End Keeps.

Create HintDb keeps.

(** Splits a goal [keeps R m] along the structure of [m]; what is left is
    about the actions that touch the state. *)
Ltac keeps_auto :=
  repeat first
    [ solve [apply keeps_ret; exact _]
    | solve [apply keeps_raise; exact _]
    | solve [apply keeps_lift; exact _]
    | solve [apply keeps_get_client; exact _]
    | solve [apply keeps_list_read; exact _]
    | solve [auto with keeps]
    | (apply keeps_bind; try exact _); [ | intros ? ]
    | (apply keeps_try; try exact _); [ | intros ? ]
    | match goal with
      | |- keeps _ (if ?b then _ else _) => destruct b
      | |- keeps _ (match ?x with _ => _ end) => destruct x
      end
    | progress cbv zeta ].

(** ** What the clients leave alone *)

#[local] Instance same_output_refl : Reflexive same_output.
Proof. intros st. split; reflexivity. Qed.

#[local] Instance same_output_trans : Transitive same_output.
Proof. intros a b c [H1 H2] [H3 H4]. split; congruence. Qed.

Lemma put_client_same_output c : keeps same_output (put_client c).
Proof. intros st. split; reflexivity. Qed.

Lemma http_post_same_output req : keeps same_output (http_post req).
Proof.
  intros st. unfold http_post. destruct (post (world st) req).
  split; reflexivity.
Qed.

Lemma http_aclose_same_output : keeps same_output http_aclose.
Proof. intros st. split; reflexivity. Qed.

Lemma openai_create_same_output req : keeps same_output (openai_create req).
Proof.
  intros st. unfold openai_create. destruct (completions_create (world st) req).
  split; reflexivity.
Qed.

#[local] Hint Resolve put_client_same_output http_post_same_output
  http_aclose_same_output openai_create_same_output : keeps.

Lemma _send_request_same_output method params :
  keeps same_output (_send_request method params).
Proof. unfold _send_request. keeps_auto. Qed.

Lemma _send_notification_same_output method :
  keeps same_output (_send_notification method).
Proof. unfold _send_notification. keeps_auto. Qed.

Lemma raise_mcp_exception_keeps {A : Type} R `{Reflexive _ R} `{Transitive _ R}
    response :
  keeps R (@raise_mcp_exception E A response).
Proof. unfold raise_mcp_exception. keeps_auto. Qed.

#[local] Hint Resolve _send_request_same_output _send_notification_same_output
  raise_mcp_exception_keeps : keeps.

Lemma initialize_same_output : keeps same_output initialize.
Proof. unfold initialize. keeps_auto. Qed.

#[local] Hint Resolve initialize_same_output : keeps.

Lemma _ensure_initialized_same_output : keeps same_output _ensure_initialized.
Proof. unfold _ensure_initialized. keeps_auto. Qed.

#[local] Hint Resolve _ensure_initialized_same_output : keeps.

Lemma list_tools_same_output : keeps same_output list_tools.
Proof. unfold list_tools. keeps_auto. Qed.

Lemma call_tool_same_output name arguments :
  keeps same_output (call_tool name arguments).
Proof. unfold call_tool. keeps_auto. Qed.

Lemma chat_same_output messages tools : keeps same_output (chat messages tools).
Proof. unfold chat. keeps_auto. Qed.

#[local] Hint Resolve list_tools_same_output call_tool_same_output
  chat_same_output : keeps.

(** ** The tool-server client *)

Ltac monad_inv :=
  repeat match goal with
  | H : bind _ _ _ = (Ok _, _) |- _ =>
      apply bind_ok_inv in H; destruct H as (? & ? & ? & H)
  | H : ret _ _ = (_, _) |- _ => unfold ret in H; inversion H; subst; clear H
  | H : lift _ _ = (_, _) |- _ => unfold lift in H; inversion H; subst; clear H
  | H : get_client _ = (_, _) |- _ =>
      unfold get_client in H; inversion H; subst; clear H
  | H : put_client _ _ = (_, _) |- _ =>
      unfold put_client in H; inversion H; subst; clear H
  | H : raise _ _ = (Ok _, _) |- _ => discriminate H
  end.

(** [_send_request] in one step: the counter goes up, one request is
    posted, and the decoded body of the response, if there is one, is the
    result. *)
Lemma _send_request_eq method params st :
  _send_request method params st =
  (rbind (fst (post (world st) (rpc_request (mcp st) method params)))
         response_json,
   mkState (bump (mcp st))
           (snd (post (world st) (rpc_request (mcp st) method params)))
           (traffic st ++ [Posted (rpc_request (mcp st) method params)])
           (heap st) (emitted st)).
Proof.
  unfold _send_request, bind, get_client, put_client, http_post, lift,
    rpc_request, bump.
  simpl.
  destruct (post (world st) _) as [[resp | e] w]; reflexivity.
Qed.

#[local] Instance same_client_refl : Reflexive same_client.
Proof. intros st. reflexivity. Qed.

#[local] Instance same_client_trans : Transitive same_client.
Proof. intros a b c H1 H2. unfold same_client in *. congruence. Qed.

Lemma http_post_same_client req : keeps same_client (http_post req).
Proof.
  intros st. unfold http_post. destruct (post (world st) req). reflexivity.
Qed.

Lemma openai_create_same_client req : keeps same_client (openai_create req).
Proof.
  intros st. unfold openai_create.
  destruct (completions_create (world st) req). reflexivity.
Qed.

Lemma emit_same_client ev : keeps same_client (emit ev).
Proof. intros st. reflexivity. Qed.

Lemma list_append_same_client l x : keeps same_client (list_append l x).
Proof. intros st. reflexivity. Qed.

Lemma list_copy_same_client l : keeps same_client (list_copy l).
Proof. intros st. reflexivity. Qed.

#[local] Hint Resolve http_post_same_client openai_create_same_client
  emit_same_client list_append_same_client list_copy_same_client : keeps.

Lemma _send_notification_same_client method :
  keeps same_client (_send_notification method).
Proof. unfold _send_notification. keeps_auto. Qed.

Lemma chat_same_client messages tools : keeps same_client (chat messages tools).
Proof. unfold chat. keeps_auto. Qed.

Lemma raise_mcp_exception_raises {A : Type} response st :
  exists e, @raise_mcp_exception E A response st = (Raise e, st).
Proof.
  unfold raise_mcp_exception, bind, lift, raise.
  destruct (subscript response "error") as [err | e]; [ | eauto ].
  destruct (get_method err "code" _) as [code | e]; [ | eauto ].
  destruct (get_method err "message" _) as [message | e]; eauto.
Qed.

Lemma raise_mcp_exception_not_ok {A : Type} response st (a : A) st' :
  raise_mcp_exception response st <> (Ok a, st').
Proof.
  destruct (@raise_mcp_exception_raises A response st) as [e He].
  rewrite He. discriminate.
Qed.

(** A call on an initialized client returns at once. *)
Lemma initialize_when_initialized st :
  McpClient._is_initialized (mcp st) = true -> initialize st = (Ok tt, st).
Proof.
  intros H. unfold initialize, bind, get_client. rewrite H. reflexivity.
Qed.

(** A call that returns leaves the client initialized; when it had to
    shake hands, the counter went up by one and nothing else changed. *)
Lemma initialize_ok st st' :
  initialize st = (Ok tt, st') ->
  McpClient._is_initialized (mcp st') = true
  /\ (McpClient._is_initialized (mcp st) = false ->
      mcp st' = McpClient.Build (McpClient._request_id (mcp st) + 1) true
                  (McpClient._session_id (mcp st))
                  (McpClient._cached_tools (mcp st))).
Proof.
  intros H. unfold initialize in H. monad_inv.
  match goal with
  | H : (if McpClient._is_initialized ?c then _ else _) _ = _ |- _ =>
      destruct (McpClient._is_initialized c) eqn:Hinit
  end.
  - monad_inv. split; [exact Hinit | discriminate].
  - monad_inv.
    match goal with
    | H : (if ?b then _ else _) _ = _ |- _ => destruct b
    end.
    + exfalso. eapply raise_mcp_exception_not_ok; eassumption.
    + monad_inv. simpl.
      match goal with
      | H : _send_request _ _ _ = _ |- _ =>
          rewrite _send_request_eq in H; injection H as _ <-
      end.
      match goal with
      | H : _send_notification ?m ?s = _ |- _ =>
          pose proof (_send_notification_same_client m s) as Hn;
          unfold same_client in Hn; rewrite H in Hn; simpl in Hn
      end.
      split; [reflexivity | intros _].
      rewrite Hn. reflexivity.
Qed.

(** C5: [initialize] is idempotent.  On a client that has just been built,
    the sequence [initialize(); initialize()] ends in the same state, with
    the same outcome, the same traffic and the same world, as a single
    [initialize()]; and when the first call returns, the client is
    initialized with request counter 1, no session id and an empty tool
    cache, and the second call returns at once in the very same state: it
    posts no request and no notification. *)
Theorem initialize_idempotent (w : World) (log : list Traffic) (h : Heap)
    (out : list OrchestratorEvent.t) :
  let st0 := mkState McpClient.__init__ w log h out in
  (initialize ;; initialize) st0 = initialize st0
  /\ forall st1,
       initialize st0 = (Ok tt, st1) ->
       mcp st1 = McpClient.Build 1 true None []
       /\ initialize st1 = (Ok tt, st1)
       /\ traffic (snd (initialize st1)) = traffic st1.
Proof.
  intros st0.
  assert (Hsecond : forall st1, initialize st0 = (Ok tt, st1) ->
                     initialize st1 = (Ok tt, st1)).
  { intros st1 H. apply initialize_when_initialized.
    apply (initialize_ok st0 st1 H). }
  split.
  - destruct (initialize st0) as [[[] | e] st1] eqn:H.
    + rewrite (bind_ok _ _ _ _ _ H). apply Hsecond. reflexivity.
    + rewrite (bind_raise _ _ _ _ _ H). reflexivity.
  - intros st1 H. repeat split.
    + destruct (initialize_ok st0 st1 H) as [_ Hc]. apply Hc. reflexivity.
    + apply Hsecond, H.
    + rewrite (Hsecond st1 H). reflexivity.
Qed.

Lemma _ensure_initialized_when_initialized st :
  McpClient._is_initialized (mcp st) = true ->
  _ensure_initialized st = (Ok tt, st).
Proof.
  intros H. unfold _ensure_initialized, bind, get_client. rewrite H.
  reflexivity.
Qed.

Lemma _ensure_initialized_ok st st' :
  _ensure_initialized st = (Ok tt, st') ->
  McpClient._is_initialized (mcp st') = true.
Proof.
  intros H. unfold _ensure_initialized in H. monad_inv.
  match goal with
  | H : (if negb (McpClient._is_initialized ?c) then _ else _) _ = _ |- _ =>
      destruct (McpClient._is_initialized c) eqn:Hinit; simpl in H
  end.
  - monad_inv. exact Hinit.
  - eapply initialize_ok; eassumption.
Qed.

(** A call of [list_tools] that returns leaves the client initialized,
    with the list it returned in the cache. *)
Lemma list_tools_ok st tools st' :
  list_tools st = (Ok tools, st') ->
  McpClient._is_initialized (mcp st') = true
  /\ McpClient._cached_tools (mcp st') = tools.
Proof.
  intros H. unfold list_tools in H. monad_inv.
  match goal with
  | H : _ensure_initialized _ = _ |- _ =>
      destruct x; apply _ensure_initialized_ok in H
  end.
  match goal with
  | H : (if list_truthy ?l then _ else _) _ = _ |- _ => destruct (list_truthy l)
  end.
  - monad_inv. split; [assumption | reflexivity].
  - monad_inv.
    match goal with
    | H : (if ?b then _ else _) _ = _ |- _ => destruct b
    end.
    + exfalso. eapply raise_mcp_exception_not_ok; eassumption.
    + monad_inv. simpl.
      match goal with
      | H : _send_request _ _ _ = _ |- _ =>
          rewrite _send_request_eq in H; injection H as _ <-
      end.
      simpl. split; [assumption | reflexivity].
Qed.

(** On an initialized client with a cache that is not empty, [list_tools]
    returns the cache and does nothing else. *)
Lemma list_tools_from_cache st :
  McpClient._is_initialized (mcp st) = true ->
  McpClient._cached_tools (mcp st) <> [] ->
  list_tools st = (Ok (McpClient._cached_tools (mcp st)), st).
Proof.
  intros Hinit Hne. unfold list_tools.
  rewrite (bind_ok _ _ _ _ _ (_ensure_initialized_when_initialized st Hinit)).
  unfold bind, get_client.
  destruct (McpClient._cached_tools (mcp st)); [congruence | reflexivity].
Qed.

#[local] Instance same_cache_refl : Reflexive same_cache.
Proof. intros st. reflexivity. Qed.

#[local] Instance same_cache_trans : Transitive same_cache.
Proof. intros a b c H1 H2. unfold same_cache in *. congruence. Qed.

Lemma keeps_weaken {A : Type} (R R' : State -> State -> Prop) (m : M A) :
  (forall a b, R a b -> R' a b) -> keeps R m -> keeps R' m.
Proof. intros HR Hm st. apply HR, Hm. Qed.

Lemma same_client_same_cache a b : same_client a b -> same_cache a b.
Proof. unfold same_client, same_cache. intros ->. reflexivity. Qed.

Lemma _send_request_same_cache method params :
  keeps same_cache (_send_request method params).
Proof. intros st. rewrite _send_request_eq. reflexivity. Qed.

Lemma _send_notification_same_cache method :
  keeps same_cache (_send_notification method).
Proof.
  eapply keeps_weaken;
    [apply same_client_same_cache | apply _send_notification_same_client].
Qed.

Lemma mark_initialized_same_cache :
  keeps same_cache
    (c1 <- get_client ;;
     put_client (McpClient.Build (McpClient._request_id c1) true
                   (McpClient._session_id c1) (McpClient._cached_tools c1))).
Proof. intros st. reflexivity. Qed.

#[local] Hint Resolve _send_request_same_cache _send_notification_same_cache
  mark_initialized_same_cache : keeps.

Lemma initialize_same_cache : keeps same_cache initialize.
Proof. unfold initialize. keeps_auto. Qed.

#[local] Hint Resolve initialize_same_cache : keeps.

Lemma _ensure_initialized_same_cache : keeps same_cache _ensure_initialized.
Proof. unfold _ensure_initialized. keeps_auto. Qed.

#[local] Hint Resolve _ensure_initialized_same_cache : keeps.

Lemma call_tool_same_cache name arguments :
  keeps same_cache (call_tool name arguments).
Proof. unfold call_tool. keeps_auto. Qed.

(** A cache that is not empty survives [list_tools]. *)
Lemma list_tools_keeps_filled_cache st :
  McpClient._cached_tools (mcp st) <> [] ->
  McpClient._cached_tools (mcp (snd (list_tools st)))
  = McpClient._cached_tools (mcp st).
Proof.
  intros Hne. unfold list_tools, bind.
  pose proof (_ensure_initialized_same_cache st) as Hc. unfold same_cache in Hc.
  destruct (_ensure_initialized st) as [[[] | e] sa]; simpl in *.
  - unfold get_client.
    destruct (McpClient._cached_tools (mcp sa)) eqn:Hsa; simpl.
    + congruence.
    + congruence.
  - exact Hc.
Qed.

(** C6, as the code has it: when a call of [list_tools] returns a list
    that is not empty, the next call (no [disconnect] between the two)
    returns the identical list and leaves the whole state as it is, so it
    posts nothing: no [tools/list], no handshake.  A cache that is not
    empty is changed neither by [initialize], nor by [list_tools], nor by
    [call_tool]; [disconnect] empties it. *)
Theorem list_tools_cached_once_filled st tools st1 :
  list_tools st = (Ok tools, st1) ->
  tools <> [] ->
  list_tools st1 = (Ok tools, st1)
  /\ traffic (snd (list_tools st1)) = traffic st1
  /\ keeps same_cache initialize
  /\ (forall name arguments, keeps same_cache (call_tool name arguments))
  /\ (forall st', McpClient._cached_tools (mcp st') <> [] ->
        McpClient._cached_tools (mcp (snd (list_tools st')))
        = McpClient._cached_tools (mcp st'))
  /\ (forall st', McpClient._cached_tools (mcp (snd (disconnect st'))) = []).
Proof.
  intros H Hne.
  destruct (list_tools_ok st tools st1 H) as [Hinit Hcache].
  assert (Hagain : list_tools st1 = (Ok tools, st1)).
  { rewrite <- Hcache. apply list_tools_from_cache; [exact Hinit | ].
    rewrite Hcache. exact Hne. }
  split; [exact Hagain | ].
  split; [rewrite Hagain; reflexivity | ].
  split; [apply initialize_same_cache | ].
  split; [apply call_tool_same_cache | ].
  split; [apply list_tools_keeps_filled_cache | ].
  intros st'. reflexivity.
Qed.

(** ** The clients do not look at the events yielded *)

Lemma oblivious_ret {A : Type} (a : A) : oblivious (ret a).
Proof. intros st out. reflexivity. Qed.

Lemma oblivious_raise {A : Type} (e : PyExn) : oblivious (@raise E A e).
Proof. intros st out. reflexivity. Qed.

Lemma oblivious_lift {A : Type} (r : Result A) : oblivious (lift r).
Proof. intros st out. reflexivity. Qed.

Lemma oblivious_get_client : oblivious get_client.
Proof. intros st out. reflexivity. Qed.

Lemma oblivious_put_client c : oblivious (put_client c).
Proof. intros st out. reflexivity. Qed.

Lemma oblivious_http_post req : oblivious (http_post req).
Proof.
  intros st out. unfold http_post. simpl.
  destruct (post (world st) req). reflexivity.
Qed.

Lemma oblivious_bind {A B : Type} (m : M A) (f : A -> M B) :
  oblivious m -> (forall a, oblivious (f a)) -> oblivious (bind m f).
Proof.
  intros Hm Hf st out. unfold bind. rewrite Hm.
  destruct (m st) as [[a | e] st1]; simpl; [apply Hf | reflexivity].
Qed.

Lemma oblivious_try {A : Type} (body : M A) (handler : PyExn -> M A) :
  oblivious body -> (forall e, oblivious (handler e)) ->
  oblivious (try_except body handler).
Proof.
  intros Hb Hh st out. unfold try_except. rewrite Hb.
  destruct (body st) as [[a | e] st1]; simpl; [reflexivity | apply Hh].
Qed.

Create HintDb oblivious.

#[local] Hint Resolve oblivious_ret oblivious_raise oblivious_lift
  oblivious_get_client oblivious_put_client oblivious_http_post : oblivious.

Ltac oblivious_auto :=
  repeat first
    [ solve [auto with oblivious]
    | apply oblivious_bind; [ | intros ? ]
    | apply oblivious_try; [ | intros ? ]
    | match goal with
      | |- oblivious (if ?b then _ else _) => destruct b
      | |- oblivious (match ?x with _ => _ end) => destruct x
      end
    | progress cbv zeta ].

Lemma oblivious__send_request method params :
  oblivious (_send_request method params).
Proof. unfold _send_request. oblivious_auto. Qed.

Lemma oblivious__send_notification method :
  oblivious (_send_notification method).
Proof. unfold _send_notification. oblivious_auto. Qed.

Lemma oblivious_raise_mcp_exception {A : Type} response :
  oblivious (@raise_mcp_exception E A response).
Proof. unfold raise_mcp_exception. oblivious_auto. Qed.

#[local] Hint Resolve oblivious__send_request oblivious__send_notification
  oblivious_raise_mcp_exception : oblivious.

Lemma oblivious_initialize : oblivious initialize.
Proof. unfold initialize. oblivious_auto. Qed.

#[local] Hint Resolve oblivious_initialize : oblivious.

Lemma oblivious__ensure_initialized : oblivious _ensure_initialized.
Proof. unfold _ensure_initialized. oblivious_auto. Qed.

#[local] Hint Resolve oblivious__ensure_initialized : oblivious.

Lemma oblivious_list_tools : oblivious list_tools.
Proof. unfold list_tools. oblivious_auto. Qed.

Lemma oblivious_call_tool name arguments : oblivious (call_tool name arguments).
Proof. unfold call_tool. oblivious_auto. Qed.

(** ** One tool call of a batch *)

(** The body of the [for] loop in one step: it never raises; it yields the
    start event and one closing event, and appends one [tool] turn. *)
Lemma run_tool_call_eq messages tc st :
  run_tool_call messages tc st =
  (let r := fst (call_tool (ToolCall.name tc) (ToolCall.arguments tc) st) in
   let st1 := snd (call_tool (ToolCall.name tc) (ToolCall.arguments tc) st) in
   (Ok tt,
    mkState (mcp st1) (world st1) (traffic st1)
      (heap_set (heap st) messages
         (heap_get (heap st) messages
          ++ [ChatMessage.Build TOOL (outcome_text r)
                (Some (ToolCall.id tc)) None]))
      (emitted st
       ++ [start_event (ToolCall.name tc) (ToolCall.arguments tc);
           result_event (outcome_type r) (ToolCall.name tc) (outcome_text r)]))).
Proof.
  unfold run_tool_call.
  unfold bind at 1. unfold emit at 1.
  change (mkState (mcp st) (world st) (traffic st) (heap st)
            (emitted st ++ [start_event (ToolCall.name tc) (ToolCall.arguments tc)]))
    with (set_emitted st
            (emitted st ++ [start_event (ToolCall.name tc) (ToolCall.arguments tc)])).
  unfold try_except, bind at 1.
  rewrite oblivious_call_tool.
  destruct (call_tool_same_output (ToolCall.name tc) (ToolCall.arguments tc) st)
    as [_ Hheap].
  destruct (call_tool (ToolCall.name tc) (ToolCall.arguments tc) st)
    as [[result | e] st1]; simpl in *.
  - unfold bind, emit, list_append.
    destruct (McpToolResult.is_error result); simpl;
      rewrite Hheap, <- app_assoc; reflexivity.
  - unfold bind, emit, list_append. simpl.
    rewrite Hheap, <- app_assoc. reflexivity.
Qed.

(** ** A batch of tool calls *)

Lemma run_tool_call_ok messages tc st :
  exists closing st',
    run_tool_call messages tc st = (Ok tt, st')
    /\ closes tc closing
    /\ emitted st'
       = emitted st
         ++ [start_event (ToolCall.name tc) (ToolCall.arguments tc); closing].
Proof.
  rewrite run_tool_call_eq. cbv zeta.
  eexists _, _. split; [reflexivity | ]. split; [ | reflexivity ].
  split; [ | reflexivity ].
  simpl. unfold outcome_type.
  destruct (fst (call_tool _ _ st)) as [result | e];
    [destruct (McpToolResult.is_error result) | ]; auto.
Qed.

Lemma run_tool_calls_ok messages tcs st :
  exists closings st',
    run_tool_calls messages tcs st = (Ok tt, st')
    /\ Forall2 closes tcs closings
    /\ emitted st' = emitted st ++ batch_events tcs closings.
Proof.
  revert st. induction tcs as [ | tc tcs IH]; intros st.
  - exists [], st. simpl. rewrite app_nil_r. repeat split. constructor.
  - destruct (run_tool_call_ok messages tc st) as (closing & st1 & H1 & Hc & He1).
    destruct (IH st1) as (closings & st2 & H2 & Hcs & He2).
    exists (closing :: closings), st2. simpl.
    rewrite (bind_ok _ _ _ _ _ H1). split; [exact H2 | ].
    split; [constructor; assumption | ].
    rewrite He2, He1, <- app_assoc. reflexivity.
Qed.

Lemma run_tool_calls_app messages tcs1 tcs2 st :
  run_tool_calls messages (tcs1 ++ tcs2) st
  = run_tool_calls messages tcs2 (snd (run_tool_calls messages tcs1 st)).
Proof.
  revert st. induction tcs1 as [ | tc tcs1 IH]; intros st; simpl.
  - reflexivity.
  - destruct (run_tool_call_ok messages tc st) as (closing & st1 & H1 & _).
    rewrite !(bind_ok _ _ _ _ _ H1). apply IH.
Qed.

Lemma batch_events_starts tcs closings :
  Forall2 closes tcs closings ->
  length (filter is_tool_start (batch_events tcs closings)) = length tcs.
Proof.
  induction 1 as [ | tc ev tcs closings [[Hty | Hty] _] _ IH]; simpl.
  - reflexivity.
  - unfold is_tool_start at 1. rewrite Hty. simpl. rewrite IH. reflexivity.
  - unfold is_tool_start at 1. rewrite Hty. simpl. rewrite IH. reflexivity.
Qed.

(** One pass of the [while] loop whose turn is classified as tool calls:
    the assistant turn is appended, the batch is run, and the loop goes
    on. *)
Lemma tool_loop_tool_calls remaining messages tools st tcs st1 :
  chat (heap_get (heap st) messages) (Some tools) st
  = (Ok (ToolCallsResponse tcs), st1) ->
  tool_loop (S remaining) messages tools st
  = tool_loop remaining messages tools
      (snd (run_tool_calls messages tcs
              (snd (list_append messages (assistant_turn tcs) st1)))).
Proof.
  intros H. simpl. unfold bind at 1. unfold list_read at 1.
  rewrite (bind_ok _ _ _ _ _ H).
  unfold bind at 1.
  change (list_append messages _ st1)
    with (Ok tt, snd (list_append messages (assistant_turn tcs) st1)).
  cbv iota beta.
  destruct (run_tool_calls_ok messages tcs
              (snd (list_append messages (assistant_turn tcs) st1)))
    as (closings & st2 & H2 & _).
  rewrite (bind_ok _ _ _ _ _ H2). simpl in H2. rewrite H2. reflexivity.
Qed.

(** C3: the events of one batch.  Whatever the calls [tcs] of a tool-calls
    classification and whatever the tool server does, the [for] loop
    returns and yields, for each call in the order of [tcs], one
    [tool_start] event with the call's name and arguments followed at once
    by one [tool_complete] or [tool_error] event with the same name; so a
    call is closed before the next one starts and there are as many
    [tool_start] events as calls.  A pass of the [while] loop whose turn is
    classified as the calls [tcs] yields exactly these events before the
    next pass. *)
Theorem tool_batch_events messages tcs st :
  (exists closings st',
     run_tool_calls messages tcs st = (Ok tt, st')
     /\ Forall2 closes tcs closings
     /\ emitted st' = emitted st ++ batch_events tcs closings
     /\ length (filter is_tool_start (batch_events tcs closings)) = length tcs)
  /\ (forall remaining tools st1,
        chat (heap_get (heap st) messages) (Some tools) st
        = (Ok (ToolCallsResponse tcs), st1) ->
        exists closings st2,
          Forall2 closes tcs closings
          /\ emitted st2 = emitted st ++ batch_events tcs closings
          /\ tool_loop (S remaining) messages tools st
             = tool_loop remaining messages tools st2).
Proof.
  split.
  - destruct (run_tool_calls_ok messages tcs st) as (closings & st' & H & Hc & He).
    exists closings, st'. repeat split; try assumption.
    apply batch_events_starts, Hc.
  - intros remaining tools st1 H.
    destruct (run_tool_calls_ok messages tcs
                (snd (list_append messages (assistant_turn tcs) st1)))
      as (closings & st2 & H2 & Hc & He).
    exists closings, st2. split; [exact Hc | ]. split.
    + rewrite He. simpl.
      destruct (chat_same_output (heap_get (heap st) messages) (Some tools) st)
        as [Hout _].
      rewrite H in Hout. simpl in Hout. rewrite Hout. reflexivity.
    + rewrite (tool_loop_tool_calls _ _ _ _ _ _ H), H2. reflexivity.
Qed.

(** ** The store of message lists *)

Lemma heap_set_length h l v : length (heap_set h l v) = length h.
Proof.
  revert l. induction h as [ | x h IH]; intros [ | l]; simpl; auto.
Qed.

Lemma heap_get_set_same h l v :
  l < length h -> heap_get (heap_set h l v) l = v.
Proof.
  unfold heap_get. revert l.
  induction h as [ | x h IH]; intros [ | l] Hl; simpl in *; try lia.
  - reflexivity.
  - apply IH. lia.
Qed.

Lemma heap_get_set_other h l l' v :
  l' <> l -> heap_get (heap_set h l v) l' = heap_get h l'.
Proof.
  unfold heap_get. revert l l'.
  induction h as [ | x h IH]; intros [ | l] [ | l'] Hne; simpl; auto;
    congruence.
Qed.

(** ** C4 and C9: what a tool call leaves behind *)

(** C4: a [call_tool] that raises.  When [call_tool] raises [e] for the
    call [tc] of a batch [pre ++ tc :: rest], the body of the loop does
    not raise: it yields the start event and a [tool_error] event whose
    result is "Tool execution failed: " followed by [str(e)], appends to
    the conversation a [tool] turn with that same text and the id of
    [tc], and the run goes on: the calls [rest] are run, and the [while]
    loop makes its next pass. *)
Theorem call_tool_failure_is_reported
    remaining messages tools st0 stA pre tc rest st e st1 :
  chat (heap_get (heap st0) messages) (Some tools) st0
  = (Ok (ToolCallsResponse (pre ++ tc :: rest)), stA) ->
  run_tool_calls messages pre
    (snd (list_append messages (assistant_turn (pre ++ tc :: rest)) stA))
  = (Ok tt, st) ->
  call_tool (ToolCall.name tc) (ToolCall.arguments tc) st = (Raise e, st1) ->
  messages < length (heap st) ->
  let error_msg := ("Tool execution failed: " ++ exn_str e)%string in
  exists st2 st3,
    run_tool_call messages tc st = (Ok tt, st2)
    /\ emitted st2
       = emitted st
         ++ [start_event (ToolCall.name tc) (ToolCall.arguments tc);
             result_event TOOL_ERROR (ToolCall.name tc) error_msg]
    /\ heap_get (heap st2) messages
       = heap_get (heap st) messages
         ++ [ChatMessage.Build TOOL error_msg (Some (ToolCall.id tc)) None]
    /\ run_tool_calls messages rest st2 = (Ok tt, st3)
    /\ tool_loop (S remaining) messages tools st0
       = tool_loop remaining messages tools st3.
Proof.
  intros Hchat Hpre Hcall Halloc error_msg.
  pose proof (run_tool_call_eq messages tc st) as Heq.
  rewrite Hcall in Heq. cbv zeta in Heq. simpl fst in Heq. simpl snd in Heq.
  simpl outcome_type in Heq. simpl outcome_text in Heq.
  destruct (run_tool_calls_ok messages rest
              (snd (run_tool_call messages tc st)))
    as (closings & st3 & Hrest & _).
  rewrite Heq in Hrest. simpl snd in Hrest.
  eexists _, st3. split; [exact Heq | ].
  split; [reflexivity | ].
  split; [simpl; apply heap_get_set_same, Halloc | ].
  split; [exact Hrest | ].
  rewrite (tool_loop_tool_calls _ _ _ _ _ _ Hchat).
  rewrite run_tool_calls_app, Hpre. simpl snd.
  simpl run_tool_calls. rewrite (bind_ok _ _ _ _ _ Heq), Hrest. reflexivity.
Qed.

Lemma text_parts_nonempty_texts content :
  text_parts content = filter str_truthy (present_texts content).
Proof.
  unfold text_parts, present_texts.
  induction content as [ | c content IH]; simpl; [reflexivity | ].
  destruct (McpContent.text c) as [s | ]; simpl; [ | exact IH].
  destruct (str_truthy s); simpl; rewrite IH; reflexivity.
Qed.

Lemma filter_all_true {A : Type} (f : A -> bool) (l : list A) :
  Forall (fun x => f x = true) l -> filter f l = l.
Proof.
  induction 1 as [ | x l Hx _ IH]; simpl; [reflexivity | ].
  rewrite Hx, IH. reflexivity.
Qed.

(** C9, as the code has it: when [call_tool] returns [result], the string
    stored in the appended [tool] turn, which is also the result of the
    [tool_complete] (or, when [result.is_error], [tool_error]) event, is
    the join with newline of the texts of the content parts that are not
    empty, in order: a part with no text or with an empty text adds
    nothing, and the kind of a part is not looked at.  When no part has an
    empty text, this is the join of all the texts the parts carry. *)
Theorem tool_result_text_joins_nonempty_parts messages tc st result st1 :
  call_tool (ToolCall.name tc) (ToolCall.arguments tc) st = (Ok result, st1) ->
  messages < length (heap st) ->
  let text :=
    String.concat newline
      (filter str_truthy (present_texts (McpToolResult.content result))) in
  exists st2,
    run_tool_call messages tc st = (Ok tt, st2)
    /\ emitted st2
       = emitted st
         ++ [start_event (ToolCall.name tc) (ToolCall.arguments tc);
             result_event
               (if McpToolResult.is_error result then TOOL_ERROR
                else TOOL_COMPLETE)
               (ToolCall.name tc) text]
    /\ heap_get (heap st2) messages
       = heap_get (heap st) messages
         ++ [ChatMessage.Build TOOL text (Some (ToolCall.id tc)) None]
    /\ (Forall (fun s => str_truthy s = true)
          (present_texts (McpToolResult.content result)) ->
        text = joined_text_parts (McpToolResult.content result)).
Proof.
  intros Hcall Halloc text.
  pose proof (run_tool_call_eq messages tc st) as Heq.
  rewrite Hcall in Heq. cbv zeta in Heq. simpl fst in Heq. simpl snd in Heq.
  simpl outcome_type in Heq. simpl outcome_text in Heq.
  rewrite text_parts_nonempty_texts in Heq. fold text in Heq.
  eexists. split; [exact Heq | ].
  split; [reflexivity | ].
  split; [simpl; apply heap_get_set_same, Halloc | ].
  intros Hall. unfold text, joined_text_parts.
  rewrite (filter_all_true _ _ Hall). reflexivity.
Qed.

(** ** C7: the arguments [call_tool] sends *)

Lemma dict_set_fresh k v d :
  ~ In k (keys d) -> dict_set k v d = d ++ [(k, v)].
Proof.
  unfold keys. induction d as [ | [k' v'] d IH]; simpl; intros Hk.
  - reflexivity.
  - destruct (String.eqb_spec k k') as [-> | Hne].
    + exfalso. apply Hk. left. reflexivity.
    + rewrite IH; [reflexivity | ]. intros Hin. apply Hk. right. exact Hin.
Qed.

Lemma string_args_fold arguments acc :
  NoDup (keys acc ++ keys arguments) ->
  fold_left (fun a kv => dict_set (fst kv) (coerce (snd kv)) a) arguments acc
  = acc ++ map (fun kv => (fst kv, coerce (snd kv))) arguments.
Proof.
  revert acc. induction arguments as [ | [k v] arguments IH]; intros acc Hnd.
  - simpl. rewrite app_nil_r. reflexivity.
  - simpl. simpl in Hnd.
    rewrite dict_set_fresh.
    + rewrite IH.
      * rewrite <- app_assoc. reflexivity.
      * unfold keys in *. rewrite map_app. simpl. rewrite <- app_assoc.
        exact Hnd.
    + apply NoDup_remove_2 in Hnd. intros Hin. apply Hnd.
      apply in_or_app. left. exact Hin.
Qed.

(** On a dict, whose keys are distinct, the comprehension keeps the keys
    and their order and coerces each value. *)
Lemma string_args_map arguments :
  NoDup (keys arguments) ->
  string_args arguments = map (fun kv => (fst kv, coerce (snd kv))) arguments.
Proof.
  intros Hnd. unfold string_args. rewrite string_args_fold; [reflexivity | ].
  exact Hnd.
Qed.

#[local] Instance unchanged_refl : Reflexive unchanged.
Proof. intros st. reflexivity. Qed.

#[local] Instance unchanged_trans : Transitive unchanged.
Proof. intros a b c H1 H2. unfold unchanged in *. congruence. Qed.

(** The request [call_tool] posts once the client is initialized, and
    that it posts nothing else. *)
Lemma call_tool_traffic st s1 name arguments :
  _ensure_initialized st = (Ok tt, s1) ->
  traffic (snd (call_tool name arguments st))
  = traffic s1
    ++ [Posted (rpc_request (mcp s1) "tools/call"
                  (Some (JObj [("name", JStr name);
                               ("arguments", JObj (string_args arguments))])))].
Proof.
  intros Hensure. unfold call_tool.
  rewrite (bind_ok _ _ _ _ _ Hensure).
  cbv zeta. unfold bind at 1. rewrite _send_request_eq.
  destruct (rbind _ response_json) as [response | e]; [ | reflexivity ].
  match goal with
  | |- traffic (snd (?k ?s)) = _ =>
      assert (Hk : keeps unchanged k) by keeps_auto;
      rewrite (Hk s)
  end.
  reflexivity.
Qed.

(** C7: [call_tool] sends textual arguments.  Once the client is
    initialized (it is already, and then [s1] is [st], or the handshake
    [call_tool] starts with succeeds), [call_tool(name, arguments)] posts
    one request, a [tools/call] whose params carry [name] and, under every
    key of [arguments] and in the same order, [None] where the value is
    [None] and the [str] of the value otherwise.  The arguments [{"pnr":
    12345, "flag": True, "x": None}] are sent as [{"pnr": "12345", "flag":
    "True", "x": None}]. *)
Theorem call_tool_sends_textual_arguments st s1 name arguments :
  _ensure_initialized st = (Ok tt, s1) ->
  NoDup (keys arguments) ->
  (exists req,
     traffic (snd (call_tool name arguments st)) = traffic s1 ++ [Posted req]
     /\ json_body req
        = JObj [("jsonrpc", JStr "2.0");
                ("id", JInt (McpClient._request_id (mcp s1) + 1));
                ("method", JStr "tools/call");
                ("params",
                 JObj [("name", JStr name);
                       ("arguments",
                        JObj (map (fun kv => (fst kv, coerce (snd kv)))
                                arguments))])])
  /\ (McpClient._is_initialized (mcp st) = true -> s1 = st)
  /\ coerce JNull = JNull
  /\ (forall v, v <> JNull -> coerce v = JStr (py_str v))
  /\ string_args [("pnr", JInt 12345); ("flag", JBool true); ("x", JNull)]
     = [("pnr", JStr "12345"); ("flag", JStr "True"); ("x", JNull)].
Proof.
  intros Hensure Hnd. split; [ | split; [ | split; [ | split ] ] ].
  - eexists. split; [apply call_tool_traffic, Hensure | ].
    simpl. rewrite (string_args_map _ Hnd). reflexivity.
  - intros Hinit.
    rewrite (_ensure_initialized_when_initialized st Hinit) in Hensure.
    injection Hensure as <-. reflexivity.
  - reflexivity.
  - intros v Hv. destruct v; try reflexivity. congruence.
  - reflexivity.
Qed.

(** ** C8: arguments that do not decode *)

(** [chat] in one step: one completion is requested; the reply is
    classified, and whatever is raised on the way becomes an [LlmError]. *)
Lemma chat_eq messages tools st :
  chat messages tools st =
  (let req := chat_request messages tools in
   let r := fst (completions_create (world st) req) in
   let w := snd (completions_create (world st) req) in
   (Ok (match rbind r classify with
        | Ok response => response
        | Raise e => LlmError (exn_str e) (Some e)
        end),
    mkState (mcp st) w (traffic st ++ [Completed req]) (heap st) (emitted st))).
Proof.
  unfold chat, try_except, bind, openai_create, lift, ret. cbv zeta.
  destruct (completions_create (world st) (chat_request messages tools))
    as [[response | e] w]; simpl; [ | reflexivity ].
  destruct (classify response); reflexivity.
Qed.

Lemma rmap_app {A B : Type} (f : A -> Result B) l1 l2 l1' l2' :
  rmap f l1 = Ok l1' -> rmap f l2 = Ok l2' ->
  rmap f (l1 ++ l2) = Ok (l1' ++ l2').
Proof.
  revert l1'. induction l1 as [ | x l1 IH]; intros l1' H1 H2; simpl in *.
  - injection H1 as <-. exact H2.
  - destruct (f x) as [y | e]; simpl in *; [ | discriminate ].
    destruct (rmap f l1) as [ys | e]; simpl in *; [ | discriminate ].
    injection H1 as <-. rewrite (IH ys eq_refl H2). reflexivity.
Qed.

Lemma parse_tool_call_undecodable tc :
  json_loads (function_arguments tc) = None ->
  parse_tool_call tc
  = Ok (ToolCall.Build (call_id tc) (function_name tc) []).
Proof. intros H. unfold parse_tool_call. rewrite H. reflexivity. Qed.

#[local] Instance stays_initialized_refl : Reflexive stays_initialized.
Proof. intros st H. exact H. Qed.

#[local] Instance stays_initialized_trans : Transitive stays_initialized.
Proof. intros a b c H1 H2 H. apply H2, H1, H. Qed.

Lemma call_tool_stays_initialized name arguments :
  keeps stays_initialized (call_tool name arguments).
Proof.
  intros st Hinit. unfold call_tool.
  rewrite (bind_ok _ _ _ _ _ (_ensure_initialized_when_initialized st Hinit)).
  cbv zeta. unfold bind at 1. rewrite _send_request_eq.
  destruct (rbind _ response_json) as [response | e]; [ | exact Hinit ].
  match goal with
  | |- McpClient._is_initialized (mcp (snd (?k ?s))) = _ =>
      assert (Hk : keeps unchanged k) by keeps_auto;
      rewrite (Hk s)
  end.
  exact Hinit.
Qed.

Lemma run_tool_call_stays_initialized messages tc :
  keeps stays_initialized (run_tool_call messages tc).
Proof.
  intros st Hinit. rewrite run_tool_call_eq. simpl.
  apply call_tool_stays_initialized, Hinit.
Qed.

Lemma run_tool_calls_stays_initialized messages tcs :
  keeps stays_initialized (run_tool_calls messages tcs).
Proof.
  induction tcs as [ | tc tcs IH]; simpl.
  - apply keeps_ret. exact _.
  - apply keeps_bind; [exact _ | apply run_tool_call_stays_initialized | ].
    intros _. exact IH.
Qed.

(** C8: arguments that are not JSON.  Let the provider's reply to a turn
    carry the function calls [pre ++ tc :: post], where the arguments text
    of [tc] does not decode and the other calls are accepted.  Then [chat]
    does not raise and does not report an error: it classifies the reply
    as tool calls, the call made from [tc] having the empty dict for
    arguments.  The run goes on: when its turn comes in the batch, the
    call yields a start event with empty arguments and posts a
    [tools/call] request whose arguments are the empty dict; the rest of
    the batch follows, and then the next pass of the loop. *)
Theorem undecodable_arguments_become_empty
    remaining messages tools st completion w1 msg others pre tc post pre' post' :
  completions_create (world st)
    (chat_request (heap_get (heap st) messages) (Some tools))
  = (Ok completion, w1) ->
  choices completion = msg :: others ->
  message_tool_calls msg = Some (pre ++ tc :: post) ->
  json_loads (function_arguments tc) = None ->
  rmap parse_tool_call pre = Ok pre' ->
  rmap parse_tool_call post = Ok post' ->
  McpClient._is_initialized (mcp st) = true ->
  let call := ToolCall.Build (call_id tc) (function_name tc) [] in
  let tcs := pre' ++ call :: post' in
  exists st1 s s' closing req,
    chat (heap_get (heap st) messages) (Some tools) st
    = (Ok (ToolCallsResponse tcs), st1)
    /\ run_tool_calls messages pre'
         (snd (list_append messages (assistant_turn tcs) st1))
       = (Ok tt, s)
    /\ run_tool_call messages call s = (Ok tt, s')
    /\ emitted s' = emitted s ++ [start_event (function_name tc) []; closing]
    /\ traffic s' = traffic s ++ [Posted req]
    /\ json_body req
       = JObj [("jsonrpc", JStr "2.0");
               ("id", JInt (McpClient._request_id (mcp s) + 1));
               ("method", JStr "tools/call");
               ("params",
                JObj [("name", JStr (function_name tc));
                      ("arguments", JObj [])])]
    /\ tool_loop (S remaining) messages tools st
       = tool_loop remaining messages tools
           (snd (run_tool_calls messages post' s')).
Proof.
  intros Hcreate Hchoices Hcalls Hloads Hpre Hpost Hinit call tcs.
  assert (Hchat : chat (heap_get (heap st) messages) (Some tools) st
                  = (Ok (ToolCallsResponse tcs),
                     mkState (mcp st) w1
                       (traffic st
                        ++ [Completed (chat_request (heap_get (heap st) messages)
                                         (Some tools))])
                       (heap st) (emitted st))).
  { rewrite chat_eq. cbv zeta. rewrite Hcreate. simpl fst. simpl snd.
    unfold rbind at 1. unfold classify. rewrite Hchoices, Hcalls.
    assert (Hall : rmap parse_tool_call (pre ++ tc :: post) = Ok tcs).
    { apply rmap_app; [exact Hpre | ]. simpl.
      rewrite (parse_tool_call_undecodable tc Hloads), Hpost. reflexivity. }
    destruct (pre ++ tc :: post) as [ | tc0 l] eqn:Hl.
    - destruct pre; discriminate Hl.
    - rewrite Hall. reflexivity. }
  destruct (run_tool_calls_ok messages pre'
              (snd (list_append messages (assistant_turn tcs)
                      (mkState (mcp st) w1
                         (traffic st
                          ++ [Completed (chat_request (heap_get (heap st) messages)
                                           (Some tools))])
                         (heap st) (emitted st)))))
    as (closings & s & Hs & _).
  assert (Hinit_s : McpClient._is_initialized (mcp s) = true).
  { pose proof (run_tool_calls_stays_initialized messages pre'
                  (snd (list_append messages (assistant_turn tcs)
                          (mkState (mcp st) w1
                             (traffic st
                              ++ [Completed (chat_request
                                               (heap_get (heap st) messages)
                                               (Some tools))])
                             (heap st) (emitted st))))) as Hk.
    rewrite Hs in Hk. apply Hk. exact Hinit. }
  pose proof (run_tool_call_eq messages call s) as Heq. cbv zeta in Heq.
  eexists _, s, _, _, _.
  split; [exact Hchat | ].
  split; [exact Hs | ].
  split; [exact Heq | ].
  split; [reflexivity | ].
  split; [simpl; apply call_tool_traffic,
                   _ensure_initialized_when_initialized, Hinit_s | ].
  split; [reflexivity | ].
  rewrite (tool_loop_tool_calls _ _ _ _ _ _ Hchat).
  subst tcs. rewrite run_tool_calls_app, Hs. simpl snd.
  simpl run_tool_calls. rewrite (bind_ok _ _ _ _ _ Heq). reflexivity.
Qed.

(** ** C1: every run ends in one terminal event *)

Lemma tool_event_nonterminal ev : tool_event ev -> nonterminal ev.
Proof.
  unfold tool_event, nonterminal.
  intros [H | [H | H]]; rewrite H; repeat split; discriminate.
Qed.

Lemma batch_events_tool_events tcs closings :
  Forall2 closes tcs closings -> Forall tool_event (batch_events tcs closings).
Proof.
  induction 1 as [ | tc ev tcs closings [Hty _] _ IH]; simpl.
  - constructor.
  - constructor; [left; reflexivity | ].
    constructor; [right; exact Hty | exact IH].
Qed.

(** The events of the [while] loop: tool events, and then, when the loop
    is left by a [return], the terminal events. *)
Lemma tool_loop_events remaining messages tools st :
  exists exit st' pre tail,
    tool_loop remaining messages tools st = (Ok exit, st')
    /\ emitted st' = emitted st ++ pre ++ tail
    /\ Forall tool_event pre
    /\ match exit with
       | Returned => terminal_tail tail
       | Exhausted => tail = []
       end.
Proof.
  revert st. induction remaining as [ | remaining IH]; intros st.
  - exists Exhausted, st, [], []. simpl. rewrite app_nil_r.
    repeat split. constructor.
  - destruct (chat (heap_get (heap st) messages) (Some tools) st)
      as [r st1] eqn:Hchat.
    pose proof (chat_same_output (heap_get (heap st) messages) (Some tools) st)
      as [Hout _].
    rewrite Hchat in Hout. simpl in Hout.
    pose proof Hchat as Hr. rewrite chat_eq in Hr. cbv zeta in Hr.
    injection Hr as Hr _.
    destruct r as [response | e]; [ | discriminate Hr ]. clear Hr.
    destruct response as [text | tcs | message cause].
    + exists Returned. eexists _, [], _.
      simpl. unfold bind at 1. unfold list_read at 1.
      rewrite (bind_ok _ _ _ _ _ Hchat).
      split; [reflexivity | ]. simpl. rewrite Hout, <- app_assoc.
      split; [reflexivity | ]. split; [constructor | ].
      left. eexists. reflexivity.
    + destruct (run_tool_calls_ok messages tcs
                  (snd (list_append messages (assistant_turn tcs) st1)))
        as (closings & st2 & H2 & Hc & He).
      destruct (IH st2) as (exit & st' & pre & tail & Hloop & Hev & Hpre & Hexit).
      exists exit, st', (batch_events tcs closings ++ pre), tail.
      rewrite (tool_loop_tool_calls _ _ _ _ _ _ Hchat), H2.
      split; [exact Hloop | ].
      split.
      * rewrite Hev, He. simpl. rewrite Hout, <- !app_assoc. reflexivity.
      * split; [ | exact Hexit ].
        apply Forall_app. split; [ | exact Hpre ].
        apply batch_events_tool_events, Hc.
    + exists Returned. eexists _, [], _.
      simpl. unfold bind at 1. unfold list_read at 1.
      rewrite (bind_ok _ _ _ _ _ Hchat).
      split; [reflexivity | ]. simpl. rewrite Hout.
      split; [reflexivity | ]. split; [constructor | ].
      right. eexists. reflexivity.
Qed.

Lemma thinking_nonterminal : nonterminal thinking.
Proof. repeat split; discriminate. Qed.

(** C1: one terminal event, at the end.  Whatever the message, the
    history, the tool server and the LLM provider do, a run of
    [process_message] returns without raising, and the events it yields
    are events that are neither [response], nor [error], nor [done],
    followed either by one [response] event and one [done] event, or by
    one [error] event; nothing comes after. *)
Theorem process_message_ends_with_one_terminal user_message history st :
  exists st' pre tail,
    process_message user_message history st = (Ok tt, st')
    /\ emitted st' = emitted st ++ pre ++ tail
    /\ Forall nonterminal pre
    /\ terminal_tail tail.
Proof.
  unfold process_message, try_except.
  unfold bind at 1. unfold emit at 1. fold thinking.
  set (sT := mkState (mcp st) (world st) (traffic st) (heap st)
               (emitted st ++ [thinking])).
  cbv iota beta.
  unfold bind at 1.
  pose proof (initialize_same_output sT) as [Hi _].
  destruct (initialize sT) as [[[] | e] s1]; simpl in Hi.
  - unfold bind at 1.
    pose proof (list_tools_same_output s1) as [Hl _].
    destruct (list_tools s1) as [[tools | e] s2]; simpl in Hl.
    + unfold bind at 1. unfold list_copy at 1. cbv iota beta zeta.
      unfold heap_alloc. cbv iota beta.
      unfold bind at 1. unfold list_append at 1. cbv iota beta.
      match goal with
      | |- context [tool_loop ?n ?m ?t] =>
          match goal with
          | |- context [bind (tool_loop n m t) ?k ?s] =>
              destruct (tool_loop_events n m t s)
                as (exit & s3 & pre & tail & Hloop & Hev & Hpre & Hexit);
              rewrite (bind_ok _ _ _ _ _ Hloop)
          end
      end.
      simpl in Hev. rewrite Hl, Hi in Hev. simpl in Hev.
      destruct exit.
      * exists s3, (thinking :: pre), tail. split; [reflexivity | ].
        split; [rewrite Hev, <- app_assoc; reflexivity | ].
        split; [ | exact Hexit ].
        constructor; [apply thinking_nonterminal | ].
        eapply Forall_impl; [ | exact Hpre ]. apply tool_event_nonterminal.
      * subst tail. eexists _, (thinking :: pre), _.
        split; [reflexivity | ]. simpl.
        split; [rewrite Hev, app_nil_r, <- !app_assoc; reflexivity | ].
        split; [ | right; eexists; reflexivity ].
        constructor; [apply thinking_nonterminal | ].
        eapply Forall_impl; [ | exact Hpre ]. apply tool_event_nonterminal.
    + eexists _, [thinking], _. split; [reflexivity | ]. simpl.
      rewrite Hl, Hi. simpl. rewrite <- app_assoc.
      split; [reflexivity | ].
      split; [constructor; [apply thinking_nonterminal | constructor] | ].
      right. eexists. reflexivity.
  - eexists _, [thinking], _. split; [reflexivity | ]. simpl.
    rewrite Hi. simpl. rewrite <- app_assoc.
    split; [reflexivity | ].
    split; [constructor; [apply thinking_nonterminal | constructor] | ].
    right. eexists. reflexivity.
Qed.

(** ** C2: the iteration cap *)

#[local] Instance same_llm_calls_refl : Reflexive same_llm_calls.
Proof. intros st. reflexivity. Qed.

#[local] Instance same_llm_calls_trans : Transitive same_llm_calls.
Proof. intros a b c H1 H2. unfold same_llm_calls in *. congruence. Qed.

Lemma llm_calls_posted log req : llm_calls (log ++ [Posted req]) = llm_calls log.
Proof.
  unfold llm_calls. rewrite filter_app, length_app. simpl. lia.
Qed.

Lemma llm_calls_completed log req :
  llm_calls (log ++ [Completed req]) = S (llm_calls log).
Proof.
  unfold llm_calls. rewrite filter_app, length_app. simpl. lia.
Qed.

Lemma put_client_same_llm_calls c : keeps same_llm_calls (put_client c).
Proof. intros st. reflexivity. Qed.

Lemma http_post_same_llm_calls req : keeps same_llm_calls (http_post req).
Proof.
  intros st. unfold http_post. destruct (post (world st) req).
  apply llm_calls_posted.
Qed.

#[local] Hint Resolve put_client_same_llm_calls http_post_same_llm_calls : keeps.

Lemma _send_request_same_llm_calls method params :
  keeps same_llm_calls (_send_request method params).
Proof. unfold _send_request. keeps_auto. Qed.

Lemma _send_notification_same_llm_calls method :
  keeps same_llm_calls (_send_notification method).
Proof. unfold _send_notification. keeps_auto. Qed.

#[local] Hint Resolve _send_request_same_llm_calls
  _send_notification_same_llm_calls : keeps.

Lemma initialize_same_llm_calls : keeps same_llm_calls initialize.
Proof. unfold initialize. keeps_auto. Qed.

#[local] Hint Resolve initialize_same_llm_calls : keeps.

Lemma _ensure_initialized_same_llm_calls : keeps same_llm_calls _ensure_initialized.
Proof. unfold _ensure_initialized. keeps_auto. Qed.

#[local] Hint Resolve _ensure_initialized_same_llm_calls : keeps.

Lemma list_tools_same_llm_calls : keeps same_llm_calls list_tools.
Proof. unfold list_tools. keeps_auto. Qed.

Lemma call_tool_same_llm_calls name arguments :
  keeps same_llm_calls (call_tool name arguments).
Proof. unfold call_tool. keeps_auto. Qed.

Lemma run_tool_call_same_llm_calls messages tc :
  keeps same_llm_calls (run_tool_call messages tc).
Proof.
  intros st. rewrite run_tool_call_eq. apply call_tool_same_llm_calls.
Qed.

Lemma run_tool_calls_same_llm_calls messages tcs :
  keeps same_llm_calls (run_tool_calls messages tcs).
Proof.
  induction tcs as [ | tc tcs IH]; simpl.
  - apply keeps_ret. exact _.
  - apply keeps_bind; [exact _ | apply run_tool_call_same_llm_calls | ].
    intros _. exact IH.
Qed.

(** The provider is asked once per call of [chat]. *)
Lemma chat_llm_calls messages tools st :
  llm_calls (traffic (snd (chat messages tools st)))
  = S (llm_calls (traffic st)).
Proof. rewrite chat_eq. apply llm_calls_completed. Qed.

(** A loop whose turns are all classified as tool calls makes all its
    passes: it asks the provider once per pass and yields tool events
    only. *)
Lemma tool_loop_exhausted remaining messages tools st :
  always_tool_calls ->
  exists st' pre,
    tool_loop remaining messages tools st = (Ok Exhausted, st')
    /\ llm_calls (traffic st') = llm_calls (traffic st) + remaining
    /\ emitted st' = emitted st ++ pre
    /\ Forall tool_event pre.
Proof.
  intros Halways. revert st.
  induction remaining as [ | remaining IH]; intros st.
  - exists st, []. simpl. rewrite app_nil_r, Nat.add_0_r.
    repeat split. constructor.
  - destruct (Halways (heap_get (heap st) messages) (Some tools) st)
      as (tcs & st1 & Hchat).
    pose proof (chat_same_output (heap_get (heap st) messages) (Some tools) st)
      as [Hout _].
    pose proof (chat_llm_calls (heap_get (heap st) messages) (Some tools) st)
      as Hcalls.
    rewrite Hchat in Hout, Hcalls. simpl in Hout, Hcalls.
    destruct (run_tool_calls_ok messages tcs
                (snd (list_append messages (assistant_turn tcs) st1)))
      as (closings & st2 & H2 & Hc & He).
    pose proof (run_tool_calls_same_llm_calls messages tcs
                  (snd (list_append messages (assistant_turn tcs) st1)))
      as Hsame.
    rewrite H2 in Hsame. unfold same_llm_calls in Hsame. simpl in Hsame.
    destruct (IH st2) as (st' & pre & Hloop & Hn & Hev & Hpre).
    exists st', (batch_events tcs closings ++ pre).
    rewrite (tool_loop_tool_calls _ _ _ _ _ _ Hchat), H2.
    split; [exact Hloop | ].
    split; [rewrite Hn, Hsame, Hcalls; lia | ].
    split.
    + rewrite Hev, He. simpl. rewrite Hout, <- app_assoc. reflexivity.
    + apply Forall_app. split; [ | exact Hpre ].
      apply batch_events_tool_events, Hc.
Qed.

(** C2: the iteration cap.  Let the LLM turn client classify every turn
    as tool calls, and let the handshake and the tool listing succeed.
    Then, whether the tool calls succeed or not, the loop makes exactly
    [MAX_TOOL_ITERATIONS] = 10 passes, one LLM call each, and the run
    yields [thinking], then tool events only, then one [error] event that
    reports the iteration limit: no [done], no [response], no other
    [error].  The cap is a constant of the module; [process_message] has
    no parameter for it. *)
Theorem iteration_cap_is_ten user_message history st tools st2 :
  always_tool_calls ->
  (initialize ;; list_tools) st = (Ok tools, st2) ->
  MAX_TOOL_ITERATIONS = 10
  /\ exists st' pre,
       process_message user_message history st = (Ok tt, st')
       /\ llm_calls (traffic st') = llm_calls (traffic st) + 10
       /\ emitted st'
          = emitted st
            ++ [thinking] ++ pre
            ++ [text_event ERROR
                  "Maximum tool iterations reached. Please try again."]
       /\ Forall tool_event pre.
Proof.
  intros Halways Hsetup. split; [reflexivity | ].
  apply bind_ok_inv in Hsetup. destruct Hsetup as ([] & s1 & Hinit & Hlist).
  pose proof (oblivious_initialize st (emitted st ++ [thinking])) as Hoi.
  pose proof (oblivious_list_tools s1 (emitted st ++ [thinking])) as Hol.
  pose proof (initialize_same_llm_calls st) as Hki.
  pose proof (list_tools_same_llm_calls s1) as Hkl.
  rewrite Hinit in Hoi, Hki. rewrite Hlist in Hol, Hkl.
  simpl in Hoi, Hol, Hki, Hkl. unfold same_llm_calls in Hki, Hkl.
  unfold process_message, try_except.
  unfold bind at 1. unfold emit at 1. fold thinking.
  change (mkState (mcp st) (world st) (traffic st) (heap st)
            (emitted st ++ [thinking]))
    with (set_emitted st (emitted st ++ [thinking])).
  cbv iota beta.
  rewrite (bind_ok _ _ _ _ _ Hoi).
  rewrite (bind_ok _ _ _ _ _ Hol).
  unfold bind at 1. unfold list_copy at 1. cbv iota beta zeta.
  unfold heap_alloc. cbv iota beta.
  unfold bind at 1. unfold list_append at 1. cbv iota beta.
  match goal with
  | |- context [bind (tool_loop ?n ?m ?t) ?k ?s] =>
      destruct (tool_loop_exhausted n m t s Halways)
        as (s3 & pre & Hloop & Hn & Hev & Hpre);
      rewrite (bind_ok _ _ _ _ _ Hloop)
  end.
  simpl in Hn, Hev.
  eexists _, pre. split; [reflexivity | ].
  simpl. split; [rewrite Hn, Hkl, Hki; reflexivity | ].
  split; [ | exact Hpre ].
  rewrite Hev, <- !app_assoc. reflexivity.
Qed.

(** ** C10: the caller's history *)

Lemma heap_set_out_of_range h l v : length h <= l -> heap_set h l v = h.
Proof.
  revert l. induction h as [ | x h IH]; intros [ | l] Hl; simpl in *;
    try reflexivity; try lia.
  rewrite IH; [reflexivity | lia].
Qed.

Lemma heap_set_get h l : heap_set h l (heap_get h l) = h.
Proof.
  unfold heap_get. revert l.
  induction h as [ | x h IH]; intros [ | l]; simpl; try reflexivity.
  rewrite IH. reflexivity.
Qed.

Lemma heap_set_set h l a b : heap_set (heap_set h l a) l b = heap_set h l b.
Proof.
  revert l. induction h as [ | x h IH]; intros [ | l]; simpl; try reflexivity.
  rewrite IH. reflexivity.
Qed.

Lemma heap_set_last h a b : heap_set (h ++ [a]) (length h) b = h ++ [b].
Proof. induction h as [ | x h IH]; simpl; [ | rewrite IH ]; reflexivity. Qed.

Lemma heap_get_last h a : heap_get (h ++ [a]) (length h) = a.
Proof.
  unfold heap_get. rewrite app_nth2, Nat.sub_diag; [reflexivity | lia].
Qed.

#[local] Instance appends_to_refl messages : Reflexive (appends_to messages).
Proof. intros st. exists []. rewrite app_nil_r, heap_set_get. reflexivity. Qed.

#[local] Instance appends_to_trans messages : Transitive (appends_to messages).
Proof.
  intros a b c [r1 H1] [r2 H2]. exists (r1 ++ r2).
  destruct (Nat.lt_ge_cases messages (length (heap a))) as [Hin | Hout].
  - rewrite H2, H1, heap_get_set_same, heap_set_set, app_assoc by exact Hin.
    reflexivity.
  - rewrite H2, H1.
    rewrite !(heap_set_out_of_range (heap a)) by exact Hout.
    reflexivity.
Qed.

Lemma same_output_appends_to messages a b :
  same_output a b -> appends_to messages a b.
Proof.
  intros [_ Hh]. exists []. rewrite Hh, app_nil_r, heap_set_get. reflexivity.
Qed.

Lemma emit_appends_to messages ev : keeps (appends_to messages) (emit ev).
Proof.
  intros st. exists []. simpl. rewrite app_nil_r, heap_set_get. reflexivity.
Qed.

Lemma list_append_appends_to messages x :
  keeps (appends_to messages) (list_append messages x).
Proof. intros st. exists [x]. reflexivity. Qed.

Lemma call_tool_appends_to messages name arguments :
  keeps (appends_to messages) (call_tool name arguments).
Proof.
  eapply keeps_weaken;
    [apply same_output_appends_to | apply call_tool_same_output].
Qed.

Lemma chat_appends_to messages conversation tools :
  keeps (appends_to messages) (chat conversation tools).
Proof.
  eapply keeps_weaken; [apply same_output_appends_to | apply chat_same_output].
Qed.

#[local] Hint Resolve emit_appends_to list_append_appends_to
  call_tool_appends_to chat_appends_to : keeps.

Lemma run_tool_call_appends_to messages tc :
  keeps (appends_to messages) (run_tool_call messages tc).
Proof. unfold run_tool_call. keeps_auto. Qed.

#[local] Hint Resolve run_tool_call_appends_to : keeps.

Lemma run_tool_calls_appends_to messages tcs :
  keeps (appends_to messages) (run_tool_calls messages tcs).
Proof. induction tcs as [ | tc tcs IH]; simpl; keeps_auto. Qed.

#[local] Hint Resolve run_tool_calls_appends_to : keeps.

Lemma tool_loop_appends_to remaining messages tools :
  keeps (appends_to messages) (tool_loop remaining messages tools).
Proof. induction remaining as [ | remaining IH]; simpl; keeps_auto. Qed.

#[local] Hint Resolve tool_loop_appends_to : keeps.

(** The store after a run: as it was when the handshake or the tool
    listing failed; otherwise with one more list, which starts with the
    items of [history] and the user's message. *)
Lemma process_message_heap user_message history st :
  heap (snd (process_message user_message history st)) = heap st
  \/ exists rest,
       heap (snd (process_message user_message history st))
       = heap st
         ++ [heap_get (heap st) history
             ++ ChatMessage.Build USER user_message None None :: rest].
Proof.
  remember (heap (snd (process_message user_message history st))) as h' eqn:Hh'.
  unfold process_message, try_except in Hh'.
  unfold bind at 1 in Hh'. unfold emit at 1 in Hh'. cbv iota beta in Hh'.
  set (sT := mkState (mcp st) (world st) (traffic st) (heap st) _) in Hh'.
  unfold bind at 1 in Hh'.
  pose proof (initialize_same_output sT) as [_ Hi].
  destruct (initialize sT) as [[[] | e] s1]; simpl in Hi;
    [ | left; subst h'; simpl; rewrite Hi; reflexivity ].
  unfold bind at 1 in Hh'.
  pose proof (list_tools_same_output s1) as [_ Hlt].
  destruct (list_tools s1) as [[tools | e] s2]; simpl in Hlt;
    [ | left; subst h'; simpl; rewrite Hlt, Hi; reflexivity ].
  right.
  unfold bind at 1 in Hh'. unfold list_copy at 1 in Hh'.
  cbv iota beta zeta in Hh'. unfold heap_alloc in Hh'. cbv iota beta in Hh'.
  unfold bind at 1 in Hh'. unfold list_append at 1 in Hh'.
  cbv iota beta in Hh'.
  match type of Hh' with
  | context [bind (tool_loop ?n ?m ?t) ?k ?s] =>
      assert (Hk : keeps (appends_to m) (bind (tool_loop n m t) k))
        by keeps_auto;
      destruct (Hk s) as [rest Hrest];
      destruct (bind (tool_loop n m t) k s) as [[[] | e] s3]
  end.
  - exists rest. subst h'. simpl in *. rewrite Hrest, Hlt, Hi. simpl.
    repeat (rewrite ?heap_get_last, ?heap_set_last).
    rewrite <- app_assoc. reflexivity.
  - exists rest. subst h'. simpl in *. rewrite Hrest, Hlt, Hi. simpl.
    repeat (rewrite ?heap_get_last, ?heap_set_last).
    rewrite <- app_assoc. reflexivity.
Qed.

(** C10: the history is the caller's.  A run of [process_message] leaves
    every list that exists when the run starts, the caller's [history]
    among them, with the items it had.  The store after the run is the
    store before it, with at most one more list: the working conversation,
    which starts with the items of [history] and the user's message; all
    the appends of the run (the user's message, the assistant turns, the
    tool turns) went to that new list. *)
Theorem history_is_left_unchanged user_message history st :
  history < length (heap st) ->
  heap_get (heap (snd (process_message user_message history st))) history
  = heap_get (heap st) history
  /\ (forall l,
        l < length (heap st) ->
        heap_get (heap (snd (process_message user_message history st))) l
        = heap_get (heap st) l)
  /\ (heap (snd (process_message user_message history st)) = heap st
      \/ exists rest,
           heap (snd (process_message user_message history st))
           = heap st
             ++ [heap_get (heap st) history
                 ++ ChatMessage.Build USER user_message None None :: rest]).
Proof.
  intros Hhistory.
  assert (Hall : forall l,
             l < length (heap st) ->
             heap_get (heap (snd (process_message user_message history st))) l
             = heap_get (heap st) l).
  { intros l Hl.
    destruct (process_message_heap user_message history st) as [H | [rest H]];
      rewrite H; [reflexivity | ].
    unfold heap_get. apply app_nth1, Hl. }
  split; [apply Hall, Hhistory | ].
  split; [exact Hall | apply process_message_heap].
Qed.


(** * More properties of the code *)

(** ** The tool-server client on the wire *)

(** [_send_notification] in one step: one request without id is posted,
    and whatever becomes of it, the call returns and the client object is
    as it was. *)
Lemma _send_notification_eq method st :
  _send_notification method st =
  (Ok tt,
   mkState (mcp st)
           (snd (post (world st) (notification_request (mcp st) method)))
           (traffic st ++ [Posted (notification_request (mcp st) method)])
           (heap st) (emitted st)).
Proof.
  unfold _send_notification, try_except, bind, get_client, http_post, ret,
    notification_request.
  simpl.
  destruct (post (world st) _) as [[resp | e] w]; reflexivity.
Qed.

(** A relation between states that only looks at the client object and at
    the log, and that every step of the client on the wire keeps, is kept
    by every operation of the client and by every run of the
    orchestrator. *)
Section Wire.
Context (R : State -> State -> Prop) {R_refl : Reflexive R}
        {R_trans : Transitive R}.
Hypothesis R_quiet :
  forall st st', mcp st' = mcp st -> traffic st' = traffic st -> R st st'.
Hypothesis R_put :
  forall st c,
    McpClient._request_id c = McpClient._request_id (mcp st) ->
    McpClient._session_id c = McpClient._session_id (mcp st)
    \/ McpClient._session_id c = None ->
    R st (mkState c (world st) (traffic st) (heap st) (emitted st)).
Hypothesis R_completed :
  forall st w req,
    R st (mkState (mcp st) w (traffic st ++ [Completed req]) (heap st)
            (emitted st)).
Hypothesis R_request :
  forall st w method params,
    R st (mkState (bump (mcp st)) w
            (traffic st ++ [Posted (rpc_request (mcp st) method params)])
            (heap st) (emitted st)).
Hypothesis R_notification :
  forall st w method,
    R st (mkState (mcp st) w
            (traffic st ++ [Posted (notification_request (mcp st) method)])
            (heap st) (emitted st)).

Lemma wire_emit ev : keeps R (emit ev).
Proof. intros st. apply R_quiet; reflexivity. Qed.

Lemma wire_list_append l x : keeps R (list_append l x).
Proof. intros st. apply R_quiet; reflexivity. Qed.

Lemma wire_list_copy l : keeps R (list_copy l).
Proof. intros st. apply R_quiet; reflexivity. Qed.

Lemma wire_openai_create req : keeps R (openai_create req).
Proof.
  intros st. unfold openai_create.
  destruct (completions_create (world st) req) as [r w]. apply R_completed.
Qed.

Lemma wire__send_request method params : keeps R (_send_request method params).
Proof. intros st. rewrite _send_request_eq. apply R_request. Qed.

Lemma wire__send_notification method : keeps R (_send_notification method).
Proof. intros st. rewrite _send_notification_eq. apply R_notification. Qed.

Lemma wire_mark_initialized :
  keeps R
    (c1 <- get_client ;;
     put_client (McpClient.Build (McpClient._request_id c1) true
                   (McpClient._session_id c1) (McpClient._cached_tools c1))).
Proof. intros st. apply R_put; [reflexivity | left; reflexivity]. Qed.

Lemma wire_store_tools (fetched : list McpTool.t) :
  keeps R
    (c1 <- get_client ;;
     put_client (McpClient.Build (McpClient._request_id c1)
                   (McpClient._is_initialized c1) (McpClient._session_id c1)
                   fetched) ;;
     ret fetched).
Proof. intros st. apply R_put; [reflexivity | left; reflexivity]. Qed.

Lemma wire_disconnect : keeps R disconnect.
Proof.
  intros st. unfold disconnect, bind, get_client, put_client, http_aclose.
  simpl. eapply R_trans.
  - apply (R_put st (McpClient.Build (McpClient._request_id (mcp st)) false
                       None []));
      [reflexivity | right; reflexivity].
  - apply R_quiet; reflexivity.
Qed.

#[local] Hint Resolve wire_emit wire_list_append wire_list_copy
  wire_openai_create wire__send_request wire__send_notification
  wire_mark_initialized wire_store_tools : keeps.

Lemma wire_initialize : keeps R initialize.
Proof. unfold initialize. keeps_auto. Qed.

#[local] Hint Resolve wire_initialize : keeps.

Lemma wire__ensure_initialized : keeps R _ensure_initialized.
Proof. unfold _ensure_initialized. keeps_auto. Qed.

#[local] Hint Resolve wire__ensure_initialized : keeps.

Lemma wire_list_tools : keeps R list_tools.
Proof. unfold list_tools. keeps_auto. Qed.

Lemma wire_call_tool name arguments : keeps R (call_tool name arguments).
Proof. unfold call_tool. keeps_auto. Qed.

Lemma wire_chat messages tools : keeps R (chat messages tools).
Proof. unfold chat. keeps_auto. Qed.

#[local] Hint Resolve wire_list_tools wire_call_tool wire_chat : keeps.

Lemma wire_run_tool_call messages tc : keeps R (run_tool_call messages tc).
Proof. unfold run_tool_call. keeps_auto. Qed.

#[local] Hint Resolve wire_run_tool_call : keeps.

Lemma wire_run_tool_calls messages tcs : keeps R (run_tool_calls messages tcs).
Proof. induction tcs as [ | tc tcs IH]; simpl; keeps_auto. Qed.

#[local] Hint Resolve wire_run_tool_calls : keeps.

Lemma wire_tool_loop remaining messages tools :
  keeps R (tool_loop remaining messages tools).
Proof. induction remaining as [ | remaining IH]; simpl; keeps_auto. Qed.

#[local] Hint Resolve wire_tool_loop : keeps.

Lemma wire_process_message user_message history :
  keeps R (process_message user_message history).
Proof. unfold process_message. keeps_auto. Qed.

End Wire.


(** ** Request ids *)

Lemma request_ids_app log1 log2 :
  request_ids (log1 ++ log2) = request_ids log1 ++ request_ids log2.
Proof. unfold request_ids. apply flat_map_app. Qed.

Lemma StronglySorted_snoc (l : list Z) (x : Z) :
  StronglySorted Z.lt l ->
  Forall (fun i => (i < x)%Z) l ->
  StronglySorted Z.lt (l ++ [x]).
Proof.
  induction 1 as [ | y l Hs IH Hy]; intros Hlt; simpl.
  - constructor; constructor.
  - inversion Hlt as [ | ? ? Hyx Hl]; subst.
    constructor; [apply IH, Hl | ].
    apply Forall_app. split; [exact Hy | constructor; [exact Hyx | constructor]].
Qed.

#[local] Instance ids_kept_refl : Reflexive ids_kept.
Proof. intros st H. exact H. Qed.

#[local] Instance ids_kept_trans : Transitive ids_kept.
Proof. intros a b c H1 H2 H. apply H2, H1, H. Qed.

Lemma ids_kept_quiet st st' :
  mcp st' = mcp st -> traffic st' = traffic st -> ids_kept st st'.
Proof. intros Hm Ht. unfold ids_kept, ids_in_order. rewrite Hm, Ht. auto. Qed.

Lemma ids_kept_put st c :
  McpClient._request_id c = McpClient._request_id (mcp st) ->
  McpClient._session_id c = McpClient._session_id (mcp st)
  \/ McpClient._session_id c = None ->
  ids_kept st (mkState c (world st) (traffic st) (heap st) (emitted st)).
Proof.
  intros Hid _. unfold ids_kept, ids_in_order. simpl. rewrite Hid. auto.
Qed.

Lemma ids_kept_completed st w req :
  ids_kept st (mkState (mcp st) w (traffic st ++ [Completed req]) (heap st)
                 (emitted st)).
Proof.
  unfold ids_kept, ids_in_order. simpl.
  rewrite request_ids_app. simpl. rewrite app_nil_r. auto.
Qed.

Lemma request_ids_request log c method params :
  request_ids (log ++ [Posted (rpc_request c method params)])
  = request_ids log ++ [(McpClient._request_id c + 1)%Z].
Proof. rewrite request_ids_app. reflexivity. Qed.

Lemma ids_kept_request st w method params :
  ids_kept st (mkState (bump (mcp st)) w
                 (traffic st ++ [Posted (rpc_request (mcp st) method params)])
                 (heap st) (emitted st)).
Proof.
  unfold ids_kept, ids_in_order. simpl. rewrite request_ids_request.
  intros (Hc & Hs & Hb). split; [lia | ]. split.
  - apply StronglySorted_snoc; [exact Hs | ].
    eapply Forall_impl; [ | exact Hb ]. simpl. intros i Hi. lia.
  - apply Forall_app. split.
    + eapply Forall_impl; [ | exact Hb ]. simpl. intros i Hi. lia.
    + constructor; [lia | constructor].
Qed.

Lemma ids_kept_notification st w method :
  ids_kept st (mkState (mcp st) w
                 (traffic st ++ [Posted (notification_request (mcp st) method)])
                 (heap st) (emitted st)).
Proof.
  unfold ids_kept, ids_in_order. simpl.
  rewrite request_ids_app. simpl. rewrite app_nil_r. auto.
Qed.

(** X1: request ids are never reused.  [_send_request] takes the next
    value of the counter as the id of the request it posts, whether the
    post succeeds or not.  A client that has just been built has posted
    nothing; and [initialize], [list_tools], [call_tool], [disconnect] and
    every run of [process_message] keep this: the counter is not
    negative, and the ids of the requests posted so far are positive,
    strictly increasing in the order of posting, and at most the
    counter.  So the ids of a client start at 1 and no id is sent twice,
    also across a [disconnect]. *)
Theorem request_ids_strictly_increase :
  (forall w h out, ids_in_order (mkState McpClient.__init__ w [] h out))
  /\ (forall method params st,
        McpClient._request_id (mcp (snd (_send_request method params st)))
        = (McpClient._request_id (mcp st) + 1)%Z
        /\ request_ids (traffic (snd (_send_request method params st)))
           = request_ids (traffic st)
             ++ [(McpClient._request_id (mcp st) + 1)%Z])
  /\ keeps ids_kept initialize
  /\ keeps ids_kept list_tools
  /\ (forall name arguments, keeps ids_kept (call_tool name arguments))
  /\ keeps ids_kept disconnect
  /\ (forall user_message history,
        keeps ids_kept (process_message user_message history)).
Proof.
  split.
  { intros w h out. unfold ids_in_order. simpl.
    split; [lia | ]. split; constructor. }
  split.
  { intros method params st. rewrite _send_request_eq. simpl.
    split; [reflexivity | apply request_ids_request]. }
  split; [apply wire_initialize;
          first [exact _ | exact ids_kept_put | exact ids_kept_request
                | exact ids_kept_notification] | ].
  split; [apply wire_list_tools;
          first [exact _ | exact ids_kept_put | exact ids_kept_request
                | exact ids_kept_notification] | ].
  split; [intros name arguments; apply wire_call_tool;
          first [exact _ | exact ids_kept_put | exact ids_kept_request
                | exact ids_kept_notification] | ].
  split; [apply wire_disconnect;
          first [exact _ | exact ids_kept_quiet | exact ids_kept_put] | ].
  intros user_message history. apply wire_process_message;
    first [ exact _ | exact ids_kept_quiet | exact ids_kept_put
          | exact ids_kept_completed | exact ids_kept_request
          | exact ids_kept_notification ].
Qed.


(** ** The session header *)

#[local] Instance sessionless_kept_refl : Reflexive sessionless_kept.
Proof. intros st H. exact H. Qed.

#[local] Instance sessionless_kept_trans : Transitive sessionless_kept.
Proof. intros a b c H1 H2 H. apply H2, H1, H. Qed.

Lemma request_headers_without_session c :
  McpClient._session_id c = None -> request_headers c = base_headers.
Proof. intros H. unfold request_headers. rewrite H. reflexivity. Qed.

Lemma sessionless_kept_quiet st st' :
  mcp st' = mcp st -> traffic st' = traffic st -> sessionless_kept st st'.
Proof.
  intros Hm Ht. unfold sessionless_kept, sessionless. rewrite Hm, Ht. auto.
Qed.

Lemma sessionless_kept_put st c :
  McpClient._request_id c = McpClient._request_id (mcp st) ->
  McpClient._session_id c = McpClient._session_id (mcp st)
  \/ McpClient._session_id c = None ->
  sessionless_kept st (mkState c (world st) (traffic st) (heap st) (emitted st)).
Proof.
  intros _ Hs [Hnone Hlog]. split; [ | exact Hlog ]. simpl.
  destruct Hs as [Hs | Hs]; congruence.
Qed.

Lemma sessionless_kept_completed st w req :
  sessionless_kept st
    (mkState (mcp st) w (traffic st ++ [Completed req]) (heap st) (emitted st)).
Proof.
  intros [Hnone Hlog]. split; [exact Hnone | ]. simpl.
  apply Forall_app. split; [exact Hlog | repeat constructor].
Qed.

Lemma sessionless_kept_request st w method params :
  sessionless_kept st
    (mkState (bump (mcp st)) w
       (traffic st ++ [Posted (rpc_request (mcp st) method params)])
       (heap st) (emitted st)).
Proof.
  intros [Hnone Hlog]. split; [exact Hnone | ]. simpl.
  apply Forall_app. split; [exact Hlog | ].
  constructor; [ | constructor ]. simpl.
  apply request_headers_without_session. exact Hnone.
Qed.

Lemma sessionless_kept_notification st w method :
  sessionless_kept st
    (mkState (mcp st) w
       (traffic st ++ [Posted (notification_request (mcp st) method)])
       (heap st) (emitted st)).
Proof.
  intros [Hnone Hlog]. split; [exact Hnone | ]. simpl.
  apply Forall_app. split; [exact Hlog | ].
  constructor; [ | constructor ]. simpl.
  apply request_headers_without_session. exact Hnone.
Qed.

(** X2: no session is ever established.  The client starts without
    session id and nothing in [mcp_client.py] assigns one but
    [disconnect], which clears it: [initialize], [list_tools],
    [call_tool], [disconnect] and every run of [process_message] leave
    the session id at [None], and every request and notification they
    post carries exactly the four headers Content-Type, x-api-host,
    x-api-key and MCP-Protocol-Version, never Mcp-Session-Id. *)
Theorem session_header_is_never_sent :
  (forall w h out, sessionless (mkState McpClient.__init__ w [] h out))
  /\ keeps sessionless_kept initialize
  /\ keeps sessionless_kept list_tools
  /\ (forall name arguments, keeps sessionless_kept (call_tool name arguments))
  /\ keeps sessionless_kept disconnect
  /\ (forall user_message history,
        keeps sessionless_kept (process_message user_message history)).
Proof.
  split.
  { intros w h out. split; [reflexivity | constructor]. }
  split; [apply wire_initialize;
          first [exact _ | exact sessionless_kept_put
                | exact sessionless_kept_request
                | exact sessionless_kept_notification] | ].
  split; [apply wire_list_tools;
          first [exact _ | exact sessionless_kept_put
                | exact sessionless_kept_request
                | exact sessionless_kept_notification] | ].
  split; [intros name arguments; apply wire_call_tool;
          first [exact _ | exact sessionless_kept_put
                | exact sessionless_kept_request
                | exact sessionless_kept_notification] | ].
  split; [apply wire_disconnect;
          first [exact _ | exact sessionless_kept_quiet
                | exact sessionless_kept_put] | ].
  intros user_message history. apply wire_process_message;
    first [ exact _ | exact sessionless_kept_quiet | exact sessionless_kept_put
          | exact sessionless_kept_completed | exact sessionless_kept_request
          | exact sessionless_kept_notification ].
Qed.

(** ** The handshake *)

(** X3: a notification cannot fail.  [_send_notification] posts one
    request, whose body holds the method and no id, and returns, with the
    client object as it was, also when the post raises: the failure is
    dropped. *)
Theorem notification_failure_is_dropped method st :
  exists w,
    _send_notification method st
    = (Ok tt,
       mkState (mcp st) w
         (traffic st ++ [Posted (notification_request (mcp st) method)])
         (heap st) (emitted st))
    /\ json_body (notification_request (mcp st) method)
       = JObj [("jsonrpc", JStr "2.0"); ("method", JStr method)]
    /\ request_id_of (Posted (notification_request (mcp st) method)) = [].
Proof.
  eexists. split; [apply _send_notification_eq | ]. split; reflexivity.
Qed.

(** The state after the request of [initialize] has been posted and
    answered. *)
Lemma initialize_eq st :
  McpClient._is_initialized (mcp st) = false ->
  initialize st =
  (response <- _send_request "initialize" (Some initialize_params) ;;
   has_error <- lift (contains_error response) ;;
   if has_error then raise_mcp_exception response
   else
     _send_notification "notifications/initialized" ;;
     c1 <- get_client ;;
     put_client (McpClient.Build (McpClient._request_id c1) true
                   (McpClient._session_id c1) (McpClient._cached_tools c1)))
    st.
Proof.
  intros H. unfold initialize at 1. unfold bind at 1, get_client at 1.
  rewrite H. reflexivity.
Qed.

(** X4: a handshake the server accepts.  On a client that is not
    initialized, when the reply to the [initialize] request decodes to a
    value that does not contain "error", [initialize] returns, whatever
    becomes of the notification: it has posted the request, with the next
    id, and then the [notifications/initialized] notification, and
    nothing else; the client is initialized, its counter is one more, its
    session id and its cache are as they were. *)
Theorem accepted_handshake_posts_request_then_notification
    st resp response :
  McpClient._is_initialized (mcp st) = false ->
  fst (post (world st) (rpc_request (mcp st) "initialize" (Some initialize_params)))
  = Ok resp ->
  response_json resp = Ok response ->
  contains_error response = Ok false ->
  exists w,
    initialize st
    = (Ok tt,
       mkState
         (McpClient.Build (McpClient._request_id (mcp st) + 1) true
            (McpClient._session_id (mcp st)) (McpClient._cached_tools (mcp st)))
         w
         (traffic st
          ++ [Posted (rpc_request (mcp st) "initialize" (Some initialize_params));
              Posted (notification_request (bump (mcp st))
                        "notifications/initialized")])
         (heap st) (emitted st)).
Proof.
  intros Hinit Hpost Hjson Hok.
  rewrite (initialize_eq st Hinit).
  unfold bind at 1. rewrite _send_request_eq, Hpost. simpl rbind.
  rewrite Hjson. unfold bind at 1, lift at 1. rewrite Hok.
  unfold bind at 1. rewrite _send_notification_eq.
  eexists. unfold bind, get_client, put_client. simpl.
  rewrite <- app_assoc. reflexivity.
Qed.

(** X5: a handshake that fails.  When [initialize] raises on a client
    that is not initialized, it has posted the [initialize] request and
    nothing else (no notification), the counter is one more, and the
    client is still not initialized, with its session id and cache as
    they were: the next call starts the handshake again. *)
Theorem failed_handshake_leaves_client_uninitialized st e st' :
  McpClient._is_initialized (mcp st) = false ->
  initialize st = (Raise e, st') ->
  mcp st' = bump (mcp st)
  /\ McpClient._is_initialized (mcp st') = false
  /\ traffic st'
     = traffic st
       ++ [Posted (rpc_request (mcp st) "initialize" (Some initialize_params))]
  /\ heap st' = heap st
  /\ emitted st' = emitted st.
Proof.
  intros Hinit H.
  rewrite (initialize_eq st Hinit) in H.
  unfold bind at 1 in H. rewrite _send_request_eq in H.
  destruct (rbind _ response_json) as [response | e0].
  - unfold bind at 1, lift at 1 in H.
    destruct (contains_error response) as [[] | e1].
    + destruct (@raise_mcp_exception_raises unit response
                  (mkState (bump (mcp st))
                     (snd (post (world st)
                             (rpc_request (mcp st) "initialize"
                                (Some initialize_params))))
                     (traffic st
                      ++ [Posted (rpc_request (mcp st) "initialize"
                                    (Some initialize_params))])
                     (heap st) (emitted st))) as [e2 He2].
      rewrite He2 in H. injection H as _ <-. simpl.
      repeat split; try reflexivity. exact Hinit.
    + unfold bind at 1 in H. rewrite _send_notification_eq in H.
      discriminate H.
    + injection H as _ <-. simpl. repeat split; try reflexivity. exact Hinit.
  - injection H as _ <-. simpl. repeat split; try reflexivity. exact Hinit.
Qed.

(** X6: a handshake the server refuses.  When the reply to the
    [initialize] request is an object whose "error" is an object,
    [initialize] raises [McpException] with the code and the message of
    that object, -1 and "Unknown error" standing for the ones that are
    missing. *)
Theorem refused_handshake_raises_mcp_exception st resp d err :
  McpClient._is_initialized (mcp st) = false ->
  fst (post (world st) (rpc_request (mcp st) "initialize" (Some initialize_params)))
  = Ok resp ->
  response_json resp = Ok (JObj d) ->
  dict_get "error" d = Some (JObj err) ->
  fst (initialize st)
  = Raise (McpException (dict_get_default "code" (JInt (-1)) err)
             (dict_get_default "message" (JStr "Unknown error") err))
  /\ exn_str (McpException (dict_get_default "code" (JInt (-1)) err)
                (dict_get_default "message" (JStr "Unknown error") err))
     = py_str (dict_get_default "message" (JStr "Unknown error") err).
Proof.
  intros Hinit Hpost Hjson Herr. split; [ | reflexivity ].
  rewrite (initialize_eq st Hinit).
  unfold bind at 1. rewrite _send_request_eq, Hpost. simpl rbind.
  rewrite Hjson. unfold bind at 1, lift at 1.
  unfold contains_error, dict_has. rewrite Herr.
  unfold raise_mcp_exception, bind, lift, raise, subscript. rewrite Herr.
  reflexivity.
Qed.


(** ** The tool catalogue *)

Lemma bind_raise_inv {A B : Type} (m : M A) (f : A -> M B) st e st' :
  bind m f st = (Raise e, st') ->
  m st = (Raise e, st')
  \/ exists a st1, m st = (Ok a, st1) /\ f a st1 = (Raise e, st').
Proof.
  unfold bind. destruct (m st) as [[a | e0] st1]; intros H.
  - right. exists a, st1. split; [reflexivity | exact H].
  - left. injection H as <- <-. reflexivity.
Qed.

Lemma lift_inv {A : Type} (r : Result A) st r' st' :
  lift r st = (r', st') -> r' = r /\ st' = st.
Proof. unfold lift. intros H. injection H as <- <-. split; reflexivity. Qed.

(** X7: a failed listing leaves the cache alone.  When [list_tools]
    raises, whether in the handshake, in the exchange, on an error
    envelope or on an entry that is not a tool, the tool cache is as it
    was: the cache is assigned only once every entry has been
    converted. *)
Theorem failed_listing_keeps_cache st e st' :
  list_tools st = (Raise e, st') ->
  McpClient._cached_tools (mcp st') = McpClient._cached_tools (mcp st).
Proof.
  intros H. unfold list_tools in H.
  apply bind_raise_inv in H. destruct H as [H | ([] & s1 & Hens & H)].
  { pose proof (_ensure_initialized_same_cache st) as Hc.
    rewrite H in Hc. exact Hc. }
  pose proof (_ensure_initialized_same_cache st) as Hc1.
  rewrite Hens in Hc1. unfold same_cache in Hc1. simpl in Hc1.
  unfold bind at 1, get_client at 1 in H.
  destruct (list_truthy (McpClient._cached_tools (mcp s1))); [discriminate H | ].
  unfold bind at 1 in H. rewrite _send_request_eq in H.
  destruct (rbind _ response_json) as [response | e0];
    [ | injection H as _ <-; exact Hc1 ].
  match type of H with
  | ?k ?s = _ => set (s2 := s) in H
  end.
  assert (Hs2 : McpClient._cached_tools (mcp s2)
                = McpClient._cached_tools (mcp st)) by exact Hc1.
  unfold bind at 1, lift at 1 in H.
  destruct (contains_error response) as [[] | e1];
    [ | | injection H as _ <-; exact Hs2 ].
  { destruct (@raise_mcp_exception_raises (list McpTool.t) response s2)
      as [e2 He2].
    rewrite He2 in H. injection H as _ <-. exact Hs2. }
  unfold bind at 1, lift at 1 in H.
  destruct (get_method response "result" _) as [result | e1];
    [ | injection H as _ <-; exact Hs2 ].
  unfold bind at 1, lift at 1 in H.
  destruct (get_method result "tools" _) as [tools_array | e1];
    [ | injection H as _ <-; exact Hs2 ].
  unfold bind at 1, lift at 1 in H.
  destruct (py_iter tools_array) as [items | e1];
    [ | injection H as _ <-; exact Hs2 ].
  unfold bind at 1, lift at 1 in H.
  destruct (rmap make_tool items) as [fetched | e1];
    [ | injection H as _ <-; exact Hs2 ].
  discriminate H.
Qed.

Lemma list_tools_fetch_eq st :
  McpClient._is_initialized (mcp st) = true ->
  McpClient._cached_tools (mcp st) = [] ->
  list_tools st =
  (response <- _send_request "tools/list" None ;;
   has_error <- lift (contains_error response) ;;
   if has_error then raise_mcp_exception response
   else
     result <- lift (get_method response "result" (JObj [])) ;;
     tools_array <- lift (get_method result "tools" (JArr [])) ;;
     items <- lift (py_iter tools_array) ;;
     fetched <- lift (rmap make_tool items) ;;
     c1 <- get_client ;;
     put_client (McpClient.Build (McpClient._request_id c1)
                   (McpClient._is_initialized c1) (McpClient._session_id c1)
                   fetched) ;;
     ret fetched) st.
Proof.
  intros Hinit Hcache. unfold list_tools at 1.
  rewrite (bind_ok _ _ _ _ _ (_ensure_initialized_when_initialized st Hinit)).
  unfold bind at 1, get_client at 1. rewrite Hcache. reflexivity.
Qed.

Lemma rmap_Forall2 {A B : Type} (f : A -> Result B) l l' :
  rmap f l = Ok l' -> Forall2 (fun x y => f x = Ok y) l l'.
Proof.
  revert l'. induction l as [ | x l IH]; intros l' H; simpl in H.
  - injection H as <-. constructor.
  - destruct (f x) as [y | e] eqn:Hx; simpl in H; [ | discriminate ].
    destruct (rmap f l) as [ys | e]; simpl in H; [ | discriminate ].
    injection H as <-. constructor; [exact Hx | apply IH; reflexivity].
Qed.

Lemma make_tool_fields d tool :
  make_tool (JObj d) = Ok tool ->
  dict_get_default "name" (JStr EmptyString) d = JStr (McpTool.name tool)
  /\ validate_opt_str (dict_get_default "description" JNull d)
     = Ok (McpTool.description tool)
  /\ validate_opt_dict (dict_get_default "inputSchema" JNull d)
     = Ok (McpTool.input_schema tool).
Proof.
  unfold make_tool. simpl.
  destruct (dict_get_default "name" (JStr EmptyString) d); simpl;
    try discriminate.
  destruct (validate_opt_str _) as [description | e]; simpl;
    [ | discriminate ].
  destruct (validate_opt_dict _) as [schema | e]; simpl; [ | discriminate ].
  intros H. injection H as <-. simpl. repeat split.
Qed.

(** X8: the catalogue follows the server's list.  On an initialized
    client with an empty cache, let the reply to [tools/list] be an object
    with no "error" whose "result" holds the array [items] under "tools".
    Then [list_tools] returns what converting the entries one by one
    gives: the descriptors, as many as the entries and in their order,
    each with the name, description and schema of its entry, and they are
    the new cache; or the exception of the first entry that is not a
    tool, and the cache stays empty. *)
Theorem fetched_catalogue_follows_entries st resp d r items :
  McpClient._is_initialized (mcp st) = true ->
  McpClient._cached_tools (mcp st) = [] ->
  fst (post (world st) (rpc_request (mcp st) "tools/list" None)) = Ok resp ->
  response_json resp = Ok (JObj d) ->
  dict_get "error" d = None ->
  dict_get "result" d = Some (JObj r) ->
  dict_get "tools" r = Some (JArr items) ->
  fst (list_tools st) = rmap make_tool items
  /\ McpClient._cached_tools (mcp (snd (list_tools st)))
     = match rmap make_tool items with
       | Ok tools => tools
       | Raise _ => []
       end
  /\ (forall tools,
        rmap make_tool items = Ok tools ->
        Forall2 (fun item tool => make_tool item = Ok tool) items tools
        /\ length tools = length items)
  /\ (forall entry tool,
        make_tool (JObj entry) = Ok tool ->
        dict_get_default "name" (JStr EmptyString) entry
        = JStr (McpTool.name tool)).
Proof.
  intros Hinit Hcache Hpost Hjson Herr Hresult Htools.
  assert (Heq : list_tools st
                = match rmap make_tool items with
                  | Ok tools =>
                      (Ok tools,
                       mkState
                         (McpClient.Build (McpClient._request_id (mcp st) + 1)
                            (McpClient._is_initialized (mcp st))
                            (McpClient._session_id (mcp st)) tools)
                         (snd (post (world st)
                                 (rpc_request (mcp st) "tools/list" None)))
                         (traffic st
                          ++ [Posted (rpc_request (mcp st) "tools/list" None)])
                         (heap st) (emitted st))
                  | Raise e =>
                      (Raise e,
                       mkState (bump (mcp st))
                         (snd (post (world st)
                                 (rpc_request (mcp st) "tools/list" None)))
                         (traffic st
                          ++ [Posted (rpc_request (mcp st) "tools/list" None)])
                         (heap st) (emitted st))
                  end).
  { rewrite (list_tools_fetch_eq st Hinit Hcache).
    unfold bind at 1. rewrite _send_request_eq, Hpost. simpl rbind.
    rewrite Hjson. unfold bind at 1, lift at 1.
    unfold contains_error, dict_has. rewrite Herr.
    unfold bind at 1, lift at 1. unfold get_method at 1, dict_get_default.
    rewrite Hresult.
    unfold bind at 1, lift at 1. unfold get_method at 1, dict_get_default.
    rewrite Htools.
    unfold bind at 1, lift at 1. unfold py_iter.
    unfold bind at 1, lift at 1.
    destruct (rmap make_tool items) as [tools | e]; reflexivity. }
  split; [rewrite Heq; destruct (rmap make_tool items); reflexivity | ].
  split.
  { rewrite Heq. destruct (rmap make_tool items); [reflexivity | ].
    simpl. exact Hcache. }
  split.
  { intros tools Hok. pose proof (rmap_Forall2 _ _ _ Hok) as HF.
    split; [exact HF | ]. symmetry. eapply Forall2_length, HF. }
  intros entry tool Hmk. apply (make_tool_fields entry tool Hmk).
Qed.

(** X9: a reply that names no tools.  On an initialized client with an
    empty cache, when the reply to [tools/list] is an object with no
    "error" that has no "result", or whose "result" is an object with no
    "tools", [list_tools] returns the empty list; the cache stays empty,
    so the next call asks the server again. *)
Theorem reply_without_tools_is_empty_catalogue st resp d :
  McpClient._is_initialized (mcp st) = true ->
  McpClient._cached_tools (mcp st) = [] ->
  fst (post (world st) (rpc_request (mcp st) "tools/list" None)) = Ok resp ->
  response_json resp = Ok (JObj d) ->
  dict_get "error" d = None ->
  dict_get "result" d = None
  \/ (exists r, dict_get "result" d = Some (JObj r) /\ dict_get "tools" r = None) ->
  fst (list_tools st) = Ok []
  /\ McpClient._cached_tools (mcp (snd (list_tools st))) = []
  /\ McpClient._is_initialized (mcp (snd (list_tools st))) = true.
Proof.
  intros Hinit Hcache Hpost Hjson Herr Hshape.
  assert (Heq : list_tools st
                = (Ok [],
                   mkState
                     (McpClient.Build (McpClient._request_id (mcp st) + 1)
                        (McpClient._is_initialized (mcp st))
                        (McpClient._session_id (mcp st)) [])
                     (snd (post (world st)
                             (rpc_request (mcp st) "tools/list" None)))
                     (traffic st
                      ++ [Posted (rpc_request (mcp st) "tools/list" None)])
                     (heap st) (emitted st))).
  { rewrite (list_tools_fetch_eq st Hinit Hcache).
    unfold bind at 1. rewrite _send_request_eq, Hpost. simpl rbind.
    rewrite Hjson.
    unfold bind at 1. unfold lift at 1. unfold contains_error, dict_has.
    rewrite Herr.
    unfold bind at 1. unfold lift at 1.
    unfold get_method at 1, dict_get_default.
    destruct Hshape as [Hnone | (r & Hr & Hnone)].
    - rewrite Hnone. reflexivity.
    - rewrite Hr.
      unfold bind at 1. unfold lift at 1.
      unfold get_method at 1, dict_get_default.
      rewrite Hnone. reflexivity. }
  rewrite Heq. simpl. repeat split. exact Hinit.
Qed.


(** ** Tool calls on the wire *)

Lemma call_tool_eq st name arguments :
  McpClient._is_initialized (mcp st) = true ->
  call_tool name arguments st =
  (response <- _send_request "tools/call"
                 (Some (JObj [("name", JStr name);
                              ("arguments", JObj (string_args arguments))])) ;;
   has_error <- lift (contains_error response) ;;
   if has_error then raise_mcp_exception response
   else
     result <- lift (get_method response "result" (JObj [])) ;;
     content_array <- lift (get_method result "content" (JArr [])) ;;
     items <- lift (py_iter content_array) ;;
     contents <- lift (rmap make_content items) ;;
     is_error <- lift (get_method result "isError" (JBool false)) ;;
     is_error' <- lift (validate_bool is_error) ;;
     ret (McpToolResult.Build contents is_error')) st.
Proof.
  intros Hinit. unfold call_tool at 1.
  rewrite (bind_ok _ _ _ _ _ (_ensure_initialized_when_initialized st Hinit)).
  reflexivity.
Qed.

(** X10: a result that says nothing.  On an initialized client, when the
    reply to [tools/call] is an object with no "error" that has no
    "result", or whose "result" is an object with neither "content" nor
    "isError", [call_tool] returns a result with no content that is not
    an error; the orchestrator then yields [tool_complete] with the empty
    string for result and appends a [tool] turn with empty content. *)
Theorem silent_result_is_an_empty_success st messages tc resp d :
  McpClient._is_initialized (mcp st) = true ->
  messages < length (heap st) ->
  fst (post (world st)
         (rpc_request (mcp st) "tools/call"
            (Some (JObj [("name", JStr (ToolCall.name tc));
                         ("arguments",
                          JObj (string_args (ToolCall.arguments tc)))]))))
  = Ok resp ->
  response_json resp = Ok (JObj d) ->
  dict_get "error" d = None ->
  dict_get "result" d = None
  \/ (exists r, dict_get "result" d = Some (JObj r)
                /\ dict_get "content" r = None
                /\ dict_get "isError" r = None) ->
  fst (call_tool (ToolCall.name tc) (ToolCall.arguments tc) st)
  = Ok (McpToolResult.Build [] false)
  /\ emitted (snd (run_tool_call messages tc st))
     = emitted st
       ++ [start_event (ToolCall.name tc) (ToolCall.arguments tc);
           result_event TOOL_COMPLETE (ToolCall.name tc) EmptyString]
  /\ heap_get (heap (snd (run_tool_call messages tc st))) messages
     = heap_get (heap st) messages
       ++ [ChatMessage.Build TOOL EmptyString (Some (ToolCall.id tc)) None].
Proof.
  intros Hinit Halloc Hpost Hjson Herr Hshape.
  assert (Hcall : fst (call_tool (ToolCall.name tc) (ToolCall.arguments tc) st)
                  = Ok (McpToolResult.Build [] false)).
  { rewrite (call_tool_eq st _ _ Hinit).
    unfold bind at 1. rewrite _send_request_eq, Hpost. simpl rbind.
    rewrite Hjson.
    unfold bind at 1. unfold lift at 1. unfold contains_error, dict_has.
    rewrite Herr.
    unfold bind at 1. unfold lift at 1.
    unfold get_method at 1, dict_get_default.
    destruct Hshape as [Hnone | (r & Hr & Hcontent & Hflag)].
    - rewrite Hnone. reflexivity.
    - rewrite Hr.
      unfold bind at 1. unfold lift at 1.
      unfold get_method at 1, dict_get_default. rewrite Hcontent.
      unfold bind at 1. unfold lift at 1. unfold py_iter.
      unfold bind at 1. unfold lift at 1. unfold rmap.
      unfold bind at 1. unfold lift at 1.
      unfold get_method at 1, dict_get_default. rewrite Hflag.
      reflexivity. }
  split; [exact Hcall | ].
  rewrite run_tool_call_eq. cbv zeta. rewrite Hcall. simpl.
  split; [reflexivity | apply heap_get_set_same, Halloc].
Qed.

(** X11: a JSON-RPC error reaches the user.  On an initialized client,
    when the reply to [tools/call] is an object whose "error" is an
    object, [call_tool] raises [McpException] with its code and message
    (-1 and "Unknown error" when missing), and the orchestrator yields
    [tool_error] with "Tool execution failed: " followed by the [str] of
    the message, and appends the [tool] turn with that text. *)
Theorem rpc_error_is_reported_as_tool_error st messages tc resp d err :
  McpClient._is_initialized (mcp st) = true ->
  messages < length (heap st) ->
  fst (post (world st)
         (rpc_request (mcp st) "tools/call"
            (Some (JObj [("name", JStr (ToolCall.name tc));
                         ("arguments",
                          JObj (string_args (ToolCall.arguments tc)))]))))
  = Ok resp ->
  response_json resp = Ok (JObj d) ->
  dict_get "error" d = Some (JObj err) ->
  let message := dict_get_default "message" (JStr "Unknown error") err in
  let text := ("Tool execution failed: " ++ py_str message)%string in
  fst (call_tool (ToolCall.name tc) (ToolCall.arguments tc) st)
  = Raise (McpException (dict_get_default "code" (JInt (-1)) err) message)
  /\ emitted (snd (run_tool_call messages tc st))
     = emitted st
       ++ [start_event (ToolCall.name tc) (ToolCall.arguments tc);
           result_event TOOL_ERROR (ToolCall.name tc) text]
  /\ heap_get (heap (snd (run_tool_call messages tc st))) messages
     = heap_get (heap st) messages
       ++ [ChatMessage.Build TOOL text (Some (ToolCall.id tc)) None].
Proof.
  intros Hinit Halloc Hpost Hjson Herr message text.
  assert (Hcall : fst (call_tool (ToolCall.name tc) (ToolCall.arguments tc) st)
                  = Raise (McpException
                             (dict_get_default "code" (JInt (-1)) err) message)).
  { rewrite (call_tool_eq st _ _ Hinit).
    unfold bind at 1. rewrite _send_request_eq, Hpost. simpl rbind.
    rewrite Hjson.
    unfold bind at 1. unfold lift at 1. unfold contains_error, dict_has.
    rewrite Herr.
    unfold raise_mcp_exception, bind, lift, raise, subscript. rewrite Herr.
    reflexivity. }
  split; [exact Hcall | ].
  rewrite run_tool_call_eq. cbv zeta. rewrite Hcall. simpl.
  split; [reflexivity | apply heap_get_set_same, Halloc].
Qed.

(** ** Connecting and disconnecting *)

#[local] Instance log_grows_refl : Reflexive log_grows.
Proof. intros st. exists []. rewrite app_nil_r. reflexivity. Qed.

#[local] Instance log_grows_trans : Transitive log_grows.
Proof.
  intros a b c [r1 H1] [r2 H2]. exists (r1 ++ r2).
  rewrite H2, H1, app_assoc. reflexivity.
Qed.

Lemma log_grows_append st c w t :
  log_grows st (mkState c w (traffic st ++ [t]) (heap st) (emitted st)).
Proof. exists [t]. reflexivity. Qed.

Lemma _send_request_log_grows method params :
  keeps log_grows (_send_request method params).
Proof. intros st. rewrite _send_request_eq. apply log_grows_append. Qed.

Lemma _send_notification_log_grows method :
  keeps log_grows (_send_notification method).
Proof. intros st. rewrite _send_notification_eq. apply log_grows_append. Qed.

Lemma put_client_log_grows c : keeps log_grows (put_client c).
Proof. intros st. exists []. simpl. rewrite app_nil_r. reflexivity. Qed.

#[local] Hint Resolve _send_request_log_grows _send_notification_log_grows
  put_client_log_grows : keeps.

Lemma keeps_after_bind {A B : Type} (R : State -> State -> Prop)
    {R_refl : Reflexive R} (m : M A) (f : A -> M B) st :
  (forall a, keeps R (f a)) -> R (snd (m st)) (snd (bind m f st)).
Proof.
  intros Hf. unfold bind. destruct (m st) as [[a | e] st1]; simpl.
  - apply Hf.
  - apply R_refl.
Qed.

(** On a client that is not initialized, the first thing [initialize]
    posts is its request. *)
Lemma initialize_posts_request_first st :
  McpClient._is_initialized (mcp st) = false ->
  exists rest,
    traffic (snd (initialize st))
    = traffic st
      ++ Posted (rpc_request (mcp st) "initialize" (Some initialize_params))
         :: rest.
Proof.
  intros Hinit. rewrite (initialize_eq st Hinit).
  match goal with
  | |- context [bind ?m ?k st] =>
      destruct (keeps_after_bind log_grows m k st) as [rest Hrest];
        [intros ?; keeps_auto | ]
  end.
  exists rest. rewrite Hrest, _send_request_eq. simpl.
  rewrite <- app_assoc. reflexivity.
Qed.

Lemma _ensure_initialized_when_not_initialized st :
  McpClient._is_initialized (mcp st) = false ->
  _ensure_initialized st = initialize st.
Proof.
  intros H. unfold _ensure_initialized, bind, get_client. rewrite H.
  reflexivity.
Qed.

(** X12: [disconnect] and what follows.  [disconnect] returns and posts
    nothing; it clears the initialized flag, the session id and the tool
    cache, and keeps the request counter.  [is_connected] reads the flag
    and changes nothing: it answers [False] after a [disconnect] and
    [True] after an [initialize] that returned.  The next [list_tools]
    starts with a new handshake, whose request takes the id after the
    last one used before the [disconnect]. *)
Theorem disconnect_resets_all_but_the_counter st :
  (exists w,
     disconnect st
     = (Ok tt,
        mkState (McpClient.Build (McpClient._request_id (mcp st)) false None [])
          w (traffic st) (heap st) (emitted st)))
  /\ is_connected st = (Ok (McpClient._is_initialized (mcp st)), st)
  /\ (disconnect ;; is_connected) st = (Ok false, snd (disconnect st))
  /\ (forall st1, initialize st = (Ok tt, st1) -> is_connected st1 = (Ok true, st1))
  /\ (exists rest,
        traffic (snd (list_tools (snd (disconnect st))))
        = traffic st
          ++ Posted (rpc_request
                       (McpClient.Build (McpClient._request_id (mcp st)) false
                          None [])
                       "initialize" (Some initialize_params))
             :: rest).
Proof.
  split; [eexists; reflexivity | ].
  split; [reflexivity | ].
  split; [reflexivity | ].
  split.
  { intros st1 H. unfold is_connected, bind, get_client, ret.
    rewrite (proj1 (initialize_ok st st1 H)). reflexivity. }
  set (sd := snd (disconnect st)).
  assert (Hsd : McpClient._is_initialized (mcp sd) = false) by reflexivity.
  destruct (initialize_posts_request_first sd Hsd) as [rest2 Hrest2].
  unfold list_tools.
  match goal with
  | |- context [bind ?m ?k sd] =>
      destruct (keeps_after_bind log_grows m k sd) as [rest1 Hrest1];
        [intros ?; keeps_auto | ]
  end.
  rewrite Hrest1, (_ensure_initialized_when_not_initialized sd Hsd), Hrest2.
  exists (rest2 ++ rest1). simpl. rewrite <- app_assoc. reflexivity.
Qed.


(** ** The coerced arguments *)

Lemma dict_set_null_or_string k v d :
  Forall null_or_string d ->
  null_or_string (k, v) ->
  Forall null_or_string (dict_set k v d).
Proof.
  intros Hd Hv. induction Hd as [ | [k' v'] d Hkv Hd IH]; simpl.
  - constructor; [exact Hv | constructor].
  - destruct (String.eqb k k'); constructor; assumption.
Qed.

Lemma coerce_null_or_string k v : null_or_string (k, coerce v).
Proof.
  unfold null_or_string. simpl.
  destruct v; simpl; first [left; reflexivity | right; eexists; reflexivity].
Qed.

Lemma coerce_idempotent v : coerce (coerce v) = coerce v.
Proof. destruct v; reflexivity. Qed.

Lemma dict_get_map_values (f : json -> json) k d :
  dict_get k (map (fun kv => (fst kv, f (snd kv))) d)
  = option_map f (dict_get k d).
Proof.
  induction d as [ | [k' v'] d IH]; simpl; [reflexivity | ].
  destruct (String.eqb k k'); [reflexivity | exact IH].
Qed.

(** X13: what [call_tool] makes of its arguments.  Every value of the
    dict it sends is [None] or a string, whatever the arguments.  On a
    dict (distinct keys) the coercion keeps the keys and their order,
    looks up under every key the coercion of what the arguments hold
    there, and coercing twice is coercing once: arguments that are
    already strings or [None] are sent as they are. *)
Theorem coerced_arguments_are_strings_or_none arguments :
  NoDup (keys arguments) ->
  Forall null_or_string (string_args arguments)
  /\ keys (string_args arguments) = keys arguments
  /\ (forall k,
        dict_get k (string_args arguments)
        = option_map coerce (dict_get k arguments))
  /\ string_args (string_args arguments) = string_args arguments
  /\ (Forall null_or_string arguments -> string_args arguments = arguments).
Proof.
  intros Hnd.
  assert (Hkeys : forall (f : json -> json) (d : dict),
             keys (map (fun kv => (fst kv, f (snd kv))) d) = keys d).
  { intros f d. unfold keys. rewrite map_map. reflexivity. }
  split.
  { unfold string_args.
    assert (H : forall acc,
               Forall null_or_string acc ->
               Forall null_or_string
                 (fold_left (fun a kv => dict_set (fst kv) (coerce (snd kv)) a)
                    arguments acc)).
    { clear Hnd. induction arguments as [ | [k v] arguments IH]; intros acc Hacc.
      - exact Hacc.
      - simpl. apply IH. apply dict_set_null_or_string;
          [exact Hacc | apply coerce_null_or_string]. }
    apply H. constructor. }
  rewrite (string_args_map arguments Hnd).
  split; [apply Hkeys | ].
  split; [intros k; apply dict_get_map_values | ].
  split.
  { rewrite string_args_map by (rewrite Hkeys; exact Hnd).
    rewrite map_map. apply map_ext. intros [k v]. simpl.
    rewrite coerce_idempotent. reflexivity. }
  intros Hall. clear Hnd.
  induction Hall as [ | [k v] d Hkv _ IH]; simpl; [reflexivity | ].
  rewrite IH. f_equal.
  destruct Hkv as [Hv | [s Hv]]; simpl in Hv; subst v; reflexivity.
Qed.


(** ** The LLM turn client *)

(** X14: [chat] classifies, it does not raise.  Whatever the provider
    does, [chat] returns; it has asked the provider exactly once, with
    the request built from the turns and the tools, and has touched
    neither the tool-server client, nor the lists of messages, nor the
    events.  When the provider call raises [e], and when the completion
    has no choice, the answer is an [LlmError] whose message is the [str]
    of the exception. *)
Theorem chat_never_raises turns catalogue st :
  exists response w,
    chat turns catalogue st
    = (Ok response,
       mkState (mcp st) w
         (traffic st ++ [Completed (chat_request turns catalogue)])
         (heap st) (emitted st))
    /\ (forall e,
          fst (completions_create (world st) (chat_request turns catalogue))
          = Raise e ->
          response = LlmError (exn_str e) (Some e))
    /\ (forall completion,
          fst (completions_create (world st) (chat_request turns catalogue))
          = Ok completion ->
          choices completion = [] ->
          exists e, response = LlmError (exn_str e) (Some e)).
Proof.
  rewrite chat_eq. cbv zeta.
  eexists _, _. split; [reflexivity | ]. split.
  - intros e He. rewrite He. reflexivity.
  - intros completion Hc Hnone. rewrite Hc. simpl. unfold classify.
    rewrite Hnone. eexists. reflexivity.
Qed.

Lemma parse_tool_call_fields call tc :
  parse_tool_call call = Ok tc ->
  ToolCall.id tc = call_id call
  /\ ToolCall.name tc = function_name call
  /\ decoded_arguments call tc.
Proof.
  unfold parse_tool_call, decoded_arguments.
  destruct (json_loads (function_arguments call)) as [v | ].
  - destruct v; simpl; try discriminate.
    intros H. injection H as <-. simpl. repeat split.
  - simpl. intros H. injection H as <-. simpl. repeat split.
Qed.

Lemma Forall2_map_eq {A B C : Type} (f : A -> C) (g : B -> C) l l' :
  Forall2 (fun x y => f x = g y) l l' -> map f l = map g l'.
Proof. induction 1; simpl; congruence. Qed.

(** X15: the classification follows the reply.  When a reply is
    classified as tool calls, the calls come from the first choice; they
    are not none, as many as the function calls of that message and in
    their order, each with the id and the function name of its function
    call, and with the decoded arguments text for arguments (the empty
    dict when the text does not decode).  A first choice with no function
    call, or with an empty list of them, is classified as text: its
    content, or the empty string when it has none. *)
Theorem classification_follows_reply completion :
  (forall tcs,
     classify completion = Ok (ToolCallsResponse tcs) ->
     exists message others calls,
       choices completion = message :: others
       /\ message_tool_calls message = Some calls
       /\ tcs <> []
       /\ length tcs = length calls
       /\ map ToolCall.id tcs = map call_id calls
       /\ map ToolCall.name tcs = map function_name calls
       /\ Forall2 decoded_arguments calls tcs)
  /\ (forall message others,
        choices completion = message :: others ->
        message_tool_calls message = None
        \/ message_tool_calls message = Some [] ->
        classify completion
        = Ok (TextResponse match message_content message with
                           | Some s => s
                           | None => EmptyString
                           end)).
Proof.
  split.
  - intros tcs H. unfold classify in H.
    destruct (choices completion) as [ | message others]; [discriminate | ].
    destruct (message_tool_calls message) as [[ | call calls] | ] eqn:Hcalls;
      try discriminate.
    destruct (rmap parse_tool_call (call :: calls)) as [parsed | e] eqn:Hparse;
      simpl in H; [ | discriminate ].
    injection H as <-.
    pose proof (rmap_Forall2 _ _ _ Hparse) as HF.
    assert (HF' : Forall2 (fun c t => ToolCall.id t = call_id c
                                      /\ ToolCall.name t = function_name c
                                      /\ decoded_arguments c t)
                    (call :: calls) parsed).
    { eapply Forall2_impl; [ | exact HF ]. intros c t Hct.
      apply parse_tool_call_fields, Hct. }
    exists message, others, (call :: calls).
    split; [reflexivity | ]. split; [exact Hcalls | ].
    split.
    { intros Hnil. subst parsed. inversion HF. }
    split; [symmetry; eapply Forall2_length, HF | ].
    split.
    { symmetry. apply Forall2_map_eq.
      eapply Forall2_impl; [ | exact HF' ]. intros c t (Hid & _). symmetry.
      exact Hid. }
    split.
    { symmetry. apply Forall2_map_eq.
      eapply Forall2_impl; [ | exact HF' ]. intros c t (_ & Hn & _). symmetry.
      exact Hn. }
    eapply Forall2_impl; [ | exact HF' ]. intros c t (_ & _ & Hd). exact Hd.
  - intros message others Hc Hnone. unfold classify. rewrite Hc.
    destruct Hnone as [-> | ->];
      destruct (message_content message) as [[ | c s] | ]; reflexivity.
Qed.

Lemma openai_message_encodes msg : encodes msg (openai_message msg).
Proof.
  unfold encodes, openai_message.
  destruct msg as [role content [i | ] calls]; simpl.
  - destruct (str_truthy i) eqn:Hi; destruct calls as [[ | tc tcs] | ];
      eexists; (split; [reflexivity | ]); simpl; rewrite ?Hi;
      repeat split; reflexivity.
  - destruct calls as [[ | tc tcs] | ];
      eexists; (split; [reflexivity | ]); simpl; repeat split; reflexivity.
Qed.

(** X16: the request [chat] builds.  It names the configured model; its
    messages are the system prompt and then, in order, one object per
    turn, with the role and the content of the turn, its call id when it
    has one that is not empty, and its function calls when it has some;
    the tools are left out, together with the tool choice, exactly when
    no tool is offered, and otherwise there is one function tool per
    descriptor, in order, and the tool choice is "auto". *)
Theorem chat_request_follows_conversation turns catalogue :
  model (chat_request turns catalogue) = OPENAI_MODEL settings
  /\ (exists rest,
        messages (chat_request turns catalogue)
        = JObj [("role", JStr "system"); ("content", JStr SYSTEM_PROMPT)]
          :: rest
        /\ Forall2 encodes turns rest)
  /\ (tools (chat_request turns catalogue) = None
      <-> catalogue = None \/ catalogue = Some [])
  /\ (tool_choice (chat_request turns catalogue) = None
      <-> catalogue = None \/ catalogue = Some [])
  /\ (forall descriptors,
        catalogue = Some descriptors ->
        descriptors <> [] ->
        tools (chat_request turns catalogue) = Some (map openai_tool descriptors)
        /\ tool_choice (chat_request turns catalogue) = Some "auto").
Proof.
  split; [reflexivity | ].
  split.
  { eexists. split; [reflexivity | ].
    induction turns as [ | msg turns IH]; simpl; constructor;
      [apply openai_message_encodes | exact IH]. }
  unfold chat_request. simpl.
  destruct catalogue as [[ | t ts] | ]; simpl.
  - split; [split; auto | ]. split; [split; auto | ].
    intros descriptors H Hne. injection H as <-. congruence.
  - split; [split; [discriminate | intros [H | H]; discriminate] | ].
    split; [split; [discriminate | intros [H | H]; discriminate] | ].
    intros descriptors H _. injection H as <-. split; reflexivity.
  - split; [split; auto | ]. split; [split; auto | ].
    intros descriptors H. discriminate H.
Qed.

(** X17: the two message builders.  [build_tool_result_message] builds
    the very turn the orchestrator appends for a call: the provider gets
    it with the role "tool", the result, and the call id unless the id is
    empty.  [build_assistant_tool_call_message] does not keep the calls
    it is given: the provider would get the role and an empty content and
    no function calls, whereas the assistant turn the orchestrator
    appends carries them. *)
Theorem builders_and_the_turns_of_the_orchestrator messages tc tcs st :
  messages < length (heap st) ->
  (exists text,
     heap_get (heap (snd (run_tool_call messages tc st))) messages
     = heap_get (heap st) messages
       ++ [build_tool_result_message (ToolCall.id tc) text])
  /\ (forall i text,
        openai_message (build_tool_result_message i text)
        = JObj ([("role", JStr "tool"); ("content", JStr text)]
                ++ if str_truthy i then [("tool_call_id", JStr i)] else []))
  /\ openai_message (build_assistant_tool_call_message tcs)
     = JObj [("role", JStr "assistant"); ("content", JStr EmptyString)]
  /\ (tcs <> [] ->
      openai_message (assistant_turn tcs)
      = JObj [("role", JStr "assistant"); ("content", JStr EmptyString);
              ("tool_calls", JArr (map openai_tool_call tcs))]).
Proof.
  intros Halloc. split.
  { rewrite run_tool_call_eq. cbv zeta. simpl. eexists.
    apply heap_get_set_same, Halloc. }
  split.
  { intros i text. unfold openai_message, build_tool_result_message. simpl.
    destruct (str_truthy i); reflexivity. }
  split; [reflexivity | ].
  intros Hne.
  assert (Hmap : forall l,
             map openai_tool_call
               (map (fun tc0 => ToolCall.Build (ToolCall.id tc0)
                                  (ToolCall.name tc0) (ToolCall.arguments tc0)) l)
             = map openai_tool_call l).
  { intros l. rewrite map_map. apply map_ext. intros tc0. reflexivity. }
  unfold openai_message, assistant_turn. simpl.
  destruct tcs as [ | tc0 tcs0]; [congruence | ]. simpl.
  rewrite Hmap. reflexivity.
Qed.


(** ** The conversation of a run *)

Lemma run_tool_calls_turns messages tcs st :
  messages < length (heap st) ->
  exists turns closings st',
    run_tool_calls messages tcs st = (Ok tt, st')
    /\ Forall2 answers tcs turns
    /\ Forall2 reports turns closings
    /\ emitted st' = emitted st ++ batch_events tcs closings
    /\ heap st'
       = heap_set (heap st) messages (heap_get (heap st) messages ++ turns).
Proof.
  revert st. induction tcs as [ | tc tcs IH]; intros st Halloc.
  - exists [], [], st. simpl. rewrite !app_nil_r, heap_set_get.
    repeat split; constructor.
  - pose proof (run_tool_call_eq messages tc st) as Heq. cbv zeta in Heq.
    match type of Heq with
    | _ = (Ok tt, ?s) => set (s1 := s) in Heq
    end.
    assert (Halloc1 : messages < length (heap s1)).
    { subst s1. simpl. rewrite heap_set_length. exact Halloc. }
    destruct (IH s1 Halloc1) as (turns & closings & st' & Hrun & Ha & Hr & He & Hh).
    exists (ChatMessage.Build TOOL
              (outcome_text
                 (fst (call_tool (ToolCall.name tc) (ToolCall.arguments tc) st)))
              (Some (ToolCall.id tc)) None :: turns),
           (result_event
              (outcome_type
                 (fst (call_tool (ToolCall.name tc) (ToolCall.arguments tc) st)))
              (ToolCall.name tc)
              (outcome_text
                 (fst (call_tool (ToolCall.name tc) (ToolCall.arguments tc) st)))
            :: closings),
           st'.
    simpl run_tool_calls.
    rewrite (bind_ok _ _ _ _ _ Heq).
    split; [exact Hrun | ].
    split; [constructor; [ | exact Ha]; repeat split | ].
    split; [constructor; [ | exact Hr]; reflexivity | ].
    split.
    + rewrite He. subst s1. simpl. rewrite <- app_assoc. reflexivity.
    + rewrite Hh. subst s1. simpl.
      rewrite heap_get_set_same by exact Halloc.
      rewrite heap_set_set, <- app_assoc. reflexivity.
Qed.

(** X18: every call gets its turn.  In a pass whose turn is classified as
    the calls [tcs], the conversation gains the assistant turn that
    records the calls and then, for each call in order, one [tool] turn
    with the id of the call, whether the call succeeded or not; the
    content of that turn is the result carried by the event that closes
    the call.  Nothing else of the store changes. *)
Theorem every_call_gets_its_tool_turn messages tcs st :
  messages < length (heap st) ->
  exists turns closings st',
    (list_append messages (assistant_turn tcs) ;; run_tool_calls messages tcs) st
    = (Ok tt, st')
    /\ Forall2 answers tcs turns
    /\ Forall2 reports turns closings
    /\ emitted st' = emitted st ++ batch_events tcs closings
    /\ heap_get (heap st') messages
       = heap_get (heap st) messages ++ assistant_turn tcs :: turns
    /\ (forall l, l <> messages -> heap_get (heap st') l = heap_get (heap st) l)
    /\ length (heap st') = length (heap st).
Proof.
  intros Halloc.
  set (s1 := snd (list_append messages (assistant_turn tcs) st)).
  assert (Halloc1 : messages < length (heap s1)).
  { subst s1. simpl. rewrite heap_set_length. exact Halloc. }
  destruct (run_tool_calls_turns messages tcs s1 Halloc1)
    as (turns & closings & st' & Hrun & Ha & Hr & He & Hh).
  exists turns, closings, st'.
  split; [unfold bind; exact Hrun | ].
  split; [exact Ha | ]. split; [exact Hr | ]. split; [exact He | ].
  rewrite Hh. subst s1. simpl.
  rewrite (heap_get_set_same (heap st)) by exact Halloc.
  rewrite heap_set_set.
  split; [rewrite heap_get_set_same by exact Halloc;
          rewrite <- app_assoc; reflexivity | ].
  split; [intros l Hl; apply heap_get_set_other, Hl | apply heap_set_length].
Qed.

(** X19: the conversation only grows.  The loop never removes or rewrites
    a turn: after any number of passes the working conversation is the
    one the loop started with, followed by what the passes appended, and
    no other list of the store has changed. *)
Theorem conversation_only_grows remaining messages tools st :
  messages < length (heap st) ->
  exists appended,
    heap_get (heap (snd (tool_loop remaining messages tools st))) messages
    = heap_get (heap st) messages ++ appended
    /\ (forall l,
          l <> messages ->
          heap_get (heap (snd (tool_loop remaining messages tools st))) l
          = heap_get (heap st) l)
    /\ length (heap (snd (tool_loop remaining messages tools st)))
       = length (heap st).
Proof.
  intros Halloc.
  destruct (tool_loop_appends_to remaining messages tools st) as [rest Hrest].
  exists rest. rewrite Hrest.
  split; [apply heap_get_set_same, Halloc | ].
  split; [intros l Hl; apply heap_get_set_other, Hl | apply heap_set_length].
Qed.

(** ** The ways a run ends *)

Lemma bind_assoc {A B C : Type} (m : M A) (f : A -> M B) (g : B -> M C) st :
  bind (bind m f) g st = bind m (fun a => bind (f a) g) st.
Proof.
  unfold bind. destruct (m st) as [[a | e] st1]; reflexivity.
Qed.

Lemma setup_oblivious st out :
  (initialize ;; list_tools) (set_emitted st out)
  = (fst ((initialize ;; list_tools) st),
     set_emitted (snd ((initialize ;; list_tools) st)) out).
Proof.
  apply oblivious_bind; [apply oblivious_initialize | ].
  intros _. apply oblivious_list_tools.
Qed.

Lemma setup_same_output : keeps same_output (initialize ;; list_tools).
Proof. keeps_auto. Qed.

(** A run, once the handshake and the tool listing are done: the loop,
    started on the new conversation, and the error of the cap when the
    loop is left by its condition. *)
Lemma process_message_after_setup user_message history st tools s2 :
  (initialize ;; list_tools) st = (Ok tools, s2) ->
  process_message user_message history st
  = (exit <- tool_loop MAX_TOOL_ITERATIONS (length (heap st)) tools ;;
     match exit with
     | Returned => ret tt
     | Exhausted =>
         emit (text_event ERROR
                 "Maximum tool iterations reached. Please try again.")
     end) (loop_start st s2 history user_message).
Proof.
  intros Hsetup.
  pose proof (setup_oblivious st (emitted st ++ [thinking])) as Hobl.
  pose proof (setup_same_output st) as [_ Hheap].
  rewrite Hsetup in Hobl, Hheap. simpl in Hobl, Hheap.
  unfold process_message, try_except.
  unfold bind at 1. unfold emit at 1. fold thinking.
  change (mkState (mcp st) (world st) (traffic st) (heap st)
            (emitted st ++ [thinking]))
    with (set_emitted st (emitted st ++ [thinking])).
  cbv iota beta.
  match goal with
  | |- context [bind initialize (fun _ => bind list_tools ?K) ?s] =>
      rewrite <- (bind_assoc initialize (fun _ => list_tools) K s)
  end.
  rewrite (bind_ok _ _ _ _ _ Hobl).
  unfold bind at 1. unfold list_copy at 1. cbv iota beta zeta.
  unfold heap_alloc. cbv iota beta.
  unfold bind at 1. unfold list_append at 1. cbv iota beta.
  simpl heap. simpl mcp. simpl world. simpl traffic. simpl emitted.
  rewrite Hheap, heap_set_last, heap_get_last.
  fold (first_conversation st history user_message).
  fold (loop_start st s2 history user_message).
  destruct (tool_loop_events MAX_TOOL_ITERATIONS (length (heap st)) tools
              (loop_start st s2 history user_message))
    as (exit & s3 & pre & tail & Hloop & _).
  rewrite !(bind_ok _ _ _ _ _ Hloop).
  destruct exit; reflexivity.
Qed.

(** What a run does when its setup raises. *)
Lemma process_message_failed_setup user_message history st e s1 :
  (initialize ;; list_tools) st = (Raise e, s1) ->
  process_message user_message history st
  = (Ok tt,
     set_emitted s1
       (emitted st
        ++ [thinking;
            text_event ERROR ("An error occurred: " ++ exn_str e)%string]))
  /\ heap s1 = heap st
  /\ llm_calls (traffic s1) = llm_calls (traffic st).
Proof.
  intros Hsetup.
  pose proof (setup_oblivious st (emitted st ++ [thinking])) as Hobl.
  pose proof (setup_same_output st) as [_ Hheap].
  assert (Hcalls : keeps same_llm_calls (initialize ;; list_tools))
    by (apply keeps_bind; try exact _;
        [apply initialize_same_llm_calls
        | intros _; apply list_tools_same_llm_calls]).
  specialize (Hcalls st). unfold same_llm_calls in Hcalls.
  rewrite Hsetup in Hobl, Hheap, Hcalls. simpl in Hobl, Hheap, Hcalls.
  split; [ | split; assumption ].
  unfold process_message, try_except.
  unfold bind at 1. unfold emit at 1. fold thinking.
  change (mkState (mcp st) (world st) (traffic st) (heap st)
            (emitted st ++ [thinking]))
    with (set_emitted st (emitted st ++ [thinking])).
  cbv iota beta.
  match goal with
  | |- context [bind initialize (fun _ => bind list_tools ?K) ?s] =>
      rewrite <- (bind_assoc initialize (fun _ => list_tools) K s)
  end.
  rewrite (bind_raise _ _ _ _ _ Hobl).
  unfold emit, set_emitted. simpl. rewrite <- app_assoc. reflexivity.
Qed.

(** X20: a run whose handshake or tool listing fails.  When [initialize]
    or [list_tools] raises [e], the run returns; it has yielded
    [thinking] and then one [error] event, "An error occurred: " followed
    by the [str] of [e], and nothing else; it has not asked the provider,
    and the store of message lists is as it was. *)
Theorem failed_setup_ends_the_run user_message history st e s1 :
  (initialize ;; list_tools) st = (Raise e, s1) ->
  process_message user_message history st
  = (Ok tt,
     set_emitted s1
       (emitted st
        ++ [thinking;
            text_event ERROR ("An error occurred: " ++ exn_str e)%string]))
  /\ heap s1 = heap st
  /\ llm_calls (traffic s1) = llm_calls (traffic st).
Proof. apply process_message_failed_setup. Qed.

(** X21: a run whose first turn is final.  After a handshake and a tool
    listing that succeed, when the first reply of the provider is
    classified as text, the run yields [thinking], [response] with the
    text, and [done]; when it is classified as an error (the provider
    call raised, or the reply could not be read), the run yields
    [thinking] and [error] with "AI error: " followed by the message.  In
    both cases the provider was asked once, with the history followed by
    the user's message and the tools just listed, and no tool was
    called. *)
Theorem final_first_turn_ends_the_run user_message history st tools s2 :
  (initialize ;; list_tools) st = (Ok tools, s2) ->
  let request :=
    chat_request (first_conversation st history user_message) (Some tools) in
  let response := classified (fst (completions_create (world s2) request)) in
  (forall tcs, response <> ToolCallsResponse tcs) ->
  exists w,
    process_message user_message history st
    = (Ok tt,
       mkState (mcp s2) w (traffic s2 ++ [Completed request])
         (heap st ++ [first_conversation st history user_message])
         (emitted st ++ thinking :: final_events response)).
Proof.
  intros Hsetup request response Hfinal.
  rewrite (process_message_after_setup _ _ _ _ _ Hsetup).
  change MAX_TOOL_ITERATIONS with (S 9).
  unfold bind at 1. simpl tool_loop.
  unfold bind at 1. unfold list_read at 1.
  unfold loop_start at 1. simpl heap. rewrite heap_get_last.
  unfold bind at 1. rewrite chat_eq. cbv zeta.
  fold request. simpl world.
  change (match rbind (fst (completions_create (world s2) request)) classify with
          | Ok r => r
          | Raise e => LlmError (exn_str e) (Some e)
          end) with response.
  cbv iota beta.
  destruct response as [text | tcs | message cause].
  - eexists. unfold bind, emit, ret, loop_start. simpl.
    rewrite <- !app_assoc. reflexivity.
  - exfalso. apply (Hfinal tcs). reflexivity.
  - eexists. unfold bind, emit, ret, loop_start. simpl.
    rewrite <- !app_assoc. reflexivity.
Qed.

Lemma tool_loop_llm_calls_bound remaining messages tools st :
  llm_calls (traffic (snd (tool_loop remaining messages tools st)))
  <= llm_calls (traffic st) + remaining.
Proof.
  revert st. induction remaining as [ | remaining IH]; intros st.
  - simpl. lia.
  - destruct (chat (heap_get (heap st) messages) (Some tools) st)
      as [r st1] eqn:Hchat.
    pose proof (chat_llm_calls (heap_get (heap st) messages) (Some tools) st)
      as Hcalls.
    rewrite Hchat in Hcalls. simpl in Hcalls.
    pose proof Hchat as Hr. rewrite chat_eq in Hr. cbv zeta in Hr.
    injection Hr as Hr _.
    destruct r as [response | e]; [ | discriminate Hr ]. clear Hr.
    destruct response as [text | tcs | message cause].
    + simpl. unfold bind at 1. unfold list_read at 1.
      rewrite (bind_ok _ _ _ _ _ Hchat). simpl. lia.
    + rewrite (tool_loop_tool_calls _ _ _ _ _ _ Hchat).
      assert (Happ : traffic (snd (list_append messages (assistant_turn tcs) st1))
                     = traffic st1) by reflexivity.
      pose proof (run_tool_calls_same_llm_calls messages tcs
                    (snd (list_append messages (assistant_turn tcs) st1)))
        as Hsame.
      unfold same_llm_calls in Hsame. rewrite Happ in Hsame.
      specialize (IH (snd (run_tool_calls messages tcs
                             (snd (list_append messages (assistant_turn tcs) st1))))).
      lia.
    + simpl. unfold bind at 1. unfold list_read at 1.
      rewrite (bind_ok _ _ _ _ _ Hchat). simpl. lia.
Qed.

(** X22: the cap bounds every run.  Whatever the provider and the tool
    server do, a run of [process_message] asks the provider at most
    [MAX_TOOL_ITERATIONS] = 10 times. *)
Theorem a_run_asks_the_provider_at_most_ten_times user_message history st :
  llm_calls (traffic (snd (process_message user_message history st)))
  <= llm_calls (traffic st) + 10.
Proof.
  destruct ((initialize ;; list_tools) st) as [[tools | e] s2] eqn:Hsetup.
  - assert (Hcalls : keeps same_llm_calls (initialize ;; list_tools))
      by (apply keeps_bind; try exact _;
          [apply initialize_same_llm_calls
          | intros _; apply list_tools_same_llm_calls]).
    specialize (Hcalls st). unfold same_llm_calls in Hcalls.
    rewrite Hsetup in Hcalls. simpl in Hcalls.
    rewrite (process_message_after_setup _ _ _ _ _ Hsetup).
    pose proof (tool_loop_llm_calls_bound MAX_TOOL_ITERATIONS
                  (length (heap st)) tools
                  (loop_start st s2 history user_message)) as Hbound.
    unfold bind.
    destruct (tool_loop MAX_TOOL_ITERATIONS (length (heap st)) tools
                (loop_start st s2 history user_message))
      as [[[] | e] s3]; simpl in *; unfold MAX_TOOL_ITERATIONS in Hbound; lia.
  - destruct (process_message_failed_setup user_message history st e s2 Hsetup)
      as (Hrun & _ & Hcalls).
    rewrite Hrun. simpl. lia.
Qed.

Lemma a_run_starts_with_thinking_aux user_message history st :
  exists rest,
    emitted (snd (process_message user_message history st))
    = emitted st ++ thinking :: rest
    /\ rest <> [].
Proof.
  destruct ((initialize ;; list_tools) st) as [[tools | e] s2] eqn:Hsetup.
  - rewrite (process_message_after_setup _ _ _ _ _ Hsetup).
    destruct (tool_loop_events MAX_TOOL_ITERATIONS (length (heap st)) tools
                (loop_start st s2 history user_message))
      as (exit & s3 & pre & tail & Hloop & Hev & _ & Hexit).
    rewrite (bind_ok _ _ _ _ _ Hloop). simpl in Hev.
    destruct exit.
    + exists (pre ++ tail). simpl. rewrite Hev, <- app_assoc.
      split; [reflexivity | ].
      destruct Hexit as [[text ->] | [text ->]]; destruct pre; discriminate.
    + subst tail. eexists. simpl. rewrite Hev, app_nil_r, <- !app_assoc.
      split; [reflexivity | ].
      destruct pre; discriminate.
  - destruct (process_message_failed_setup user_message history st e s2 Hsetup)
      as (Hrun & _).
    rewrite Hrun. simpl. eexists. split; [reflexivity | discriminate].
Qed.


(** X23: every run starts with [thinking].  The first event of a run is
    [thinking], with the text "Analyzing your request...", and at least
    one more event follows. *)
Theorem a_run_starts_with_thinking user_message history st :
  exists rest,
    emitted (snd (process_message user_message history st))
    = emitted st ++ thinking :: rest
    /\ rest <> []
    /\ OrchestratorEvent.text thinking = Some "Analyzing your request...".
Proof.
  destruct (a_run_starts_with_thinking_aux user_message history st)
    as (rest & Hrest & Hne).
  exists rest. split; [exact Hrest | ]. split; [exact Hne | reflexivity].
Qed.

(** ** Startup and the event stream *)

(** X24: startup needs both keys.  [Settings.validate] returns [True]
    exactly when the OpenAI key and the RapidAPI key are both set to
    strings that are not empty, and never returns [False]; otherwise it
    raises [ValueError], naming the OpenAI key when that one is missing
    and the RapidAPI key when only that one is.  The orchestrator is
    built, with a client that has sent nothing, exactly when the settings
    are valid. *)
Theorem validate_needs_both_keys s :
  (validate s = inr true
   <-> OPENAI_API_KEY s <> EmptyString /\ RAPIDAPI_KEY s <> EmptyString)
  /\ validate s <> inr false
  /\ (OPENAI_API_KEY s = EmptyString ->
      validate s = inl "OPENAI_API_KEY environment variable is required")
  /\ (OPENAI_API_KEY s <> EmptyString ->
      RAPIDAPI_KEY s = EmptyString ->
      validate s = inl "RAPIDAPI_KEY environment variable is required")
  /\ (lifespan_startup s = inr McpClient.__init__ <-> validate s = inr true)
  /\ (forall message,
        lifespan_startup s = inl message <-> validate s = inl message).
Proof.
  unfold lifespan_startup, validate.
  destruct (OPENAI_API_KEY s) as [ | c1 k1];
    destruct (RAPIDAPI_KEY s) as [ | c2 k2]; simpl;
    repeat split; intros; try discriminate; try congruence;
    try (exfalso; intuition congruence); try tauto.
Qed.

Lemma process_message_returns user_message history st :
  exists st', process_message user_message history st = (Ok tt, st').
Proof.
  unfold process_message, try_except.
  match goal with
  | |- exists _, match ?body with _ => _ end = _ =>
      destruct body as [[[] | e] s]
  end; eexists; reflexivity.
Qed.

(** X25: the stream of [/api/chat].  [event_generator] yields one frame
    per event of the run of [process_message], in order, each made of
    "data: ", the serialized event and two newlines; the frame of
    [thinking] comes first and at least one more follows.  Since the run
    never raises, the "Server error" frame of the handler is never
    produced. *)
Theorem event_stream_frames_the_events model_dump_json message history st :
  let st' :=
    snd (process_message message history (set_emitted st [])) in
  event_generator model_dump_json message history st
  = (Ok (map (fun event => sse_frame (model_dump_json event)) (emitted st')),
     st')
  /\ length (map (fun event => sse_frame (model_dump_json event)) (emitted st'))
     = length (emitted st')
  /\ (exists rest,
        emitted st' = thinking :: rest
        /\ rest <> []
        /\ fst (event_generator model_dump_json message history st)
           = Ok (("data: " ++ model_dump_json thinking ++ newline ++ newline)%string
                 :: map (fun event => sse_frame (model_dump_json event)) rest)).
Proof.
  intros st'.
  assert (Heq : event_generator model_dump_json message history st
                = (Ok (map (fun event => sse_frame (model_dump_json event))
                         (emitted st')), st')).
  { unfold event_generator. subst st'. unfold set_emitted.
    destruct (process_message_returns message history
                (mkState (mcp st) (world st) (traffic st) (heap st) []))
      as [s Hs].
    rewrite Hs. reflexivity. }
  split; [exact Heq | ]. split; [apply length_map | ].
  destruct (a_run_starts_with_thinking_aux message history (set_emitted st []))
    as (rest & Hrest & Hne).
  exists rest. fold st' in Hrest. simpl in Hrest.
  split; [exact Hrest | ]. split; [exact Hne | ].
  rewrite Heq, Hrest. reflexivity.
Qed.

End Properties.

(** * Concrete runs *)

(** The scenario of the specification: one tool, one call, then the
    answer. *)
Example rail_run_events :
  map OrchestratorEvent.type
    (emitted (snd (process_message (E := rail_env) "What is the fare?" 0
                     (fresh_state (E := rail_env) (0, 0) []))))
  = [THINKING; TOOL_START; TOOL_COMPLETE; RESPONSE; DONE].
Proof. vm_compute. reflexivity. Qed.

(** A handshake the server refuses: the run ends in one error event, the
    client stays uninitialized, and the next [initialize] posts the
    request again, with the next id. *)
Example refused_handshake_is_retried :
  map OrchestratorEvent.type
    (emitted (snd (process_message "What is the fare?" 0 refusing_fresh)))
  = [THINKING; ERROR]
  /\ mcp (snd (initialize refusing_fresh)) = McpClient.Build 1 false None []
  /\ mcp (snd (initialize (snd (initialize refusing_fresh))))
     = McpClient.Build 2 false None [].
Proof. vm_compute. repeat split. Qed.

Lemma initialize_idempotent_witness :
  initialize rail_fresh = (Ok tt, rail_initialized)
  /\ mcp rail_initialized = McpClient.Build 1 true None []
  /\ initialize rail_initialized = (Ok tt, rail_initialized)
  /\ traffic (snd (initialize rail_initialized)) = traffic rail_initialized.
Proof.
  assert (H : initialize rail_fresh = (Ok tt, rail_initialized))
    by (vm_compute; reflexivity).
  split; [exact H | ].
  exact (proj2 (initialize_idempotent (E := rail_env) (0, 0) [] [[]] [])
           rail_initialized H).
Defined.

Lemma eager_always_tool_calls : always_tool_calls (E := eager_env).
Proof.
  intros messages tools st. rewrite chat_eq. eexists _, _. reflexivity.
Qed.

Lemma iteration_cap_is_ten_witness :
  always_tool_calls (E := eager_env)
  /\ bind initialize (fun _ => list_tools) eager_fresh
     = (Ok (McpClient._cached_tools (mcp eager_ready)), eager_ready)
  /\ exists st' pre,
       process_message "What is the fare?" 0 eager_fresh = (Ok tt, st')
       /\ llm_calls (traffic st') = llm_calls (traffic eager_fresh) + 10
       /\ emitted st'
          = emitted eager_fresh
            ++ [thinking] ++ pre
            ++ [text_event ERROR
                  "Maximum tool iterations reached. Please try again."]
       /\ Forall tool_event pre.
Proof.
  assert (H : bind initialize (fun _ => list_tools) eager_fresh
              = (Ok (McpClient._cached_tools (mcp eager_ready)), eager_ready))
    by (vm_compute; reflexivity).
  split; [exact eager_always_tool_calls | ].
  split; [exact H | ].
  exact (proj2 (iteration_cap_is_ten (E := eager_env) "What is the fare?" 0
                  eager_fresh _ _ eager_always_tool_calls H)).
Defined.

Lemma tool_batch_events_witness :
  exists closings st2,
    Forall2 closes [fare_call] closings
    /\ emitted st2 = emitted eager_ready ++ batch_events [fare_call] closings
    /\ tool_loop 10 0 [] eager_ready = tool_loop 9 0 [] st2.
Proof.
  refine (proj2 (tool_batch_events (E := eager_env) 0 [fare_call] eager_ready)
            9 [] (snd (chat (heap_get (heap eager_ready) 0) (Some []) eager_ready))
            _).
  vm_compute. reflexivity.
Defined.

Lemma call_tool_failure_is_reported_witness :
  exists st2 st3,
    run_tool_call 0 fare_call
      (snd (list_append 0 (assistant_turn [fare_call])
              (snd (chat [] (Some []) dropping_ready))))
    = (Ok tt, st2)
    /\ emitted st2
       = [start_event "get_fare" [];
          result_event TOOL_ERROR "get_fare"
            "Tool execution failed: connection reset"]
    /\ heap_get (heap st2) 0
       = [assistant_turn [fare_call];
          ChatMessage.Build TOOL "Tool execution failed: connection reset"
            (Some "call_1") None]
    /\ run_tool_calls 0 [] st2 = (Ok tt, st3)
    /\ tool_loop 10 0 [] dropping_ready = tool_loop 9 0 [] st3.
Proof.
  refine (call_tool_failure_is_reported (E := dropping_env) 9 0 [] dropping_ready
            (snd (chat [] (Some []) dropping_ready)) [] fare_call []
            (snd (list_append 0 (assistant_turn [fare_call])
                    (snd (chat [] (Some []) dropping_ready))))
            (External "connection reset")
            (snd (call_tool "get_fare" []
                    (snd (list_append 0 (assistant_turn [fare_call])
                            (snd (chat [] (Some []) dropping_ready))))))
            _ _ _ _).
  - vm_compute. reflexivity.
  - vm_compute. reflexivity.
  - vm_compute. reflexivity.
  - vm_compute. lia.
Defined.

Lemma list_tools_cached_once_filled_witness :
  list_tools rail_fresh
  = (Ok [McpTool.Build "get_fare" (Some "Fare of a train") None], rail_ready)
  /\ list_tools rail_ready
     = (Ok [McpTool.Build "get_fare" (Some "Fare of a train") None], rail_ready)
  /\ traffic (snd (list_tools rail_ready)) = traffic rail_ready.
Proof.
  assert (H : list_tools rail_fresh
              = (Ok [McpTool.Build "get_fare" (Some "Fare of a train") None],
                 rail_ready))
    by (vm_compute; reflexivity).
  split; [exact H | ].
  destruct (list_tools_cached_once_filled (E := rail_env) rail_fresh _ rail_ready H)
    as (H1 & H2 & _).
  - discriminate.
  - split; [exact H1 | exact H2].
Defined.

(** With a catalogue that is empty at first: the first [list_tools]
    returns the empty list, and the second one, with no [disconnect]
    between the two, posts [tools/list] again and returns another list. *)
Lemma list_tools_fetches_again_after_empty_list :
  list_tools late_fresh = (Ok [], late_listed)
  /\ fst (list_tools late_listed)
     = Ok [McpTool.Build "get_fare" (Some "Fare of a train") None]
  /\ traffic (snd (list_tools late_listed))
     = traffic late_listed
       ++ [Posted (rpc_request (E := late_catalogue_env) (mcp late_listed)
                     "tools/list" None)]
  /\ ~ list_tools_always_cached late_catalogue_env.
Proof.
  assert (H1 : list_tools late_fresh = (Ok [], late_listed))
    by (vm_compute; reflexivity).
  assert (H2 : list_tools late_listed
               = (Ok [McpTool.Build "get_fare" (Some "Fare of a train") None],
                  snd (list_tools late_listed)))
    by (vm_compute; reflexivity).
  split; [exact H1 | ].
  split; [rewrite H2; reflexivity | ].
  split; [vm_compute; reflexivity | ].
  intros H. destruct (H _ _ _ _ _ H1 H2) as [Heq _]. discriminate Heq.
Qed.

Lemma call_tool_sends_textual_arguments_witness :
  exists req,
    traffic (snd (call_tool "get_pnr"
                    [("pnr", JInt 12345); ("flag", JBool true); ("x", JNull)]
                    rail_fresh))
    = traffic rail_initialized ++ [Posted req]
    /\ json_body req
       = JObj [("jsonrpc", JStr "2.0");
               ("id", JInt 2);
               ("method", JStr "tools/call");
               ("params",
                JObj [("name", JStr "get_pnr");
                      ("arguments",
                       JObj [("pnr", JStr "12345"); ("flag", JStr "True");
                             ("x", JNull)])])].
Proof.
  refine (proj1 (call_tool_sends_textual_arguments (E := rail_env)
                   rail_fresh rail_initialized "get_pnr"
                   [("pnr", JInt 12345); ("flag", JBool true); ("x", JNull)]
                   _ _)).
  - vm_compute. reflexivity.
  - repeat constructor; simpl; intuition discriminate.
Defined.

Lemma undecodable_arguments_become_empty_witness :
  exists st1 s s' closing req,
    chat (heap_get (heap garbled_ready) 0) (Some []) garbled_ready
    = (Ok (ToolCallsResponse [fare_call]), st1)
    /\ run_tool_calls 0 [] (snd (list_append 0 (assistant_turn [fare_call]) st1))
       = (Ok tt, s)
    /\ run_tool_call 0 fare_call s = (Ok tt, s')
    /\ emitted s' = emitted s ++ [start_event "get_fare" []; closing]
    /\ traffic s' = traffic s ++ [Posted req]
    /\ json_body req
       = JObj [("jsonrpc", JStr "2.0");
               ("id", JInt (McpClient._request_id (mcp s) + 1));
               ("method", JStr "tools/call");
               ("params",
                JObj [("name", JStr "get_fare"); ("arguments", JObj [])])]
    /\ tool_loop 10 0 [] garbled_ready
       = tool_loop 9 0 [] (snd (run_tool_calls 0 [] s')).
Proof.
  refine (undecodable_arguments_become_empty (E := garbled_env) 9 0 []
            garbled_ready
            {| choices := [ {| message_content := None;
                               message_tool_calls :=
                                 Some [function_call "{train:"] |} ] |}
            (snd (completions_create (world garbled_ready)
                    (chat_request (E := garbled_env)
                       (heap_get (heap garbled_ready) 0) (Some []))))
            {| message_content := None;
               message_tool_calls := Some [function_call "{train:"] |}
            [] [] (function_call "{train:") [] [] []
            _ _ _ _ _ _ _).
  - vm_compute. reflexivity.
  - reflexivity.
  - reflexivity.
  - vm_compute. reflexivity.
  - reflexivity.
  - reflexivity.
  - vm_compute. reflexivity.
Defined.

Lemma tool_result_text_joins_nonempty_parts_witness :
  exists st2,
    run_tool_call 0 fare_call blank_part_ready = (Ok tt, st2)
    /\ emitted st2
       = [start_event "get_fare" [];
          result_event TOOL_COMPLETE "get_fare" ("a" ++ newline ++ "b")%string]
    /\ heap_get (heap st2) 0
       = [ChatMessage.Build TOOL ("a" ++ newline ++ "b")%string
            (Some "call_1") None].
Proof.
  destruct (tool_result_text_joins_nonempty_parts (E := blank_part_env) 0
              fare_call blank_part_ready
              (McpToolResult.Build
                 [McpContent.Build "text" (Some "a");
                  McpContent.Build "text" (Some EmptyString);
                  McpContent.Build "text" (Some "b")] false)
              (snd (call_tool "get_fare" [] blank_part_ready)))
    as (st2 & H1 & H2 & H3 & _).
  - vm_compute. reflexivity.
  - vm_compute. lia.
  - exists st2. split; [exact H1 | ]. split; [exact H2 | exact H3].
Defined.

(** A result whose parts carry the texts a, the empty text and b: the turn
    holds a, newline, b, whereas the three texts joined with newline are
    a, newline, newline, b. *)
Lemma tool_turn_drops_empty_text_parts :
  fst (call_tool "get_fare" [] blank_part_ready)
  = Ok (McpToolResult.Build
          [McpContent.Build "text" (Some "a");
           McpContent.Build "text" (Some EmptyString);
           McpContent.Build "text" (Some "b")] false)
  /\ heap_get (heap (snd (run_tool_call 0 fare_call blank_part_ready))) 0
     = [ChatMessage.Build TOOL ("a" ++ newline ++ "b")%string
          (Some "call_1") None]
  /\ joined_text_parts
       [McpContent.Build "text" (Some "a");
        McpContent.Build "text" (Some EmptyString);
        McpContent.Build "text" (Some "b")]
     = ("a" ++ newline ++ newline ++ "b")%string
  /\ ~ tool_turn_joins_text_parts blank_part_env.
Proof.
  assert (Hcall : call_tool "get_fare" [] blank_part_ready
                  = (Ok (McpToolResult.Build
                           [McpContent.Build "text" (Some "a");
                            McpContent.Build "text" (Some EmptyString);
                            McpContent.Build "text" (Some "b")] false),
                     snd (call_tool "get_fare" [] blank_part_ready)))
    by (vm_compute; reflexivity).
  split; [rewrite Hcall; reflexivity | ].
  split; [vm_compute; reflexivity | ].
  split; [vm_compute; reflexivity | ].
  intros H.
  specialize (H 0 fare_call blank_part_ready _ _ Hcall).
  assert (Halloc : 0 < length (heap blank_part_ready)) by (vm_compute; lia).
  specialize (H Halloc). vm_compute in H. discriminate H.
Qed.

Lemma history_is_left_unchanged_witness :
  heap_get (heap (snd (process_message "What is the fare?" 0 rail_fresh))) 0
  = heap_get (heap rail_fresh) 0.
Proof.
  refine (proj1 (history_is_left_unchanged (E := rail_env) "What is the fare?"
                   0 rail_fresh _)).
  vm_compute. lia.
Defined.

(** ** Concrete runs of the further properties *)

Definition refusal : PyExn :=
  McpException (JInt (-32000)) (JStr "access denied").

Definition fare_descriptor : McpTool.t :=
  McpTool.Build "get_fare" (Some "Fare of a train") None.

Lemma accepted_handshake_posts_request_then_notification_witness :
  exists w,
    initialize rail_fresh
    = (Ok tt,
       mkState (McpClient.Build 1 true None []) w
         [Posted (rpc_request (E := rail_env) McpClient.__init__ "initialize"
                    (Some initialize_params));
          Posted (notification_request (E := rail_env)
                    (McpClient.Build 1 false None [])
                    "notifications/initialized")]
         [[]] []).
Proof.
  refine (accepted_handshake_posts_request_then_notification (E := rail_env)
            rail_fresh {| response_json := Ok (result_envelope []) |}
            (result_envelope []) _ _ _ _);
    vm_compute; reflexivity.
Defined.

Lemma failed_handshake_leaves_client_uninitialized_witness :
  initialize refusing_fresh = (Raise refusal, snd (initialize refusing_fresh))
  /\ mcp (snd (initialize refusing_fresh)) = McpClient.Build 1 false None []
  /\ McpClient._is_initialized (mcp (snd (initialize refusing_fresh))) = false
  /\ traffic (snd (initialize refusing_fresh))
     = [Posted (rpc_request (E := refusing_env) McpClient.__init__ "initialize"
                  (Some initialize_params))].
Proof.
  assert (H : initialize refusing_fresh
              = (Raise refusal, snd (initialize refusing_fresh)))
    by (vm_compute; reflexivity).
  split; [exact H | ].
  destruct (failed_handshake_leaves_client_uninitialized (E := refusing_env)
              refusing_fresh refusal (snd (initialize refusing_fresh))
              eq_refl H)
    as (H1 & H2 & H3 & _).
  split; [exact H1 | ]. split; [exact H2 | exact H3].
Defined.

Lemma refused_handshake_raises_mcp_exception_witness :
  fst (initialize refusing_fresh) = Raise refusal
  /\ exn_str (E := refusing_env) refusal = "access denied".
Proof.
  refine (refused_handshake_raises_mcp_exception (E := refusing_env)
            refusing_fresh
            {| response_json :=
                 Ok (JObj [("jsonrpc", JStr "2.0"); ("id", JInt 1);
                           ("error", JObj [("code", JInt (-32000));
                                           ("message", JStr "access denied")])]) |}
            [("jsonrpc", JStr "2.0"); ("id", JInt 1);
             ("error", JObj [("code", JInt (-32000));
                             ("message", JStr "access denied")])]
            [("code", JInt (-32000)); ("message", JStr "access denied")]
            _ _ _ _);
    vm_compute; reflexivity.
Defined.

Lemma failed_listing_keeps_cache_witness :
  list_tools refusing_fresh = (Raise refusal, snd (list_tools refusing_fresh))
  /\ McpClient._cached_tools (mcp (snd (list_tools refusing_fresh))) = [].
Proof.
  assert (H : list_tools refusing_fresh
              = (Raise refusal, snd (list_tools refusing_fresh)))
    by (vm_compute; reflexivity).
  split; [exact H | ].
  exact (failed_listing_keeps_cache (E := refusing_env) refusing_fresh refusal
           (snd (list_tools refusing_fresh)) H).
Defined.

Lemma fetched_catalogue_follows_entries_witness :
  fst (list_tools rail_initialized) = Ok [fare_descriptor]
  /\ McpClient._cached_tools (mcp (snd (list_tools rail_initialized)))
     = [fare_descriptor].
Proof.
  destruct (fetched_catalogue_follows_entries (E := rail_env) rail_initialized
              {| response_json :=
                   Ok (result_envelope [("tools", JArr [fare_tool])]) |}
              [("jsonrpc", JStr "2.0"); ("id", JInt 1);
               ("result", JObj [("tools", JArr [fare_tool])])]
              [("tools", JArr [fare_tool])] [fare_tool])
    as (H1 & H2 & _); try (vm_compute; reflexivity).
  split; [exact H1 | exact H2].
Defined.

Lemma reply_without_tools_is_empty_catalogue_witness :
  fst (list_tools bare_initialized) = Ok []
  /\ McpClient._cached_tools (mcp (snd (list_tools bare_initialized))) = []
  /\ McpClient._is_initialized (mcp (snd (list_tools bare_initialized))) = true.
Proof.
  refine (reply_without_tools_is_empty_catalogue (E := bare_env)
            bare_initialized {| response_json := Ok (result_envelope []) |}
            [("jsonrpc", JStr "2.0"); ("id", JInt 1); ("result", JObj [])]
            _ _ _ _ _ _); try (vm_compute; reflexivity).
  right. exists []. split; vm_compute; reflexivity.
Defined.

Lemma silent_result_is_an_empty_success_witness :
  fst (call_tool "get_fare" [] bare_initialized)
  = Ok (McpToolResult.Build [] false)
  /\ emitted (snd (run_tool_call 0 fare_call bare_initialized))
     = [start_event "get_fare" [];
        result_event TOOL_COMPLETE "get_fare" EmptyString]
  /\ heap_get (heap (snd (run_tool_call 0 fare_call bare_initialized))) 0
     = [ChatMessage.Build TOOL EmptyString (Some "call_1") None].
Proof.
  refine (silent_result_is_an_empty_success (E := bare_env) bare_initialized 0
            fare_call {| response_json := Ok (result_envelope []) |}
            [("jsonrpc", JStr "2.0"); ("id", JInt 1); ("result", JObj [])]
            _ _ _ _ _ _); try (vm_compute; reflexivity).
  right. exists []. repeat split; vm_compute; reflexivity.
Defined.

Lemma rpc_error_is_reported_as_tool_error_witness :
  fst (call_tool "get_fare" [] rejecting_ready)
  = Raise (McpException (JInt (-32602)) (JStr "unknown train"))
  /\ emitted (snd (run_tool_call 0 fare_call rejecting_ready))
     = [start_event "get_fare" [];
        result_event TOOL_ERROR "get_fare"
          "Tool execution failed: unknown train"]
  /\ heap_get (heap (snd (run_tool_call 0 fare_call rejecting_ready))) 0
     = [ChatMessage.Build TOOL "Tool execution failed: unknown train"
          (Some "call_1") None].
Proof.
  refine (rpc_error_is_reported_as_tool_error (E := rejecting_env)
            rejecting_ready 0 fare_call
            {| response_json :=
                 Ok (JObj [("jsonrpc", JStr "2.0"); ("id", JInt 1);
                           ("error", JObj [("code", JInt (-32602));
                                           ("message", JStr "unknown train")])]) |}
            [("jsonrpc", JStr "2.0"); ("id", JInt 1);
             ("error", JObj [("code", JInt (-32602));
                             ("message", JStr "unknown train")])]
            [("code", JInt (-32602)); ("message", JStr "unknown train")]
            _ _ _ _ _); vm_compute; reflexivity.
Defined.

Definition fare_arguments : dict :=
  [("train", JInt 12951); ("class", JStr "3A"); ("quota", JNull)].

Lemma coerced_arguments_are_strings_or_none_witness :
  NoDup (keys fare_arguments)
  /\ keys (string_args (E := rail_env) fare_arguments) = ["train"; "class"; "quota"]
  /\ dict_get "train" (string_args (E := rail_env) fare_arguments)
     = Some (JStr "12951")
  /\ dict_get "quota" (string_args (E := rail_env) fare_arguments) = Some JNull
  /\ string_args (E := rail_env) (string_args (E := rail_env) fare_arguments)
     = string_args (E := rail_env) fare_arguments.
Proof.
  assert (H : NoDup (keys fare_arguments)).
  { repeat constructor; simpl; intuition discriminate. }
  split; [exact H | ].
  destruct (coerced_arguments_are_strings_or_none (E := rail_env)
              fare_arguments H)
    as (_ & Hkeys & Hget & Hidem & _).
  split; [exact Hkeys | ].
  split; [exact (Hget "train") | ].
  split; [exact (Hget "quota") | exact Hidem].
Defined.

Lemma builders_and_the_turns_of_the_orchestrator_witness :
  (exists text,
     heap_get (heap (snd (run_tool_call 0 fare_call rail_ready))) 0
     = [build_tool_result_message "call_1" text])
  /\ openai_message (E := rail_env) (build_assistant_tool_call_message [fare_call])
     = JObj [("role", JStr "assistant"); ("content", JStr EmptyString)]
  /\ openai_message (E := rail_env) (assistant_turn [fare_call])
     = JObj [("role", JStr "assistant"); ("content", JStr EmptyString);
             ("tool_calls", JArr [openai_tool_call (E := rail_env) fare_call])].
Proof.
  destruct (builders_and_the_turns_of_the_orchestrator (E := rail_env) 0
              fare_call [fare_call] rail_ready)
    as (H1 & _ & H3 & H4).
  - vm_compute. lia.
  - split; [exact H1 | ]. split; [exact H3 | ].
    apply H4. discriminate.
Defined.

Lemma every_call_gets_its_tool_turn_witness :
  exists turns closings st',
    bind (list_append 0 (assistant_turn [fare_call]))
      (fun _ => run_tool_calls 0 [fare_call]) rail_ready
    = (Ok tt, st')
    /\ Forall2 answers [fare_call] turns
    /\ Forall2 reports turns closings
    /\ emitted st' = batch_events [fare_call] closings
    /\ heap_get (heap st') 0 = assistant_turn [fare_call] :: turns.
Proof.
  destruct (every_call_gets_its_tool_turn (E := rail_env) 0 [fare_call]
              rail_ready)
    as (turns & closings & st' & H1 & H2 & H3 & H4 & H5 & _).
  - vm_compute. lia.
  - exists turns, closings, st'.
    split; [exact H1 | ]. split; [exact H2 | ]. split; [exact H3 | ].
    split; [exact H4 | exact H5].
Defined.

Lemma conversation_only_grows_witness :
  exists appended,
    heap_get (heap (snd (tool_loop 10 0 [fare_descriptor] rail_ready))) 0
    = appended
    /\ length (heap (snd (tool_loop 10 0 [fare_descriptor] rail_ready))) = 1.
Proof.
  destruct (conversation_only_grows (E := rail_env) 10 0 [fare_descriptor]
              rail_ready)
    as (appended & H1 & _ & H3).
  - vm_compute. lia.
  - exists appended. split; [exact H1 | exact H3].
Defined.

Lemma failed_setup_ends_the_run_witness :
  bind initialize (fun _ => list_tools) refusing_fresh
  = (Raise refusal, snd (initialize refusing_fresh))
  /\ process_message "What is the fare?" 0 refusing_fresh
     = (Ok tt,
        set_emitted (snd (initialize refusing_fresh))
          [thinking; text_event ERROR "An error occurred: access denied"])
  /\ llm_calls (traffic (snd (initialize refusing_fresh))) = 0.
Proof.
  assert (H : bind initialize (fun _ => list_tools) refusing_fresh
              = (Raise refusal, snd (initialize refusing_fresh)))
    by (vm_compute; reflexivity).
  split; [exact H | ].
  destruct (failed_setup_ends_the_run (E := refusing_env) "What is the fare?" 0
              refusing_fresh refusal (snd (initialize refusing_fresh)) H)
    as (H1 & _ & H3).
  split; [exact H1 | exact H3].
Defined.

Lemma final_first_turn_ends_the_run_witness :
  bind initialize (fun _ => list_tools) plain_fresh = (Ok [fare_descriptor], plain_ready)
  /\ exists st',
       process_message "Hello" 0 plain_fresh = (Ok tt, st')
       /\ emitted st'
          = [thinking; text_event RESPONSE "Hello"; bare_event DONE]
       /\ llm_calls (traffic st') = 1.
Proof.
  assert (H : bind initialize (fun _ => list_tools) plain_fresh
              = (Ok [fare_descriptor], plain_ready))
    by (vm_compute; reflexivity).
  split; [exact H | ].
  destruct (final_first_turn_ends_the_run (E := plain_env) "Hello" 0
              plain_fresh [fare_descriptor] plain_ready H)
    as [w Hw].
  - intros tcs Heq. vm_compute in Heq. discriminate Heq.
  - eexists. split; [exact Hw | ]. split; vm_compute; reflexivity.
Defined.
